(** * Policy Sentinel: the audit pipeline and its compliance statistics

    A shallow embedding of [app/schemas.py], [app/services/audit.py],
    [app/services/dashboard.py], [get_available_models] of
    [app/services/ingestion.py], [store_audit_result] of
    [app/services/database.py] and the streaming endpoint of [app/main.py].
    Output written with [print] is left out.

    Python values are modelled as follows.
    - [str] is [string]; slicing [s[:n]] is [substring 0 n s].
    - [float] is [pyfloat]: the exact rational value of a binary64 number,
      or one of inf, -inf and nan.  Every arithmetic operation rounds its
      exact result to binary64 ([b64]: to nearest, ties to even, overflow to
      an infinity); comparisons follow IEEE 754 (every comparison with nan
      is false).  The sign of a zero is not kept.
    - the value returned by [json.loads] is [json].
    - a raised exception is the [Raise] case of [result]; calls to the
      language model, the vector store and the database thread an abstract
      [World] through the state and error monad [M]. *)

From Stdlib Require Import List String Ascii Bool Arith ZArith QArith Lia.
From Stdlib Require Import Permutation Sorting.Sorted DecimalString.
From Stdlib Require Import SpecFloat.
Import ListNotations.

Set Warnings "-register-all".

Local Close Scope Q_scope.
Local Open Scope nat_scope.
Local Open Scope string_scope.
Local Open Scope list_scope.

(** ** Python floats *)

Inductive pyfloat : Type :=
| Fin (q : Q)
| PInf
| NInf
| NaN.

Definition Qltb (x y : Q) : bool := negb (Qle_bool y x).

(** [a < b] on floats. *)
Definition flt (a b : pyfloat) : bool :=
  match a, b with
  | NaN, _ | _, NaN => false
  | Fin x, Fin y => Qltb x y
  | Fin _, PInf => true
  | Fin _, NInf => false
  | PInf, _ => false
  | NInf, NInf => false
  | NInf, _ => true
  end.

(** [a > b] on floats. *)
Definition fgt (a b : pyfloat) : bool := flt b a.

(** [a <= b] on floats. *)
Definition fle (a b : pyfloat) : bool :=
  match a, b with
  | NaN, _ | _, NaN => false
  | Fin x, Fin y => Qle_bool x y
  | Fin _, PInf => true
  | Fin _, NInf => false
  | PInf, PInf => true
  | PInf, _ => false
  | NInf, _ => true
  end.

(** Equality of float values ([==] of Python on finite floats is equality of
    the rationals, whatever fraction represents them). *)
Definition feq (a b : pyfloat) : Prop :=
  match a, b with
  | Fin x, Fin y => (x == y)%Q
  | PInf, PInf | NInf, NInf => True
  | _, _ => False
  end.

(** Nearest integer to a rational, ties to the even one. *)
Definition round_half_even (q : Q) : Z :=
  let n := Qnum q in
  let d := Zpos (Qden q) in
  let fl := (n / d)%Z in
  match (2 * (n mod d) ?= d)%Z with
  | Lt => fl
  | Gt => (fl + 1)%Z
  | Eq => if Z.even fl then fl else (fl + 1)%Z
  end.

(** [2 ^ e] for an integer [e]. *)
Definition pow2 (e : Z) : Q :=
  match e with
  | Zneg p => 1 # (2 ^ p)
  | _ => inject_Z (2 ^ e)
  end.

(** The exponent [e] with [2 ^ e <= n / d < 2 ^ (e + 1)]. *)
Definition floor_log2 (n d : positive) : Z :=
  let e := (Z.log2 (Zpos n) - Z.log2 (Zpos d))%Z in
  if Qle_bool (pow2 e) (Zpos n # d) then e else (e - 1)%Z.

(** The binary64 number nearest to a rational, ties to the even
    significand.  The significand has 53 bits, or fewer when the exponent
    of its last bit is the least one, -1074; a result of magnitude 2 ^ 1024
    or more is an infinity. *)
Definition b64 (q : Q) : pyfloat :=
  match Qnum q with
  | Z0 => Fin 0
  | Zpos n | Zneg n =>
      let e := Z.max (floor_log2 n (Qden q) - 52) (-1074) in
      let r := (inject_Z (round_half_even (q / pow2 e)) * pow2 e)%Q in
      if Qle_bool (pow2 1024) r then PInf
      else if Qle_bool r (- pow2 1024) then NInf
      else Fin (Qred r)
  end.

Definition fneg (a : pyfloat) : pyfloat :=
  match a with
  | Fin x => Fin (- x)
  | PInf => NInf
  | NInf => PInf
  | NaN => NaN
  end.

(** An infinity multiplied or divided by a finite number. *)
Definition scaled_inf (inf : pyfloat) (q : Q) : pyfloat :=
  match Qnum q with
  | Z0 => NaN
  | Zpos _ => inf
  | Zneg _ => fneg inf
  end.

(** [a + b] on floats. *)
Definition fadd (a b : pyfloat) : pyfloat :=
  match a, b with
  | NaN, _ | _, NaN => NaN
  | PInf, NInf | NInf, PInf => NaN
  | PInf, _ | _, PInf => PInf
  | NInf, _ | _, NInf => NInf
  | Fin x, Fin y => b64 (x + y)
  end.

(** [a * b] on floats. *)
Definition fmul (a b : pyfloat) : pyfloat :=
  match a, b with
  | NaN, _ | _, NaN => NaN
  | Fin x, Fin y => b64 (x * y)
  | Fin x, inf | inf, Fin x => scaled_inf inf x
  | PInf, PInf | NInf, NInf => PInf
  | PInf, NInf | NInf, PInf => NInf
  end.

(** [a / b] on floats, for [b] other than zero (a zero divisor raises
    [ZeroDivisionError]). *)
Definition fdiv (a b : pyfloat) : pyfloat :=
  match a, b with
  | NaN, _ | _, NaN => NaN
  | Fin x, Fin y => b64 (x / y)
  | Fin _, _ => Fin 0
  | inf, Fin y => scaled_inf inf y
  | _, _ => NaN
  end.

(** [float(n)] for an [int] [n >= 0].  The [int]s converted below count the
    elements of a list, so that the conversion does not overflow. *)
Definition float_of_nat (n : nat) : pyfloat := b64 (inject_Z (Z.of_nat n)).

(** [a / n] for a float [a] and a positive [int] [n]: the [int] is
    converted to a float first. *)
Definition fdiv_nat (a : pyfloat) (n : nat) : pyfloat :=
  fdiv a (float_of_nat n).

(** [p / t] for two [int]s with [t > 0]: the true division of [int]s gives
    the float nearest to the exact quotient. *)
Definition true_div (p t : nat) : pyfloat :=
  b64 (inject_Z (Z.of_nat p) / inject_Z (Z.of_nat t)).

(** [(p / t) * 100] for two [int]s with [t > 0]: true division, then the
    product with the [int] 100, which is converted to the float 100.0. *)
Definition percent (p t : nat) : pyfloat :=
  fmul (true_div p t) (Fin 100).

(** The two-argument [min] and [max] builtins: the first argument is kept
    unless the second compares strictly below (above) it. *)
Definition py_min (a b : pyfloat) : pyfloat := if flt b a then b else a.
Definition py_max (a b : pyfloat) : pyfloat := if fgt b a then b else a.

(** [round(x, 1)] on a float of value [q]: the exact value is rounded to
    one decimal, ties to the even digit, and the decimal is converted back
    to the nearest float.  The conversion of the decimal does not overflow
    when [q] is the value of a float, so that the last case is not met. *)
Definition python_round1 (q : Q) : Q :=
  match b64 (round_half_even (q * 10) # 10) with
  | Fin r => r
  | _ => q
  end.

(** [round(x, 1)]: inf and nan are returned unchanged, as Python does. *)
Definition round_tenths (x : pyfloat) : pyfloat :=
  match x with
  | Fin q => Fin (python_round1 q)
  | other => other
  end.

(** *** The IEEE 754 specification of the Standard Library

    [SpecFloat] specifies the operations of binary64 (53 bits of precision,
    exponents below 1024) on its own representation of floats.  The
    operations above are compared with it on sample values. *)

Definition SF_of_Z (z : Z) : spec_float :=
  match z with
  | Z0 => S754_zero false
  | Zpos p => S754_finite false p 0
  | Zneg p => S754_finite true p 0
  end.

Definition value_of_SF (x : spec_float) : pyfloat :=
  match x with
  | S754_zero _ => Fin 0
  | S754_infinity false => PInf
  | S754_infinity true => NInf
  | S754_nan => NaN
  | S754_finite s m e =>
      Fin (Qred (inject_Z (if s then Zneg m else Zpos m) * pow2 e))
  end.

(** The quotient of two integers, the product and the sum of two such
    quotients, as [SpecFloat] computes them. *)
Definition SF_quotient (q : Q) : spec_float :=
  SFdiv 53 1024 (SF_of_Z (Qnum q)) (SF_of_Z (Zpos (Qden q))).

Definition SF_product (x y : Q) : spec_float :=
  SFmul 53 1024 (SF_quotient x) (SF_quotient y).

Definition SF_sum (x y : Q) : spec_float :=
  SFadd 53 1024 (SF_quotient x) (SF_quotient y).

Definition b64_samples : list Q :=
  [23 # 80; 36 # 125; 1 # 3; 2 # 3; 1 # 51; 1 # 50; 1 # 10; 1 # 20;
   287 # 10; 288 # 10; 333 # 10; 2875 # 100; 100 # 3; - (1 # 3);
   inject_Z (2 ^ 53 + 1); inject_Z (2 ^ 53 + 3); inject_Z (2 ^ 54 + 2);
   inject_Z (2 ^ 54 + 6); inject_Z (2 ^ 1023);
   inject_Z (2 ^ 1024 - 2 ^ 970 - 1); inject_Z (2 ^ 1024 - 2 ^ 970);
   inject_Z (2 ^ 1024); - inject_Z (2 ^ 1024);
   1 # (2 ^ 1074); 1 # (2 ^ 1075); 3 # (2 ^ 1075); 1 # (2 ^ 1076);
   5 # (2 ^ 1080); 7 # (2 ^ 1030); (2 ^ 60 + 1) # (2 ^ 1100);
   12345678912345678901234567 # 987]%Q.

(** The operands of the sample products and sums. *)
Definition b64_operands : list Q :=
  [23 # 80; 36 # 125; 1 # 3; 1 # 10; 2 # 10; 100; 2875 # 100; - (1 # 3);
   inject_Z (2 ^ 53 + 1); inject_Z (2 ^ 1023)]%Q.

(** ** Values decoded from JSON *)

Inductive json : Type :=
| JNull
| JBool (b : bool)
| JInt (z : Z)
| JFloat (f : pyfloat)
| JStr (s : string)
| JList (l : list json)
| JDict (d : list (string * json)).

(** [d.get(k)]: a [dict] is an association list with one entry per key. *)
Fixpoint dict_get (d : list (string * json)) (k : string) : option json :=
  match d with
  | [] => None
  | (k', v) :: d' => if String.eqb k' k then Some v else dict_get d' k
  end.

(** [d[k] = v]: overwrite the entry in place, or append a new one. *)
Fixpoint dict_set (d : list (string * json)) (k : string) (v : json)
  : list (string * json) :=
  match d with
  | [] => [(k, v)]
  | (k', v') :: d' =>
      if String.eqb k' k then (k', v) :: d' else (k', v') :: dict_set d' k v
  end.

(** Truth value of an object, as [not x] and [if x] test it. *)
Definition truthy (v : json) : bool :=
  match v with
  | JNull => false
  | JBool b => b
  | JInt z => negb (Z.eqb z 0)
  | JFloat (Fin q) => negb (Qeq_bool q 0)
  | JFloat _ => true
  | JStr s => negb (String.eqb s EmptyString)
  | JList l => match l with [] => false | _ => true end
  | JDict d => match d with [] => false | _ => true end
  end.

(** ** Exceptions and results *)

Inductive exn : Type :=
| JSONDecodeError (msg : string)
| ValidationError (model : string)
| TypeError
| ValueError
| KeyError (key : string)
| OverflowError
| ServiceError (msg : string).

Inductive result (A : Type) : Type :=
| Ok (a : A)
| Raise (e : exn).

Arguments Ok {A} a.
Arguments Raise {A} e.

Definition is_json_decode_error (e : exn) : bool :=
  match e with JSONDecodeError _ => true | _ => false end.

(** ** app/schemas.py *)

Inductive Status : Type := PASS | FAIL.

Record Rule : Type := mkRule {
  id : string;
  category : string;
  question : string
}.

Record Evidence : Type := mkEvidence {
  status : Status;
  confidence : pyfloat;
  quote : string;
  reason : string
}.

Record AuditItem : Type := mkAuditItem {
  model_name : string;
  rule_id : string;
  rule_question : string;
  rule_category : string;
  evidence : Evidence
}.

Record AuditResponse : Type := mkAuditResponse {
  policy_name : string;
  total_rules : nat;
  total_models : nat;
  rules : list Rule;
  audit_results : list AuditItem
}.

(** Validation of a required [str] field.  The models are pydantic v2 models
    ([database.py] calls [model_dump]): a [str] field takes a string and
    nothing else, and a missing required field is an error. *)
Definition str_field (v : option json) : option string :=
  match v with
  | Some (JStr s) => Some s
  | _ => None
  end.

(** Validation of [status: Literal["PASS", "FAIL"]]. *)
Definition status_field (v : option json) : option Status :=
  match v with
  | Some (JStr s) =>
      if String.eqb s "PASS" then Some PASS
      else if String.eqb s "FAIL" then Some FAIL
      else None
  | _ => None
  end.

(** [Rule(id=..., category=..., question=...)]; [None] is an absent keyword. *)
Definition Rule_init (i c q : option json) : result Rule :=
  match str_field i, str_field c, str_field q with
  | Some i', Some c', Some q' => Ok (mkRule i' c' q')
  | _, _, _ => Raise (ValidationError "Rule")
  end.

(** [Evidence(status=..., confidence=..., quote=..., reason=...)].  Every call
    in the program passes a [float] for [confidence] or leaves it out. *)
Definition Evidence_init (s : option json) (c : option pyfloat)
    (q r : option json) : result Evidence :=
  match status_field s, c, str_field q, str_field r with
  | Some s', Some c', Some q', Some r' => Ok (mkEvidence s' c' q' r')
  | _, _, _, _ => Raise (ValidationError "Evidence")
  end.

(** [AuditItem(model_name=..., rule_id=..., rule_question=...,
    rule_category=..., evidence=...)].  The evidence argument is an [Evidence]
    or the [dict()] of one, which validates back to it.  Keywords that name no
    field are ignored (the default of pydantic), so they are not arguments
    here. *)
Definition AuditItem_init (m i q c : option json) (e : option Evidence)
  : result AuditItem :=
  match str_field m, str_field i, str_field q, str_field c, e with
  | Some m', Some i', Some q', Some c', Some e' =>
      Ok (mkAuditItem m' i' q' c' e')
  | _, _, _, _, _ => Raise (ValidationError "AuditItem")
  end.

(** [Rule] with the entries of [rule_dict] as keyword arguments; the
    unpacked argument must be a mapping. *)
Definition Rule_of_value (v : json) : result Rule :=
  match v with
  | JDict d => Rule_init (dict_get d "id") (dict_get d "category")
                         (dict_get d "question")
  | _ => Raise TypeError
  end.

(** ** The state and error monad *)

Definition SE (S A : Type) : Type := S -> result A * S.

Definition ret {S A : Type} (a : A) : SE S A := fun s => (Ok a, s).

Definition bind {S A B : Type} (c : SE S A) (k : A -> SE S B) : SE S B :=
  fun s =>
    match c s with
    | (Ok a, s') => k a s'
    | (Raise e, s') => (Raise e, s')
    end.

(** A pure computation that may raise. *)
Definition lift {S A : Type} (r : result A) : SE S A := fun s => (r, s).

(** [try: body except Exception as e: handler(e)].  An exception raised by
    the handler itself is not caught. *)
Definition try_except {S A : Type} (body : SE S A) (handler : exn -> SE S A)
  : SE S A :=
  fun s =>
    match body s with
    | (Ok a, s') => (Ok a, s')
    | (Raise e, s') => handler e s'
    end.

Declare Scope se_scope.
Delimit Scope se_scope with se.
Notation "x <- c ;; k" := (bind c (fun x => k))
  (at level 61, c at next level, right associativity) : se_scope.
Local Open Scope se_scope.

(** [[f(x) for x in xs]] where [f] may raise: the first failure aborts. *)
Fixpoint map_result {A B : Type} (f : A -> result B) (xs : list A)
  : result (list B) :=
  match xs with
  | [] => Ok []
  | x :: xs' =>
      match f x with
      | Raise e => Raise e
      | Ok b =>
          match map_result f xs' with
          | Raise e => Raise e
          | Ok bs => Ok (b :: bs)
          end
      end
  end.

(** ** Library functions and external services *)

(** Functions of the Python library whose definition is outside the
    program.  They are parameters: nothing is assumed about them. *)
Class PyLib : Type := {
  (** [round(x, 1)] on a finite float. *)
  round1 : Q -> Q;
  (** [sum(xs)] for floats [xs]: the way the builtin adds them depends on
      the version of Python. *)
  py_sum : list pyfloat -> pyfloat;
  (** [float(s)] on a string; [None] is a [ValueError]. *)
  float_of_str : string -> option pyfloat;
  (** [str(e)] on an exception. *)
  str_of_exn : exn -> string;
  (** [str(v)], as an f-string formats a value. *)
  str_of_value : json -> string;
  (** The cleaning of a model response: [strip()], the three [re.sub] calls
      that remove a fenced-code wrapping, and [strip()] again. *)
  clean_response : string -> string;
  (** [json.loads]. *)
  json_loads : string -> result json;
  (** The f-string of [validate_policy_document], as a function of
      [sample_text]. *)
  validation_prompt : string -> string;
  (** The f-string of [extract_policy_rules], as a function of
      [truncated_text]. *)
  rules_prompt : string -> string;
  (** The f-string of [audit_model_against_rule], as a function of
      [rule.question] and of [context[:4000]]. *)
  audit_prompt : string -> string -> string
}.

(** The services the program calls.  Each call may change the world and may
    raise. *)
Class Services : Type := {
  World : Type;
  (** [os.getenv("GROQ_API_KEY")]. *)
  groq_api_key : World -> option string;
  (** [client.chat.completions.create(...)] followed by
      [.choices[0].message.content], given the key and the prompt.  [inl msg]
      is an error raised by the client (one of its own API or connection
      errors), [inr text] the content of the completion. *)
  chat_completion : string -> string -> World -> (string + string) * World;
  (** [vectorstore.similarity_search(query, k=k, filter={"model_name": m})]:
      the [page_content] of the chunks found. *)
  similarity_search : string -> nat -> string -> SE World (list string);
  (** [vectorstore.get()], read as [get_available_models] reads it.  [None]
      is a result that is empty or has no ["metadatas"]; otherwise one entry
      for each stored chunk: its ["model_name"], or [None] for a chunk whose
      metadata is empty or has no such key. *)
  vectorstore_get : SE World (option (list (option string)));
  (** [PdfReader]: the text of the pages of a PDF file. *)
  pdf_pages : list Byte.byte -> result (list string);
  (** [audits_collection.insert_one(audit_doc)], as [store_audit_result]
      calls it: the identifier of the inserted document, as a string. *)
  insert_audit : AuditResponse -> SE World string
}.

(** [round(x, 1)]: inf and nan are returned unchanged. *)
Definition py_round1 `{PyLib} (x : pyfloat) : pyfloat :=
  match x with
  | Fin q => Fin (round1 q)
  | other => other
  end.

(** [float(v)]. *)
Definition py_float `{PyLib} (v : json) : result pyfloat :=
  match v with
  | JFloat f => Ok f
  | JInt z =>
      if (Z.abs z <? 2 ^ 1024 - 2 ^ 970)%Z then Ok (b64 (inject_Z z))
      else Raise OverflowError
  | JBool b => Ok (Fin (if b then 1 else 0))
  | JStr s =>
      match float_of_str s with
      | Some f => Ok f
      | None => Raise ValueError
      end
  | JNull | JList _ | JDict _ => Raise TypeError
  end.

(** The values a [for] loop or a comprehension draws from an object. *)
Definition py_iter (v : json) : result (list json) :=
  match v with
  | JList l => Ok l
  | JDict d => Ok (map (fun kv => JStr (fst kv)) d)
  | JStr s =>
      Ok (map (fun c => JStr (String c EmptyString)) (list_ascii_of_string s))
  | JNull | JBool _ | JInt _ | JFloat _ => Raise TypeError
  end.

(** [v[k]] for a string key [k]. *)
Definition py_getitem (v : json) (k : string) : result json :=
  match v with
  | JDict d =>
      match dict_get d k with
      | Some x => Ok x
      | None => Raise (KeyError k)
      end
  | _ => Raise TypeError
  end.

Definition newline : string := String (ascii_of_nat 10) EmptyString.

(** ** app/services/ingestion.py *)

(** [sorted] on strings, by insertion. *)
Fixpoint insert_sorted (x : string) (l : list string) : list string :=
  match l with
  | [] => [x]
  | y :: l' => if String.leb x y then x :: l else y :: insert_sorted x l'
  end.

(** [sorted(list(set(names)))]: the distinct names in increasing order. *)
Definition sorted_set (names : list string) : list string :=
  fold_right insert_sorted [] (nodup string_dec names).

Section Ingestion.
Context `{Services}.

Definition get_available_models : SE World (list string) :=
  all_docs <- vectorstore_get ;;
  match all_docs with
  | None => ret []
  | Some metadatas =>
      ret (sorted_set
             (flat_map (fun metadata =>
                          match metadata with
                          | Some name => [name]
                          | None => []
                          end) metadatas))
  end.

End Ingestion.

(** ** app/services/audit.py *)

Section Audit.
Context `{PyLib} `{Services}.

Definition M (A : Type) : Type := SE World A.

Definition call_groq (prompt : string) : M string :=
  fun w =>
    match groq_api_key w with
    | None => (Raise ValueError, w)
    | Some api_key =>
        if String.eqb api_key EmptyString then (Raise ValueError, w)
        else
          match chat_completion api_key prompt w with
          | (inl msg, w') => (Raise (ServiceError msg), w')
          | (inr content, w') => (Ok content, w')
          end
    end.

Definition extract_text_from_pdf (pdf_bytes : list Byte.byte)
  : result string :=
  match pdf_pages pdf_bytes with
  | Ok text_parts => Ok (String.concat (newline ++ newline) text_parts)
  | Raise e => Raise e
  end.

Definition validate_policy_document (policy_text : string) : M json :=
  let sample_text := substring 0 5000 policy_text in
  let prompt := validation_prompt sample_text in
  try_except
    (response_text <- call_groq prompt ;;
     lift (json_loads (clean_response response_text)))
    (fun _ =>
       ret (JDict
              [("is_policy", JBool true);
               ("reasoning",
                JStr "Validation check could not be performed, proceeding with analysis")])).

Definition _get_fallback_rules : result (list Rule) :=
  map_result (fun a => a)
    [Rule_init (Some (JStr "1")) (Some (JStr "Safety"))
       (Some (JStr "Does the model document red-teaming or adversarial testing?"));
     Rule_init (Some (JStr "2")) (Some (JStr "Data"))
       (Some (JStr "Is the training data composition disclosed?"));
     Rule_init (Some (JStr "3")) (Some (JStr "Transparency"))
       (Some (JStr "Are model limitations clearly documented?"));
     Rule_init (Some (JStr "4")) (Some (JStr "Evaluation"))
       (Some (JStr "Are benchmark results provided?"));
     Rule_init (Some (JStr "5")) (Some (JStr "Documentation"))
       (Some (JStr "Is there a model card or system card available?"))].

Definition max_chars : nat := N.to_nat 15000.

(** The body of the [try] block of [extract_policy_rules]. *)
Definition extract_attempt (prompt : string) : M (list Rule) :=
  response_text <- call_groq prompt ;;
  rules_data <- lift (json_loads (clean_response response_text)) ;;
  rule_dicts <- lift (py_iter rules_data) ;;
  lift (map_result Rule_of_value rule_dicts).

Definition extract_policy_rules (policy_text : string) : M (list Rule) :=
  let truncated_text := substring 0 max_chars policy_text in
  let prompt := rules_prompt truncated_text in
  try_except (extract_attempt prompt)
    (fun e =>
       if is_json_decode_error e then lift _get_fallback_rules
       else lift _get_fallback_rules).

(** The lines of [audit_model_against_rule] that validate the confidence:
    the float stored under ["confidence"]. *)
Definition checked_confidence (evidence_data : json) : result pyfloat :=
  match evidence_data with
  | JDict d =>
      match dict_get d "confidence" with
      | Some c =>
          match py_float c with
          | Ok x => Ok (py_max (Fin 0) (py_min (Fin 100) x))
          | Raise e => Raise e
          end
      | None => Ok (Fin 50)
      end
  | _ => Raise TypeError
  end.

(** [Evidence] with the entries of [evidence_data] as keyword arguments,
    once [evidence_data["confidence"]] holds the float [c]. *)
Definition Evidence_of_data (evidence_data : json) (c : pyfloat)
  : result Evidence :=
  match evidence_data with
  | JDict d =>
      let d' := dict_set d "confidence" (JFloat c) in
      Evidence_init (dict_get d' "status") (Some c) (dict_get d' "quote")
                    (dict_get d' "reason")
  | _ => Raise TypeError
  end.

(** The body of the [try] block of [audit_model_against_rule]. *)
Definition audit_attempt (model_name : string) (rule : Rule) (top_k : nat)
  : M Evidence :=
  results <- similarity_search (question rule) top_k model_name ;;
  match results with
  | [] =>
      lift (Evidence_init (Some (JStr "FAIL")) (Some (Fin 20))
              (Some (JStr "No documentation available"))
              (Some (JStr "No documentation found for this model, assuming non-compliance.")))
  | _ =>
      let context :=
        String.concat (newline ++ newline ++ "---" ++ newline ++ newline)
                      results in
      let prompt := audit_prompt (question rule) (substring 0 4000 context) in
      response_text <- call_groq prompt ;;
      evidence_data <- lift (json_loads (clean_response response_text)) ;;
      c <- lift (checked_confidence evidence_data) ;;
      lift (Evidence_of_data evidence_data c)
  end.

Definition audit_model_against_rule (model_name : string) (rule : Rule)
    (top_k : nat) : M Evidence :=
  try_except (audit_attempt model_name rule top_k)
    (fun e =>
       if is_json_decode_error e then
         lift (Evidence_init (Some (JStr "FAIL")) (Some (Fin 10))
                 (Some (JStr "Error occurred during analysis"))
                 (Some (JStr "Error parsing LLM response.")))
       else
         lift (Evidence_init (Some (JStr "N/A")) None
                 (Some (JStr EmptyString))
                 (Some (JStr ("Error during audit: "
                              ++ substring 0 100 (str_of_exn e)))))).

(** The inner loop of [run_full_audit]: one model against every rule,
    appending to [audit_results]. *)
Fixpoint audit_rules (model_name : string) (rules : list Rule)
    (audit_results : list AuditItem) : M (list AuditItem) :=
  match rules with
  | [] => ret audit_results
  | rule :: rest =>
      evidence <- audit_model_against_rule model_name rule 3 ;;
      audit_item <- lift (AuditItem_init (Some (JStr model_name))
                            (Some (JStr (id rule)))
                            (Some (JStr (question rule)))
                            (Some (JStr (category rule)))
                            (Some evidence)) ;;
      audit_rules model_name rest (audit_results ++ [audit_item])
  end.

(** The outer loop of [run_full_audit]. *)
Fixpoint audit_models (model_names : list string) (rules : list Rule)
    (audit_results : list AuditItem) : M (list AuditItem) :=
  match model_names with
  | [] => ret audit_results
  | model_name :: rest =>
      audit_results' <- audit_rules model_name rules audit_results ;;
      audit_models rest rules audit_results'
  end.

Definition run_full_audit (model_names : list string) (rules : list Rule)
  : M (list AuditItem) :=
  audit_models model_names rules [].

End Audit.

(** ** app/services/dashboard.py *)

(** One value of [model_stats]: the keys ["PASS"], ["FAIL"], ["total"] and
    ["avg_confidence"] (which accumulates the sum of the confidences). *)
Record ModelStats : Type := mkModelStats {
  stat_PASS : nat;
  stat_FAIL : nat;
  stat_total : nat;
  stat_avg_confidence : pyfloat
}.

(** One value of [category_stats]. *)
Record CategoryStats : Type := mkCategoryStats {
  cat_PASS : nat;
  cat_FAIL : nat
}.

Record ModelRanking : Type := mkModelRanking {
  rk_model_name : string;
  rk_compliance_score : pyfloat;
  rk_avg_confidence : pyfloat;
  rk_pass_count : nat;
  rk_fail_count : nat;
  rk_total_rules : nat
}.

Record CategoryBreakdown : Type := mkCategoryBreakdown {
  cb_category : string;
  cb_pass_rate : pyfloat;
  cb_pass_count : nat;
  cb_fail_count : nat
}.

Record DashboardStats : Type := mkDashboardStats {
  overall_compliance : pyfloat;
  avg_confidence : pyfloat;
  total_checks : nat;
  total_pass : nat;
  total_fail : nat;
  model_rankings : list ModelRanking;
  category_breakdown : list CategoryBreakdown;
  best_model : option string;
  worst_model : option string
}.

(** [d[k] = f(d[k])] on a [defaultdict]: a missing key is first given the
    default value, at the end of the dict; the keys keep their insertion
    order. *)
Fixpoint dd_update {V : Type} (default : V) (k : string) (f : V -> V)
    (d : list (string * V)) : list (string * V) :=
  match d with
  | [] => [(k, f default)]
  | (k', v) :: d' =>
      if String.eqb k' k then (k', f v) :: d'
      else (k', v) :: dd_update default k f d'
  end.

Definition status_eqb (a b : Status) : bool :=
  match a, b with
  | PASS, PASS | FAIL, FAIL => true
  | _, _ => false
  end.

(** The three updates of [model_stats[item.model_name]] for one item. *)
Definition bump_model (st : Status) (c : pyfloat) (s : ModelStats)
  : ModelStats :=
  mkModelStats
    (match st with PASS => S (stat_PASS s) | FAIL => stat_PASS s end)
    (match st with PASS => stat_FAIL s | FAIL => S (stat_FAIL s) end)
    (S (stat_total s))
    (fadd (stat_avg_confidence s) c).

(** The update of [category_stats[item.rule_category]] for one item. *)
Definition bump_category (st : Status) (s : CategoryStats) : CategoryStats :=
  match st with
  | PASS => mkCategoryStats (S (cat_PASS s)) (cat_FAIL s)
  | FAIL => mkCategoryStats (cat_PASS s) (S (cat_FAIL s))
  end.

Definition model_stats_step (acc : list (string * ModelStats))
    (item : AuditItem) : list (string * ModelStats) :=
  dd_update (mkModelStats 0%nat 0%nat 0%nat (Fin 0)) (model_name item)
    (bump_model (status (evidence item)) (confidence (evidence item))) acc.

Definition category_stats_step (acc : list (string * CategoryStats))
    (item : AuditItem) : list (string * CategoryStats) :=
  dd_update (mkCategoryStats 0%nat 0%nat) (rule_category item)
    (bump_category (status (evidence item))) acc.

(** [model_stats] after the first loop. *)
Definition model_stats_of (audit_results : list AuditItem)
  : list (string * ModelStats) :=
  fold_left model_stats_step audit_results [].

(** [category_stats] after the first loop. *)
Definition category_stats_of (audit_results : list AuditItem)
  : list (string * CategoryStats) :=
  fold_left category_stats_step audit_results [].

(** The local [compliance_score] of the second loop, before rounding. *)
Definition compliance_score_of (stats : ModelStats) : pyfloat :=
  if Nat.ltb 0 (stat_total stats) then percent (stat_PASS stats) (stat_total stats)
  else Fin 0.

(** The local [avg_confidence] of the second loop, before rounding. *)
Definition avg_confidence_of (stats : ModelStats) : pyfloat :=
  if Nat.ltb 0 (stat_total stats)
  then fdiv_nat (stat_avg_confidence stats) (stat_total stats)
  else Fin 0.

(** [list.sort(key=..., reverse=True)]: the stable sort by decreasing key.
    An element is placed before the first one whose key it is not below, so
    elements with equal keys keep their order. *)
Fixpoint insert_desc {A : Type} (key : A -> pyfloat) (x : A) (l : list A)
  : list A :=
  match l with
  | [] => [x]
  | y :: l' =>
      if flt (key x) (key y) then y :: insert_desc key x l' else x :: y :: l'
  end.

Fixpoint sort_desc {A : Type} (key : A -> pyfloat) (l : list A) : list A :=
  match l with
  | [] => []
  | x :: l' => insert_desc key x (sort_desc key l')
  end.

(** The models of a result list in order of first appearance. *)
Fixpoint first_appearances (names : list string) : list string :=
  match names with
  | [] => []
  | n :: rest =>
      n :: filter (fun m => negb (String.eqb n m)) (first_appearances rest)
  end.

Section Dashboard.
Context `{PyLib}.

Definition ranking_entry (kv : string * ModelStats) : ModelRanking :=
  let (name, stats) := kv in
  mkModelRanking name
    (py_round1 (compliance_score_of stats))
    (py_round1 (avg_confidence_of stats))
    (stat_PASS stats) (stat_FAIL stats) (stat_total stats).

(** [model_rankings] before the sort. *)
Definition unsorted_rankings (audit_results : list AuditItem)
  : list ModelRanking :=
  map ranking_entry (model_stats_of audit_results).

Definition breakdown_entry (kv : string * CategoryStats)
  : CategoryBreakdown :=
  let (cat, stats) := kv in
  let total := cat_PASS stats + cat_FAIL stats in
  let pass_rate :=
    if Nat.ltb 0 total then percent (cat_PASS stats) total else Fin 0 in
  mkCategoryBreakdown cat (py_round1 pass_rate)
    (cat_PASS stats) (cat_FAIL stats).

Definition count_status (st : Status) (audit_results : list AuditItem)
  : nat :=
  List.length
    (filter (fun item => status_eqb (status (evidence item)) st)
            audit_results).

Definition calculate_dashboard_stats (audit_results : list AuditItem)
    (rules : list Rule) : DashboardStats :=
  let rankings :=
    sort_desc rk_compliance_score (unsorted_rankings audit_results) in
  let breakdown := map breakdown_entry (category_stats_of audit_results) in
  let total_checks := List.length audit_results in
  let total_pass := count_status PASS audit_results in
  let total_fail := count_status FAIL audit_results in
  let overall :=
    if Nat.ltb 0 total_checks then percent total_pass total_checks else Fin 0 in
  let avg_overall :=
    if Nat.ltb 0 total_checks
    then fdiv_nat (py_sum (map (fun item => confidence (evidence item))
                               audit_results))
                  total_checks
    else Fin 0 in
  mkDashboardStats
    (py_round1 overall) (py_round1 avg_overall)
    total_checks total_pass total_fail
    rankings breakdown
    (match rankings with
     | [] => None
     | first :: _ => Some (rk_model_name first)
     end)
    (match rankings with
     | [] => None
     | _ => Some (rk_model_name (last rankings (mkModelRanking EmptyString (Fin 0) (Fin 0) 0%nat 0%nat 0%nat)))
     end).

End Dashboard.

(** ** app/main.py: the generator of [analyze_policy_stream] *)

(** One server-sent event; [data] is the object given to [json.dumps]. *)
Record Event : Type := mkEvent {
  event : string;
  data : json
}.

Definition string_of_nat (n : nat) : string :=
  NilEmpty.string_of_uint (Nat.to_uint n).

Definition JNat (n : nat) : json := JInt (Z.of_nat n).

(** The character U+2713, in UTF-8. *)
Definition check_mark : string :=
  String (ascii_of_nat 226)
    (String (ascii_of_nat 156) (String (ascii_of_nat 147) EmptyString)).

(** One dict appended to the local [audit_results] of the generator: the keys
    ["model_name"], ["rule"] and ["evidence"]. *)
Record StreamItem : Type := mkStreamItem {
  item_model_name : string;
  item_rule : Rule;
  item_evidence : Evidence
}.

Section Stream.
Context `{PyLib} `{Services}.

(** A generator body: it appends to the events yielded so far and acts on
    the world. *)
Definition Gen (A : Type) : Type := SE (list Event * World) A.

Definition yield (e : Event) : Gen unit :=
  fun s => (Ok tt, (fst s ++ [e], snd s)).

Definition run {A : Type} (c : M A) : Gen A :=
  fun s => let (r, w) := c (snd s) in (r, (fst s, w)).

Definition progress_event (d : list (string * json)) : Event :=
  mkEvent "progress" (JDict d).

Definition error_event (msg : string) : Event :=
  mkEvent "error" (JDict [("error", JStr msg)]).

Definition store_audit_result (audit_response : AuditResponse) : M string :=
  insert_audit audit_response.

(** [AuditItem] with the entries of a dict of the generator as keyword
    arguments: ["model_name"] and ["evidence"] name fields, ["rule"] names
    none; [rule_id], [rule_question] and [rule_category] are absent. *)
Definition AuditItem_of_stream_item (item : StreamItem) : result AuditItem :=
  AuditItem_init (Some (JStr (item_model_name item))) None None None
                 (Some (item_evidence item)).

(** The event yielded before a cell is audited. *)
Definition checking_event (model : string) (model_idx n_models : nat)
    (rule : Rule) (rule_idx n_rules : nat) : Event :=
  progress_event
    [("stage", JStr "auditing");
     ("message", JStr ("Checking rule " ++ string_of_nat rule_idx
                       ++ "/" ++ string_of_nat n_rules
                       ++ " for " ++ model));
     ("model", JStr model);
     ("model_number", JNat model_idx);
     ("total_models", JNat n_models);
     ("rule_number", JNat rule_idx);
     ("total_rules", JNat n_rules);
     ("rule_category", JStr (category rule))].

(** The event yielded after a cell is audited. *)
Definition result_event (model : string) (rule : Rule) (evidence : Evidence)
    (completed total_audits : nat) : Event :=
  mkEvent "result" (JDict
    [("model", JStr model);
     ("rule_id", JStr (id rule));
     ("rule_category", JStr (category rule));
     ("rule_question", JStr (question rule));
     ("status", JStr (match status evidence with
                      | PASS => "PASS"
                      | FAIL => "FAIL"
                      end));
     ("completed", JNat completed);
     ("total", JNat total_audits);
     ("progress", JFloat (py_round1 (percent completed total_audits)))]).

(** The inner loop: the rules from number [rule_idx] on, for one model.
    The state of the loop is [audit_results] and [completed]. *)
Fixpoint stream_rules (model : string) (model_idx n_models n_rules : nat)
    (total_audits : nat) (rules : list Rule) (rule_idx : nat)
    (st : list StreamItem * nat) : Gen (list StreamItem * nat) :=
  match rules with
  | [] => ret st
  | rule :: rest =>
      _ <- yield (checking_event model model_idx n_models
                                 rule rule_idx n_rules) ;;
      evidence <- run (audit_model_against_rule model rule 3) ;;
      let audit_results := fst st ++ [mkStreamItem model rule evidence] in
      let completed := S (snd st) in
      _ <- yield (result_event model rule evidence completed total_audits) ;;
      stream_rules model model_idx n_models n_rules total_audits rest
                   (S rule_idx) (audit_results, completed)
  end.

(** The outer loop: the models from number [model_idx] on. *)
Fixpoint stream_models (n_models : nat) (rules : list Rule)
    (total_audits : nat) (model_names : list string) (model_idx : nat)
    (st : list StreamItem * nat) : Gen (list StreamItem * nat) :=
  match model_names with
  | [] => ret st
  | model :: rest =>
      st' <- stream_rules model model_idx n_models (List.length rules)
               total_audits rules 1 st ;;
      stream_models n_models rules total_audits rest (S model_idx) st'
  end.

(** Steps 3 (models) to 6 of the generator, once the rules are known. *)
Definition stream_audit (filename : string) (rules : list Rule)
  : Gen unit :=
  model_names <- run get_available_models ;;
  let total_audits := List.length model_names * List.length rules in
  _ <- yield (progress_event
         [("stage", JStr "audit_start");
          ("message", JStr ("Auditing "
                            ++ string_of_nat (List.length model_names)
                            ++ " models against "
                            ++ string_of_nat (List.length rules)
                            ++ " rules"));
          ("total_models", JNat (List.length model_names));
          ("total_rules", JNat (List.length rules));
          ("total_audits", JNat total_audits)]) ;;
  st <- stream_models (List.length model_names) rules total_audits
          model_names 1 ([], 0) ;;
  let audit_results := fst st in
  items <- lift (map_result AuditItem_of_stream_item audit_results) ;;
  let audit_response :=
    mkAuditResponse filename (List.length rules) (List.length model_names)
                    rules items in
  stored_id <- run (store_audit_result audit_response) ;;
  yield (mkEvent "complete" (JDict
    [("policy_name", JStr filename);
     ("total_rules", JNat (List.length rules));
     ("total_models", JNat (List.length model_names));
     ("total_audits", JNat (List.length audit_results));
     ("audit_id", JStr stored_id);
     ("message", JStr "Audit complete!")])).

(** Step 3 (rules) of the generator. *)
Definition stream_rules_step (filename policy_text : string) : Gen unit :=
  _ <- yield (progress_event
         [("stage", JStr "rules");
          ("message", JStr "Extracting compliance rules...")]) ;;
  rules <- run (extract_policy_rules policy_text) ;;
  match rules with
  | [] => yield (error_event "Failed to extract rules from policy")
  | _ =>
      _ <- yield (progress_event
             [("stage", JStr "rules_extracted");
              ("message", JStr ("Extracted "
                                ++ string_of_nat (List.length rules)
                                ++ " compliance rules"));
              ("total_rules", JNat (List.length rules))]) ;;
      stream_audit filename rules
  end.

(** The body of the [try] block of [event_generator]. *)
Definition event_generator_body (filename : string)
    (pdf_bytes : list Byte.byte) : Gen unit :=
  _ <- yield (progress_event
         [("stage", JStr "extraction");
          ("message", JStr ("Extracting text from " ++ filename ++ "..."))]) ;;
  policy_text <- lift (extract_text_from_pdf pdf_bytes) ;;
  if Nat.ltb (String.length policy_text) 100 then
    yield (error_event "PDF appears to be empty or unreadable")
  else
    _ <- yield (progress_event
           [("stage", JStr "validation");
            ("message", JStr "Validating policy document...")]) ;;
    validation_result <- run (validate_policy_document policy_text) ;;
    is_policy <- lift (py_getitem validation_result "is_policy") ;;
    if negb (truthy is_policy) then
      reasoning <- lift (py_getitem validation_result "reasoning") ;;
      yield (error_event ("Document does not appear to be a policy. "
                          ++ str_of_value reasoning))
    else
      reasoning <- lift (py_getitem validation_result "reasoning") ;;
      _ <- yield (progress_event
             [("stage", JStr "validation_passed");
              ("message", JStr (check_mark ++ " " ++ str_of_value reasoning))]) ;;
      stream_rules_step filename policy_text.

(** [event_generator]: every exception of the body becomes a last
    ["error"] event.  The result is the list of the events yielded. *)
Definition event_generator (filename : string) (pdf_bytes : list Byte.byte)
    (w : World) : list Event * World :=
  match event_generator_body filename pdf_bytes ([], w) with
  | (Ok _, s) => s
  | (Raise e, (events, w')) =>
      (events ++ [error_event (str_of_exn e)], w')
  end.

End Stream.

(** ** Values and predicates named by the properties *)

(** A float lies in the closed interval from 0 to 100. *)
Definition in_0_100 (x : pyfloat) : Prop :=
  fle (Fin 0) x = true /\ fle x (Fin 100) = true.

(** The Evidence of the branch of [audit_model_against_rule] taken when no
    chunk is retrieved. *)
Definition no_documentation : Evidence :=
  mkEvidence FAIL (Fin 20) "No documentation available"
    "No documentation found for this model, assuming non-compliance.".

(** The Evidence of the [json.JSONDecodeError] handler of
    [audit_model_against_rule]. *)
Definition parse_failure : Evidence :=
  mkEvidence FAIL (Fin 10) "Error occurred during analysis"
    "Error parsing LLM response.".

(** The five rules of [_get_fallback_rules]. *)
Definition fallback_rules : list Rule :=
  [mkRule "1" "Safety"
     "Does the model document red-teaming or adversarial testing?";
   mkRule "2" "Data" "Is the training data composition disclosed?";
   mkRule "3" "Transparency" "Are model limitations clearly documented?";
   mkRule "4" "Evaluation" "Are benchmark results provided?";
   mkRule "5" "Documentation"
     "Is there a model card or system card available?"].

(** The item [run_full_audit] builds for a model, a rule and its evidence. *)
Definition item_of (m : string) (rule : Rule) (ev : Evidence) : AuditItem :=
  mkAuditItem m (id rule) (question rule) (category rule) ev.

(** The cell a result item belongs to. *)
Definition cell_of (item : AuditItem) : string * string :=
  (model_name item, rule_id item).

(** The cells of the matrix in the order of the nested loops: models
    outermost, rules innermost. *)
Definition nested_cells (model_names : list string) (rules : list Rule)
  : list (string * string) :=
  flat_map (fun m => map (fun rule => (m, id rule)) rules) model_names.

Definition cell_eqb (a b : string * string) : bool :=
  String.eqb (fst a) (fst b) && String.eqb (snd a) (snd b).

(** Membership test of a string in a list. *)
Definition mem (x : string) (l : list string) : bool :=
  existsb (fun y => String.eqb y x) l.

(** The number of occurrences of a string in a list. *)
Definition count_str (x : string) (l : list string) : nat :=
  List.length (filter (fun y => String.eqb y x) l).

(** The number of items of a result list that belong to a cell. *)
Definition count_cell (c : string * string) (items : list AuditItem) : nat :=
  List.length (filter (fun item => cell_eqb (cell_of item) c) items).

(** The number of items of a model with a given status. *)
Definition count_model_status (m : string) (st : Status)
    (items : list AuditItem) : nat :=
  List.length
    (filter (fun item => String.eqb (model_name item) m
                         && status_eqb (status (evidence item)) st) items).

(** What the first loop of [calculate_dashboard_stats] accumulates for one
    model: the items of the model, folded in order from the default value. *)
Definition stats_for (m : string) (items : list AuditItem) : ModelStats :=
  fold_left
    (fun s item =>
       if String.eqb (model_name item) m
       then bump_model (status (evidence item)) (confidence (evidence item)) s
       else s)
    items (mkModelStats 0 0 0 (Fin 0)).

(** The compliance score of a model before rounding. *)
Definition full_score (m : string) (items : list AuditItem) : pyfloat :=
  compliance_score_of (stats_for m items).

(** Equality test of two floats. *)
Definition feqb (a b : pyfloat) : bool :=
  match a, b with
  | Fin x, Fin y => Qeq_bool x y
  | PInf, PInf | NInf, NInf => true
  | _, _ => false
  end.

(** A float other than nan. *)
Definition is_number (a : pyfloat) : bool :=
  match a with NaN => false | _ => true end.

(** [a] comes before [b] in a list sorted by decreasing key. *)
Definition desc {A : Type} (key : A -> pyfloat) (a b : A) : Prop :=
  fle (key b) (key a) = true.

(** [pass / (pass + fail) * 100], exactly. *)
Definition pass_rate_exact (pass fail : nat) : Q :=
  (inject_Z (Z.of_nat pass) / inject_Z (Z.of_nat (pass + fail)) * 100)%Q.

(** A field of the data of an event. *)
Definition event_field (k : string) (e : Event) : option json :=
  match data e with
  | JDict d => dict_get d k
  | _ => None
  end.

(** The names of the events of [n] audited cells. *)
Fixpoint cell_event_names (n : nat) : list string :=
  match n with
  | O => []
  | S n' => "progress" :: "result" :: cell_event_names n'
  end.

(** What a result event says of the progress of the run: its fields
    ["completed"], ["total"] and ["progress"]. *)
Definition progress_of (e : Event) : option json * option json * option json :=
  (event_field "completed" e, event_field "total" e, event_field "progress" e).

(** The events of a stream with a given name. *)
Definition events_named (name : string) (events : list Event) : list Event :=
  filter (fun e => String.eqb (event e) name) events.

Section NamedValues.
Context `{PyLib}.

(** The entry of a model in the rankings. *)
Definition entry_of (items : list AuditItem) (m : string) : ModelRanking :=
  ranking_entry (m, stats_for m items).

(** The progress a result event must report once [k] cells of
    [total_audits] are done: the running count, the total and the percentage
    rounded to one decimal. *)
Definition expected_progress (total_audits k : nat)
  : option json * option json * option json :=
  (Some (JNat k), Some (JNat total_audits),
   Some (JFloat (py_round1 (percent k total_audits)))).

End NamedValues.

(** ** A scripted instance, for running the program on concrete inputs *)

Definition dq : string := String (ascii_of_nat 34) EmptyString.

(** The text [{"status": "PASS", "confidence": c, "quote": "q", "reason": "r"}]
    for a confidence written [c]. *)
Definition verdict_text (c : string) : string :=
  ("{" ++ dq ++ "status" ++ dq ++ ": " ++ dq ++ "PASS" ++ dq ++ ", "
       ++ dq ++ "confidence" ++ dq ++ ": " ++ c ++ ", "
       ++ dq ++ "quote" ++ dq ++ ": " ++ dq ++ "q" ++ dq ++ ", "
       ++ dq ++ "reason" ++ dq ++ ": " ++ dq ++ "r" ++ dq ++ "}")%string.

Definition verdict_value (c : json) : json :=
  JDict [("status", JStr "PASS"); ("confidence", c);
         ("quote", JStr "q"); ("reason", JStr "r")].

(** The text [[{"id": "1", "category": "Safety", "question": "Q"}]]. *)
Definition one_rule_text : string :=
  ("[{" ++ dq ++ "id" ++ dq ++ ": " ++ dq ++ "1" ++ dq ++ ", "
        ++ dq ++ "category" ++ dq ++ ": " ++ dq ++ "Safety" ++ dq ++ ", "
        ++ dq ++ "question" ++ dq ++ ": " ++ dq ++ "Q" ++ dq ++ "}]")%string.

Definition one_rule_value : json :=
  JList [JDict [("id", JStr "1"); ("category", JStr "Safety");
                ("question", JStr "Q")]].

(** [json.loads] on the response texts used below; any other text is
    reported as undecodable. *)
Definition scripted_json_loads (s : string) : result json :=
  if String.eqb s "[]" then Ok (JList [])
  else if String.eqb s one_rule_text then Ok one_rule_value
  else if String.eqb s (verdict_text "250") then Ok (verdict_value (JInt 250))
  else if String.eqb s (verdict_text "NaN") then Ok (verdict_value (JFloat NaN))
  else Raise (JSONDecodeError "Expecting value").

(** [float(s)] on a string: surrounding white space, a sign, then a decimal
    number (digits, single underscores between digits, a point, an exponent)
    or one of inf, infinity and nan in any case.  The value is the float
    nearest to the decimal. *)
Definition is_digit (c : ascii) : bool :=
  Nat.leb 48 (nat_of_ascii c) && Nat.leb (nat_of_ascii c) 57.

Definition is_space (c : ascii) : bool :=
  Nat.eqb (nat_of_ascii c) 32
  || (Nat.leb 9 (nat_of_ascii c) && Nat.leb (nat_of_ascii c) 13).

Definition lower (c : ascii) : ascii :=
  if Nat.leb 65 (nat_of_ascii c) && Nat.leb (nat_of_ascii c) 90
  then ascii_of_nat (nat_of_ascii c + 32) else c.

Definition strip (s : list ascii) : list ascii :=
  let drop :=
    fix drop (l : list ascii) : list ascii :=
      match l with
      | c :: l' => if is_space c then drop l' else l
      | [] => []
      end in
  rev (drop (rev (drop s))).

(** A run of digits with single underscores between them: its value after
    [acc], the number of its digits after [n], and the rest of the text. *)
Fixpoint digitpart (acc : Z) (n : nat) (s : list ascii)
  : Z * nat * list ascii :=
  match s with
  | c :: s' =>
      if is_digit c
      then digitpart (acc * 10 + Z.of_nat (nat_of_ascii c - 48)) (S n) s'
      else if Ascii.eqb c "_" && Nat.ltb 0 n then
        match s' with
        | d :: _ => if is_digit d then digitpart acc n s' else (acc, n, s)
        | [] => (acc, n, s)
        end
      else (acc, n, s)
  | [] => (acc, n, s)
  end.

Definition signed (s : list ascii) : bool * list ascii :=
  match s with
  | "-"%char :: s' => (true, s')
  | "+"%char :: s' => (false, s')
  | _ => (false, s)
  end.

(** The exponent that ends a number: 0 when the text ends there. *)
Definition exponent (s : list ascii) : option Z :=
  match s with
  | [] => Some 0%Z
  | c :: s' =>
      if Ascii.eqb (lower c) "e" then
        let (neg, s'') := signed s' in
        match digitpart 0 0 s'' with
        | (v, S _, []) => Some (if neg then (- v)%Z else v)
        | _ => None
        end
      else None
  end.

Definition power_of_ten (e : Z) : Q :=
  match e with
  | Zneg p => 1 # (10 ^ p)
  | _ => inject_Z (10 ^ e)
  end.

Definition parse_float (str : string) : option pyfloat :=
  let (neg, s) := signed (strip (list_ascii_of_string str)) in
  let name := string_of_list_ascii (map lower s) in
  if String.eqb name "inf" || String.eqb name "infinity"
  then Some (if neg then NInf else PInf)
  else if String.eqb name "nan" then Some NaN
  else
    let '(i, ni, rest) := digitpart 0 0 s in
    let '(v, nf, rest') :=
      match rest with
      | "."%char :: rest1 => digitpart i 0 rest1
      | _ => (i, 0, rest)
      end in
    if Nat.eqb (ni + nf) 0 then None
    else
      match exponent rest' with
      | Some e =>
          let q := (inject_Z v * power_of_ten (e - Z.of_nat nf))%Q in
          Some (b64 (if neg then - q else q))
      | None => None
      end.

(** Stand-ins for the library functions.  [round1] is [round(x, 1)] of
    Python, [py_sum] adds from left to right, as the builtin did before
    Python 3.12; the texts used below carry no wrapping to clean. *)
#[export] Instance scripted_pylib : PyLib := {|
  round1 := python_round1;
  py_sum := fun xs => fold_left fadd xs (Fin 0);
  float_of_str := parse_float;
  str_of_exn := fun e =>
    match e with
    | JSONDecodeError msg => msg
    | ValidationError model => ("validation error for " ++ model)%string
    | TypeError => "TypeError"
    | ValueError => "ValueError"
    | KeyError k => k
    | OverflowError => "OverflowError"
    | ServiceError msg => msg
    end;
  str_of_value := fun v => match v with JStr s => s | _ => EmptyString end;
  clean_response := fun s => s;
  json_loads := scripted_json_loads;
  validation_prompt := fun sample_text => sample_text;
  rules_prompt := fun truncated_text => truncated_text;
  audit_prompt := fun q context => (q ++ newline ++ context)%string
|}.

(** A world that answers every call from a script. *)
Record Script : Type := mkScript {
  script_key : option string;
  script_reply : string + string;
  script_docs : string -> result (list string);
  script_models : list string;
  script_stored : list AuditResponse
}.

#[export] Instance scripted_services : Services := {|
  World := Script;
  groq_api_key := script_key;
  chat_completion := fun _ _ w => (script_reply w, w);
  similarity_search := fun _ _ m w => (script_docs w m, w);
  vectorstore_get := fun w => (Ok (Some (map Some (script_models w))), w);
  pdf_pages := fun bytes => Ok [string_of_list_byte bytes];
  insert_audit := fun r w =>
    (Ok ("audit-" ++ string_of_nat (List.length (script_stored w)))%string,
     mkScript (script_key w) (script_reply w) (script_docs w)
              (script_models w) (script_stored w ++ [r]))
|}.

(** The vector store holds no document and no key is configured. *)
Definition empty_store (models : list string) : Script :=
  mkScript None (inl "unreachable") (fun _ => Ok []) models [].

(** The vector store cannot be reached. *)
Definition store_down (models : list string) : Script :=
  mkScript (Some "key") (inr "[]")
           (fun _ => Raise (ServiceError "connection refused")) models [].

(** Every model has one chunk of documentation and the language model
    answers [reply]. *)
Definition answering (reply : string) (models : list string) : Script :=
  mkScript (Some "key") (inr reply) (fun _ => Ok ["chunk"]) models [].

(** Every model has one chunk of documentation and no key is configured. *)
Definition no_key (models : list string) : Script :=
  mkScript None (inl "unreachable") (fun _ => Ok ["chunk"]) models [].

(** Services with a single world, in which the vector store is empty. *)
Definition no_docs_services : Services := {|
  World := unit;
  groq_api_key := fun _ => None;
  chat_completion := fun _ _ w => (inl "unreachable", w);
  similarity_search := fun _ _ _ w => (Ok [], w);
  vectorstore_get := fun w => (Ok (Some []), w);
  pdf_pages := fun bytes => Ok [string_of_list_byte bytes];
  insert_audit := fun _ w => (Ok "audit-0", w)
|}.

Definition rule1 : Rule :=
  mkRule "1" "Safety" "Does the model document red-teaming?".

Fixpoint string_repeat (c : ascii) (n : nat) : string :=
  match n with
  | O => EmptyString
  | S n' => String c (string_repeat c n')
  end.

(** [n] items for [model], the first [p] of them PASS, the others FAIL. *)
Definition items_for (model : string) (p n : nat) : list AuditItem :=
  map (fun st => mkAuditItem model "1" "q" "Safety"
                   (mkEvidence st (Fin 50) "q" "r"))
      (repeat PASS p ++ repeat FAIL (n - p)).

(** The text of a PDF file of 120 characters. *)
Definition short_pdf : list Byte.byte :=
  list_byte_of_string (string_repeat "a"%char 120).

(** A policy text of more than [max_chars] characters with a given end. *)
Definition long_text (tail : string) : string :=
  (string_repeat "a"%char max_chars ++ tail)%string.

(** 51 items of model B, then 50 items of model A, one PASS each. *)
Definition tie_items : list AuditItem :=
  items_for "B" 1 51 ++ items_for "A" 1 50.

(** 80 items of model A, 23 of them PASS, then 125 items of model D, 36 of
    them PASS: the exact percentages are 28.75 and 28.8. *)
Definition close_items : list AuditItem :=
  items_for "A" 23 80 ++ items_for "D" 36 125.

(** ** app/main.py: the endpoint [analyze_policy] *)

(** The outcome of a request handler: the value returned, or the
    [HTTPException] raised. *)
Inductive http (A : Type) : Type :=
| Response (a : A)
| HTTPException (status_code : nat) (detail : string).

Arguments Response {A} a.
Arguments HTTPException {A} status_code detail.

(** [s.endswith(suffix)]. *)
Definition ends_with (suffix s : string) : bool :=
  Nat.leb (String.length suffix) (String.length s)
  && String.eqb
       (substring (String.length s - String.length suffix)
                  (String.length suffix) s)
       suffix.

Section Analyze.
Context `{PyLib} `{Services}.

Definition Handler (A : Type) : Type := World -> http A * World.

Definition hbind {A B : Type} (c : Handler A) (k : A -> Handler B)
  : Handler B :=
  fun w =>
    match c w with
    | (Response a, w') => k a w'
    | (HTTPException code detail, w') => (HTTPException code detail, w')
    end.

(** A step inside the [try] block of [analyze_policy]: an exception that is
    not an [HTTPException] leaves the handler as the status 500. *)
Definition guarded {A : Type} (c : M A) : Handler A :=
  fun w =>
    match c w with
    | (Ok a, w') => (Response a, w')
    | (Raise e, w') =>
        (HTTPException 500
           ("Internal server error: " ++ str_of_exn e)%string, w')
    end.

(** The inner [try] around [store_audit_result]: a failure is printed and
    dropped. *)
Definition store_quietly (response : AuditResponse) : Handler unit :=
  fun w => let (_, w') := store_audit_result response w in (Response tt, w').

(** [analyze_policy].  [vectorstore_ready] says that the global
    [vectorstore] is not [None]; [filename] and [pdf_bytes] are the name and
    the content of the uploaded file. *)
Definition analyze_policy (vectorstore_ready : bool) (filename : string)
    (pdf_bytes : list Byte.byte) : Handler AuditResponse :=
  if negb vectorstore_ready then
    fun w =>
      (HTTPException 500 "Vector store not initialized. Check server logs.",
       w)
  else if negb (ends_with ".pdf" filename) then
    fun w => (HTTPException 400 "Only PDF files are supported", w)
  else
    hbind (guarded (lift (extract_text_from_pdf pdf_bytes)))
      (fun policy_text =>
    if Nat.ltb (String.length policy_text) 100 then
      fun w => (HTTPException 400 "PDF appears to be empty or unreadable", w)
    else
    hbind (guarded (validate_policy_document policy_text))
      (fun validation_result =>
    hbind (guarded (lift (py_getitem validation_result "is_policy")))
      (fun is_policy =>
    hbind (guarded (lift (py_getitem validation_result "reasoning")))
      (fun reasoning =>
    if negb (truthy is_policy) then
      fun w =>
        (HTTPException 400
           ("Document does not appear to be a policy document. Reason: "
            ++ str_of_value reasoning)%string, w)
    else
    hbind (guarded (extract_policy_rules policy_text))
      (fun rules =>
    match rules with
    | [] =>
        fun w =>
          (HTTPException 500 "Failed to extract rules from policy", w)
    | _ =>
    hbind (guarded get_available_models)
      (fun model_names =>
    match model_names with
    | [] =>
        fun w => (HTTPException 500 "No models found in vector store", w)
    | _ =>
    hbind (guarded (run_full_audit model_names rules))
      (fun audit_results =>
    let response :=
      mkAuditResponse filename (List.length rules) (List.length model_names)
                      rules audit_results in
    hbind (store_quietly response) (fun _ => fun w => (Response response, w)))
    end)
    end))))).

End Analyze.

(** ** app/main.py: the comparison of [compare_models] *)

(** One entry of the ["results"] list of a model. *)
Record CompareRow : Type := mkCompareRow {
  row_rule_id : string;
  row_rule_question : string;
  row_category : string;
  row_status : Status;
  row_quote : string;
  row_reason : string
}.

(** One value of [comparison] before the scores are added: the keys
    ["pass"], ["fail"], ["na"] and ["results"]. *)
Record CompareStats : Type := mkCompareStats {
  cmp_pass : nat;
  cmp_fail : nat;
  cmp_na : nat;
  cmp_results : list CompareRow
}.

(** The update of [comparison[item.model_name]] for one item:
    [status.lower()] is the key ["pass"] or ["fail"]. *)
Definition compare_step_value (item : AuditItem) (c : CompareStats)
  : CompareStats :=
  let row :=
    mkCompareRow (rule_id item) (rule_question item) (rule_category item)
                 (status (evidence item)) (quote (evidence item))
                 (reason (evidence item)) in
  match status (evidence item) with
  | PASS => mkCompareStats (S (cmp_pass c)) (cmp_fail c) (cmp_na c)
                           (cmp_results c ++ [row])
  | FAIL => mkCompareStats (cmp_pass c) (S (cmp_fail c)) (cmp_na c)
                           (cmp_results c ++ [row])
  end.

Definition compare_step (acc : list (string * CompareStats))
    (item : AuditItem) : list (string * CompareStats) :=
  dd_update (mkCompareStats 0 0 0 []) (model_name item)
            (compare_step_value item) acc.

(** The results kept by the filter on [model_names]: all of them when the
    list is absent or empty. *)
Definition compare_filter (model_names : option (list string))
    (audit_results : list AuditItem) : list AuditItem :=
  match model_names with
  | None | Some [] => audit_results
  | Some names => filter (fun item => mem (model_name item) names)
                         audit_results
  end.

Section Compare.
Context `{PyLib}.

(** The ["compliance_score"] added to an entry: a rounded float, or the
    [int] 0 when the model has no PASS and no FAIL. *)
Definition compare_score (c : CompareStats) : json :=
  let total_evaluated := cmp_pass c + cmp_fail c in
  if Nat.ltb 0 total_evaluated
  then JFloat (py_round1 (percent (cmp_pass c) total_evaluated))
  else JInt 0.

(** The part of [compare_models] that follows the conversion of the stored
    audit: the filter, the grouping by model and the scores.  The result
    is [policy_name] and the entries of [comparison], each with its score. *)
Definition compare_models_core (model_names : option (list string))
    (audit_response : AuditResponse)
  : string * list (string * (CompareStats * json)) :=
  let filtered_results :=
    compare_filter model_names (audit_results audit_response) in
  let comparison := fold_left compare_step filtered_results [] in
  (policy_name audit_response,
   map (fun kv => (fst kv, (snd kv, compare_score (snd kv)))) comparison).

End Compare.

(** ** Values and predicates named by the further properties *)

(** What a grouping loop accumulates under one key: the elements with this
    key, folded in order from the default value. *)
Definition group_for {A V : Type} (key : A -> string) (f : A -> V -> V)
    (default : V) (k : string) (items : list A) : V :=
  fold_left (fun v x => if String.eqb (key x) k then f x v else v)
            items default.

(** The number of items of a category with a given status. *)
Definition count_category_status (c : string) (st : Status)
    (items : list AuditItem) : nat :=
  List.length
    (filter (fun item => String.eqb (rule_category item) c
                         && status_eqb (status (evidence item)) st) items).

(** The items of a model, in order. *)
Definition items_of_model (m : string) (items : list AuditItem)
  : list AuditItem :=
  filter (fun item => String.eqb (model_name item) m) items.

(** The sum of the confidences of a list of items, as [+=] accumulates it
    from 0.0. *)
Definition confidence_sum (items : list AuditItem) : pyfloat :=
  fold_left (fun acc item => fadd acc (confidence (evidence item)))
            items (Fin 0).

(** The header of a result item: the model, and the copies of the id, the
    question and the category of its rule. *)
Definition header_of (item : AuditItem) : string * string * string * string :=
  (model_name item, rule_id item, rule_question item, rule_category item).

Definition nested_headers (model_names : list string) (rules : list Rule)
  : list (string * string * string * string) :=
  flat_map (fun m => map (fun rule => (m, id rule, question rule,
                                        category rule)) rules)
           model_names.

(** The dict that [validate_policy_document] returns when the check cannot
    be made. *)
Definition validation_unavailable : json :=
  JDict [("is_policy", JBool true);
         ("reasoning",
          JStr "Validation check could not be performed, proceeding with analysis")].

(** An event that does not end a stream, and one that does. *)
Definition nonterminal (e : Event) : bool :=
  String.eqb (event e) "progress" || String.eqb (event e) "result".

Definition terminal (e : Event) : bool :=
  String.eqb (event e) "complete" || String.eqb (event e) "error".

(** What a part of the generator adds to the events yielded before it:
    progress and result events only, followed by one terminal event when the
    part returns, and by nothing when it raises. *)
Definition ends_properly {A : Type} (r : result A) (before after : list Event)
  : Prop :=
  exists pre,
    forallb nonterminal pre = true
    /\ match r with
       | Ok _ => exists t, terminal t = true /\ after = before ++ pre ++ [t]
       | Raise _ => after = before ++ pre
       end.

(** Services with a single world: the vector store holds the model ModelA
    and returns no chunk, and no key is configured. *)
Definition one_model_services : Services := {|
  World := unit;
  groq_api_key := fun _ => None;
  chat_completion := fun _ _ w => (inl "unreachable", w);
  similarity_search := fun _ _ _ w => (Ok [], w);
  vectorstore_get := fun w => (Ok (Some [Some "ModelA"]), w);
  pdf_pages := fun bytes => Ok [string_of_list_byte bytes];
  insert_audit := fun _ w => (Ok "audit-0", w)
|}.

(** The same services with a database that cannot be written. *)
Definition failing_store_services : Services := {|
  World := unit;
  groq_api_key := fun _ => None;
  chat_completion := fun _ _ w => (inl "unreachable", w);
  similarity_search := fun _ _ _ w => (Ok [], w);
  vectorstore_get := fun w => (Ok (Some [Some "ModelA"]), w);
  pdf_pages := fun bytes => Ok [string_of_list_byte bytes];
  insert_audit := fun _ w => (Raise (ServiceError "database down"), w)
|}.

(** A policy text of 120 characters. *)
Definition short_policy : string := string_repeat "a"%char 120.

(** The text [{"status": "N/A", "confidence": 50, "quote": "q", "reason": "r"}]
    and the text [{"is_policy": false, "reasoning": "A recipe."}], with their
    values. *)
Definition na_verdict_text : string :=
  ("{" ++ dq ++ "status" ++ dq ++ ": " ++ dq ++ "N/A" ++ dq ++ ", "
       ++ dq ++ "confidence" ++ dq ++ ": 50, "
       ++ dq ++ "quote" ++ dq ++ ": " ++ dq ++ "q" ++ dq ++ ", "
       ++ dq ++ "reason" ++ dq ++ ": " ++ dq ++ "r" ++ dq ++ "}")%string.

Definition na_verdict_value : list (string * json) :=
  [("status", JStr "N/A"); ("confidence", JInt 50);
   ("quote", JStr "q"); ("reason", JStr "r")].

Definition not_policy_text : string :=
  ("{" ++ dq ++ "is_policy" ++ dq ++ ": false, "
       ++ dq ++ "reasoning" ++ dq ++ ": " ++ dq ++ "A recipe." ++ dq
       ++ "}")%string.

Definition not_policy_value : json :=
  JDict [("is_policy", JBool false); ("reasoning", JStr "A recipe.")].

(** The library stand-ins with a [json.loads] that knows these two texts
    too. *)
Definition verdicts_pylib : PyLib := {|
  round1 := @round1 scripted_pylib;
  py_sum := @py_sum scripted_pylib;
  float_of_str := @float_of_str scripted_pylib;
  str_of_exn := @str_of_exn scripted_pylib;
  str_of_value := @str_of_value scripted_pylib;
  clean_response := @clean_response scripted_pylib;
  json_loads := fun s =>
    if String.eqb s na_verdict_text then Ok (JDict na_verdict_value)
    else if String.eqb s not_policy_text then Ok not_policy_value
    else scripted_json_loads s;
  validation_prompt := @validation_prompt scripted_pylib;
  rules_prompt := @rules_prompt scripted_pylib;
  audit_prompt := @audit_prompt scripted_pylib
|}.

(** The audit of ModelA against the fallback rules when its documentation
    holds no chunk, and the response of [analyze_policy] that carries it. *)
Definition undocumented_items : list AuditItem :=
  map (fun rule => item_of "ModelA" rule no_documentation) fallback_rules.

Definition undocumented_response : AuditResponse :=
  mkAuditResponse "p.pdf" (List.length fallback_rules)
                  (List.length ["ModelA"]) fallback_rules undocumented_items.

(** Three items of model A, one of them PASS, then two items of model B,
    both PASS. *)
Definition two_model_items : list AuditItem :=
  items_for "A" 1 3 ++ items_for "B" 2 2.

(** * Properties *)

(** ** Floats *)

(** [b64], [fmul] and [fadd] agree with the specification of binary64 of
    the Standard Library on sample values: the quotients of integers, and
    the products and sums of any two of the operands. *)
Example b64_agrees_with_SpecFloat :
  map b64 b64_samples = map (fun q => value_of_SF (SF_quotient q)) b64_samples
  /\ map (fun x => map (fun y => fmul (b64 x) (b64 y)) b64_operands)
         b64_operands
     = map (fun x => map (fun y => value_of_SF (SF_product x y)) b64_operands)
           b64_operands
  /\ map (fun x => map (fun y => fadd (b64 x) (b64 y)) b64_operands)
         b64_operands
     = map (fun x => map (fun y => value_of_SF (SF_sum x y)) b64_operands)
           b64_operands.
Proof. split; [|split]; vm_compute; reflexivity. Qed.

(** 23 of 80 is computed as the float below 28.75 and rounds to 28.7, where
    36 of 125 rounds to 28.8; the sum of two floats can overflow; and
    [float] reads a decimal as the nearest float. *)
Example float_arithmetic_samples :
  flt (percent 23 80) (Fin (2875 # 100)) = true
  /\ round_tenths (percent 23 80) = b64 (287 # 10)
  /\ round_tenths (percent 36 125) = b64 (288 # 10)
  /\ fadd (b64 (inject_Z (2 ^ 1023))) (b64 (inject_Z (2 ^ 1023))) = PInf
  /\ round_tenths (fdiv_nat (Fin 1) 20) = b64 (1 # 10)
  /\ float_of_str "85" = Some (Fin 85)
  /\ float_of_str " 8.5e1 " = Some (Fin 85)
  /\ float_of_str "0.1" = Some (b64 (1 # 10))
  /\ float_of_str "eighty" = None.
Proof.
  repeat match goal with |- _ /\ _ => split end; vm_compute; reflexivity.
Qed.

Lemma Qltb_le (x y : Q) : Qltb x y = true -> Qle_bool x y = true.
Proof.
  unfold Qltb. intros Hlt. apply negb_true_iff in Hlt.
  apply Qle_bool_iff. apply Qlt_le_weak. apply Qnot_le_lt.
  intros Hle. apply Qle_bool_iff in Hle. congruence.
Qed.

Lemma Qltb_false_le (x y : Q) : Qltb x y = false -> Qle_bool y x = true.
Proof.
  unfold Qltb. intros Hlt. now apply negb_false_iff in Hlt.
Qed.

(** The clamp of [audit_model_against_rule] sends every float, inf and nan
    included, into the interval. *)
Lemma clamp_in_0_100 (x : pyfloat) :
  in_0_100 (py_max (Fin 0) (py_min (Fin 100) x)).
Proof.
  unfold in_0_100, py_max, py_min, fgt.
  destruct x as [q| | |]; simpl; try (split; reflexivity).
  destruct (Qltb q 100) eqn:Hhi; simpl.
  - destruct (Qltb 0 q) eqn:Hlo; simpl.
    + split; now apply Qltb_le.
    + split; reflexivity.
  - split; reflexivity.
Qed.

(** ** The dict operations *)

Lemma dict_get_set_same (d : list (string * json)) (k : string) (v : json) :
  dict_get (dict_set d k v) k = Some v.
Proof.
  induction d as [|[k' v'] d IH]; simpl.
  - now rewrite String.eqb_refl.
  - destruct (String.eqb k' k) eqn:E; simpl; rewrite E; auto.
Qed.

Lemma dict_get_set_other (d : list (string * json)) (k k2 : string) (v : json) :
  String.eqb k k2 = false ->
  dict_get (dict_set d k v) k2 = dict_get d k2.
Proof.
  intros Hne. induction d as [|[k' v'] d IH]; simpl.
  - now rewrite Hne.
  - destruct (String.eqb k' k) eqn:E; simpl.
    + apply String.eqb_eq in E. subst k'. now rewrite Hne.
    + now rewrite IH.
Qed.

(** ** app/services/audit.py: one cell *)

Section AuditFacts.
Context `{PyLib} `{Services}.

(** The two handlers of [audit_model_against_rule], evaluated: the second
    one builds an Evidence that the schema rejects. *)
Lemma audit_model_against_rule_unfold (m : string) (rule : Rule) (k : nat)
    (w : World) :
  audit_model_against_rule m rule k w =
  match audit_attempt m rule k w with
  | (Ok ev, w') => (Ok ev, w')
  | (Raise e, w') =>
      if is_json_decode_error e then (Ok parse_failure, w')
      else (Raise (ValidationError "Evidence"), w')
  end.
Proof.
  unfold audit_model_against_rule, try_except.
  destruct (audit_attempt m rule k w) as [[ev|e] w']; [reflexivity|].
  destruct (is_json_decode_error e); reflexivity.
Qed.

(** What a successful run of the [try] block went through. *)
Lemma audit_attempt_ok (m : string) (rule : Rule) (k : nat) (w w' : World)
    (ev : Evidence) :
  audit_attempt m rule k w = (Ok ev, w') ->
  (similarity_search (question rule) k m w = (Ok [], w')
   /\ ev = no_documentation)
  \/ (exists results w1 text evidence_data c,
        similarity_search (question rule) k m w = (Ok results, w1)
        /\ results <> []
        /\ call_groq
             (audit_prompt (question rule)
                (substring 0 4000
                   (String.concat
                      (newline ++ newline ++ "---" ++ newline ++ newline)
                      results))) w1 = (Ok text, w')
        /\ json_loads (clean_response text) = Ok evidence_data
        /\ checked_confidence evidence_data = Ok c
        /\ Evidence_of_data evidence_data c = Ok ev).
Proof.
  unfold audit_attempt, bind, lift.
  destruct (similarity_search (question rule) k m w)
    as [[results|e] w1] eqn:Hs; [|discriminate].
  destruct results as [|doc docs].
  - simpl. intros Heq. inversion Heq; subst. left. split; reflexivity.
  - set (prompt := audit_prompt _ _).
    destruct (call_groq prompt w1) as [[text|e] w2] eqn:Hc; [|discriminate].
    destruct (json_loads (clean_response text)) as [v|e] eqn:Hj;
      [|discriminate].
    destruct (checked_confidence v) as [c|e] eqn:Hk; [|discriminate].
    destruct (Evidence_of_data v c) as [ev'|e] eqn:He; [|discriminate].
    intros Heq. inversion Heq; subst. right.
    exists (doc :: docs), w1, text, v, c. repeat split; auto. discriminate.
Qed.

Lemma Evidence_init_confidence (s : option json) (c : option pyfloat)
    (q r : option json) (ev : Evidence) :
  Evidence_init s c q r = Ok ev -> c = Some (confidence ev).
Proof.
  unfold Evidence_init.
  destruct (status_field s), c, (str_field q), (str_field r);
    try discriminate.
  intros Heq. inversion Heq. reflexivity.
Qed.

Lemma Evidence_of_data_confidence (v : json) (c : pyfloat) (ev : Evidence) :
  Evidence_of_data v c = Ok ev -> confidence ev = c.
Proof.
  destruct v; try discriminate. simpl. intros Hinit.
  apply Evidence_init_confidence in Hinit. congruence.
Qed.

Lemma checked_confidence_in_0_100 (v : json) (c : pyfloat) :
  checked_confidence v = Ok c -> in_0_100 c.
Proof.
  destruct v as [| | | | |l|d]; try discriminate. simpl.
  destruct (dict_get d "confidence") as [x|].
  - destruct (py_float x) as [f|e]; [|discriminate].
    intros Heq. inversion Heq. apply clamp_in_0_100.
  - intros Heq. inversion Heq. split; reflexivity.
Qed.

Lemma audit_attempt_parsed (m : string) (rule : Rule) (k : nat)
    (w w1 w2 : World) (results : list string) (text : string) (v : json) :
  similarity_search (question rule) k m w = (Ok results, w1) ->
  results <> [] ->
  call_groq
    (audit_prompt (question rule)
       (substring 0 4000
          (String.concat (newline ++ newline ++ "---" ++ newline ++ newline)
                         results))) w1 = (Ok text, w2) ->
  json_loads (clean_response text) = Ok v ->
  audit_attempt m rule k w =
  match checked_confidence v with
  | Ok c => (Evidence_of_data v c, w2)
  | Raise e => (Raise e, w2)
  end.
Proof.
  intros Hs Hne Hc Hj. unfold audit_attempt, bind, lift. rewrite Hs.
  destruct results as [|doc docs]; [congruence|].
  rewrite Hc, Hj. destruct (checked_confidence v); reflexivity.
Qed.

Lemma py_float_not_decode_error (v : json) (e : exn) :
  py_float v = Raise e -> is_json_decode_error e = false.
Proof.
  unfold py_float. destruct v as [|b|z|f|str|l|d];
    try (intros Heq; inversion Heq; reflexivity).
  - destruct (Z.abs z <? 2 ^ 1024 - 2 ^ 970)%Z;
      intros Heq; inversion Heq; reflexivity.
  - destruct (float_of_str str); intros Heq; inversion Heq; reflexivity.
Qed.

Lemma checked_confidence_not_decode_error (v : json) (e : exn) :
  checked_confidence v = Raise e -> is_json_decode_error e = false.
Proof.
  destruct v as [| | | | |l|d]; simpl;
    try (intros Heq; inversion Heq; reflexivity).
  destruct (dict_get d "confidence") as [x|]; [|discriminate].
  destruct (py_float x) as [f|e'] eqn:Hf; [discriminate|].
  intros Heq. inversion Heq; subst.
  now apply py_float_not_decode_error with (v := x).
Qed.

Lemma Evidence_of_data_not_decode_error (v : json) (c : pyfloat) (e : exn) :
  Evidence_of_data v c = Raise e -> is_json_decode_error e = false.
Proof.
  destruct v as [| | | | |l|d]; simpl;
    try (intros Heq; inversion Heq; reflexivity).
  unfold Evidence_init.
  repeat match goal with
         | |- context [match ?x with _ => _ end] => destruct x
         end;
    intros Heq; inversion Heq; reflexivity.
Qed.

(** An exception of the [try] block that is not a [json.JSONDecodeError]
    leaves [audit_model_against_rule] as a pydantic [ValidationError]: the
    handler gives [status] the value N/A, which the schema does not list,
    and gives no [confidence], which the schema requires. *)
Lemma audit_other_error_raises (m : string) (rule : Rule) (k : nat)
    (w w' : World) (e : exn) :
  audit_attempt m rule k w = (Raise e, w') ->
  is_json_decode_error e = false ->
  audit_model_against_rule m rule k w
  = (Raise (ValidationError "Evidence"), w').
Proof.
  intros Ha He. rewrite audit_model_against_rule_unfold, Ha, He.
  reflexivity.
Qed.

(** A failed retrieval is such an exception. *)
Lemma audit_retrieval_failure_raises (m : string) (rule : Rule) (k : nat)
    (w w' : World) (e : exn) :
  similarity_search (question rule) k m w = (Raise e, w') ->
  is_json_decode_error e = false ->
  audit_model_against_rule m rule k w
  = (Raise (ValidationError "Evidence"), w').
Proof.
  intros Hs He. apply audit_other_error_raises with (e := e); [|exact He].
  unfold audit_attempt, bind. now rewrite Hs.
Qed.

(** C8: when the retrieval service returns no chunk for the model, the cell
    is the Evidence with status FAIL, confidence 20.0 and the quote
    "No documentation available". *)
Theorem audit_no_documentation (m : string) (rule : Rule) (k : nat)
    (w w' : World) :
  similarity_search (question rule) k m w = (Ok [], w') ->
  exists ev,
    audit_model_against_rule m rule k w = (Ok ev, w')
    /\ status ev = FAIL
    /\ confidence ev = Fin 20
    /\ quote ev = "No documentation available".
Proof.
  intros Hs. exists no_documentation.
  rewrite audit_model_against_rule_unfold.
  unfold audit_attempt, bind. rewrite Hs. simpl. repeat split.
Qed.

(** C6: every Evidence that [audit_model_against_rule] returns has its
    confidence between 0 and 100.  On the path where the response of the
    judgment model parses to a dict, the confidence is 50.0 when the dict
    has no confidence, and otherwise the float of the given value clamped
    by [max(0.0, min(100.0, x))]. *)
Theorem audit_confidence_in_range (m : string) (rule : Rule) (k : nat)
    (w w' : World) (ev : Evidence) :
  audit_model_against_rule m rule k w = (Ok ev, w') ->
  in_0_100 (confidence ev)
  /\ (forall results w1 w2 text d,
        similarity_search (question rule) k m w = (Ok results, w1) ->
        results <> [] ->
        call_groq
          (audit_prompt (question rule)
             (substring 0 4000
                (String.concat
                   (newline ++ newline ++ "---" ++ newline ++ newline)
                   results))) w1 = (Ok text, w2) ->
        json_loads (clean_response text) = Ok (JDict d) ->
        match dict_get d "confidence" with
        | None => confidence ev = Fin 50
        | Some v =>
            exists x, py_float v = Ok x
                      /\ confidence ev = py_max (Fin 0) (py_min (Fin 100) x)
        end).
Proof.
  intros Hrun. split.
  - rewrite audit_model_against_rule_unfold in Hrun.
    destruct (audit_attempt m rule k w) as [[ev'|e] w1] eqn:Ha.
    + inversion Hrun; subst.
      apply audit_attempt_ok in Ha.
      destruct Ha as [[_ ->]|(rs & w2 & text & v & c & _ & _ & _ & _ & Hc & He)].
      * split; reflexivity.
      * apply Evidence_of_data_confidence in He. rewrite He.
        now apply checked_confidence_in_0_100 with (v := v).
    + destruct (is_json_decode_error e); [|discriminate].
      inversion Hrun; subst. split; reflexivity.
  - intros results w1 w2 text d Hs Hne Hc Hj.
    rewrite audit_model_against_rule_unfold in Hrun.
    rewrite (audit_attempt_parsed _ _ _ _ _ _ _ _ _ Hs Hne Hc Hj) in Hrun.
    destruct (checked_confidence (JDict d)) as [c|e] eqn:Hk.
    + destruct (Evidence_of_data (JDict d) c) as [ev'|e] eqn:He.
      * inversion Hrun; subst.
        apply Evidence_of_data_confidence in He. rewrite He.
        simpl in Hk. destruct (dict_get d "confidence") as [v|].
        -- destruct (py_float v) as [x|e]; [|discriminate].
           inversion Hk. exists x. split; reflexivity.
        -- now inversion Hk.
      * apply Evidence_of_data_not_decode_error in He. rewrite He in Hrun.
        discriminate.
    + apply checked_confidence_not_decode_error in Hk. rewrite Hk in Hrun.
      discriminate.
Qed.

End AuditFacts.

(** ** app/services/audit.py: rule extraction *)

Lemma map_result_length {A B : Type} (f : A -> result B) (xs : list A)
    (ys : list B) :
  map_result f xs = Ok ys -> List.length ys = List.length xs.
Proof.
  revert ys. induction xs as [|x xs IH]; simpl; intros ys Hm.
  - now inversion Hm.
  - destruct (f x) as [b|e]; [|discriminate].
    destruct (map_result f xs) as [bs|e]; [|discriminate].
    inversion Hm. simpl. f_equal. now apply IH.
Qed.

(** The slice [s[:n]] keeps the first [n] characters. *)
Lemma substring_prefix (n : nat) (s : string) :
  list_ascii_of_string (substring 0 n s) = firstn n (list_ascii_of_string s).
Proof.
  revert s. induction n as [|n IH]; intros s.
  - destruct s; reflexivity.
  - destruct s as [|c s]; simpl; [reflexivity|]. now rewrite IH.
Qed.

Lemma substring_ext (n : nat) (s t : string) :
  firstn n (list_ascii_of_string s) = firstn n (list_ascii_of_string t) ->
  substring 0 n s = substring 0 n t.
Proof.
  intros Heq. rewrite <- !substring_prefix in Heq.
  rewrite <- (string_of_list_ascii_of_string (substring 0 n s)).
  rewrite <- (string_of_list_ascii_of_string (substring 0 n t)).
  now rewrite Heq.
Qed.

Lemma get_fallback_rules_value : _get_fallback_rules = Ok fallback_rules.
Proof. reflexivity. Qed.

Section ExtractFacts.
Context `{PyLib} `{Services}.

(** Both handlers of [extract_policy_rules] return the fallback rules. *)
Lemma extract_policy_rules_unfold (policy_text : string) (w : World) :
  extract_policy_rules policy_text w =
  match
    extract_attempt (rules_prompt (substring 0 max_chars policy_text)) w
  with
  | (Ok rs, w') => (Ok rs, w')
  | (Raise _, w') => (Ok fallback_rules, w')
  end.
Proof.
  unfold extract_policy_rules, try_except.
  destruct (extract_attempt _ w) as [[rs|e] w']; [reflexivity|].
  unfold lift. rewrite get_fallback_rules_value.
  destruct (is_json_decode_error e); reflexivity.
Qed.

(** C7: [extract_policy_rules] returns to its caller on every policy text.
    When the response of the judgment model does not parse, and when any
    other step of the extraction raises, the result is the list of the five
    fallback rules, with ids 1 to 5 and categories Safety, Data,
    Transparency, Evaluation and Documentation. *)
Theorem extract_falls_back (policy_text : string) (w : World) :
  (exists rs w', extract_policy_rules policy_text w = (Ok rs, w'))
  /\ (forall text w1 e,
        call_groq (rules_prompt (substring 0 max_chars policy_text)) w
        = (Ok text, w1) ->
        json_loads (clean_response text) = Raise e ->
        extract_policy_rules policy_text w = (Ok fallback_rules, w1))
  /\ (forall e w',
        extract_attempt (rules_prompt (substring 0 max_chars policy_text)) w
        = (Raise e, w') ->
        extract_policy_rules policy_text w = (Ok fallback_rules, w'))
  /\ List.length fallback_rules = 5
  /\ map id fallback_rules = ["1"; "2"; "3"; "4"; "5"]
  /\ map category fallback_rules
     = ["Safety"; "Data"; "Transparency"; "Evaluation"; "Documentation"].
Proof.
  assert (Hraise : forall e w',
    extract_attempt (rules_prompt (substring 0 max_chars policy_text)) w
    = (Raise e, w') ->
    extract_policy_rules policy_text w = (Ok fallback_rules, w')).
  { intros e w' Ha. now rewrite extract_policy_rules_unfold, Ha. }
  split; [|split; [|split; [exact Hraise|repeat split]]].
  - rewrite extract_policy_rules_unfold.
    destruct (extract_attempt _ w) as [[rs|e] w']; eauto.
  - intros text w1 e Hc Hj. apply Hraise with (e := e).
    unfold extract_attempt, bind, lift. now rewrite Hc, Hj.
Qed.

(** C9, amended: when the response parses to a list whose elements all
    validate as rules, [extract_policy_rules] returns these rules, one for
    each element of the list and in its order, however many there are. *)
Theorem extract_returns_parsed_rules (policy_text : string) (w w1 : World)
    (text : string) (l : list json) (rs : list Rule) :
  call_groq (rules_prompt (substring 0 max_chars policy_text)) w
  = (Ok text, w1) ->
  json_loads (clean_response text) = Ok (JList l) ->
  map_result Rule_of_value l = Ok rs ->
  extract_policy_rules policy_text w = (Ok rs, w1)
  /\ List.length rs = List.length l.
Proof.
  intros Hc Hj Hm. split.
  - rewrite extract_policy_rules_unfold.
    unfold extract_attempt, bind, lift. rewrite Hc, Hj. simpl.
    now rewrite Hm.
  - now apply map_result_length with (f := Rule_of_value).
Qed.

(** C10: two policy texts with the same first [max_chars] = 15000
    characters give the same extraction, from the same world. *)
Theorem extract_depends_on_prefix (t1 t2 : string) (w : World) :
  firstn max_chars (list_ascii_of_string t1)
  = firstn max_chars (list_ascii_of_string t2) ->
  extract_policy_rules t1 w = extract_policy_rules t2 w.
Proof.
  intros Heq. unfold extract_policy_rules.
  replace (substring 0 max_chars t1) with (substring 0 max_chars t2);
    [reflexivity|].
  symmetry. apply substring_ext. exact Heq.
Qed.

End ExtractFacts.

(** ** app/services/audit.py: the full audit *)

Lemma count_str_NoDup (x : string) (l : list string) :
  NoDup l -> In x l -> count_str x l = 1.
Proof.
  unfold count_str. induction l as [|y l IH]; intros Hnd Hin; [easy|].
  inversion Hnd as [|? ? Hnotin Hnd']; subst. simpl.
  destruct (String.eqb y x) eqn:E.
  - apply String.eqb_eq in E. subst y. simpl. f_equal.
    clear IH Hin Hnd Hnd'. induction l as [|z l IH]; [reflexivity|].
    simpl. destruct (String.eqb z x) eqn:E.
    + apply String.eqb_eq in E. subst z. exfalso. apply Hnotin. now left.
    + apply IH. intros Hin. apply Hnotin. now right.
  - destruct Hin as [->|Hin]; [now rewrite String.eqb_refl in E|].
    now apply IH.
Qed.

Lemma count_str_cons (x y : string) (l : list string) :
  count_str x (y :: l) = (if String.eqb y x then 1 else 0) + count_str x l.
Proof.
  unfold count_str. simpl. now destruct (String.eqb y x).
Qed.

Lemma count_cell_map (c : string * string) (items : list AuditItem) :
  count_cell c items
  = List.length (filter (fun x => cell_eqb x c) (map cell_of items)).
Proof.
  unfold count_cell. induction items as [|item items IH]; [reflexivity|].
  simpl. destruct (cell_eqb (cell_of item) c); simpl; now rewrite IH.
Qed.

Lemma count_row (m0 m i : string) (rules : list Rule) :
  List.length
    (filter (fun x => cell_eqb x (m, i))
            (map (fun rule => (m0, id rule)) rules))
  = if String.eqb m0 m then count_str i (map id rules) else 0.
Proof.
  unfold count_str, cell_eqb. induction rules as [|rule rules IH]; simpl.
  - now destruct (String.eqb m0 m).
  - destruct (String.eqb m0 m); simpl in *.
    + destruct (String.eqb (id rule) i); simpl; now rewrite IH.
    + exact IH.
Qed.

Lemma count_nested_cells (m i : string) (model_names : list string)
    (rules : list Rule) :
  List.length
    (filter (fun x => cell_eqb x (m, i)) (nested_cells model_names rules))
  = count_str m model_names * count_str i (map id rules).
Proof.
  unfold nested_cells. induction model_names as [|m0 ms IH]; [reflexivity|].
  simpl. rewrite filter_app, length_app, IH, count_row, count_str_cons.
  destruct (String.eqb m0 m); simpl; lia.
Qed.

Lemma length_nested_cells (model_names : list string) (rules : list Rule) :
  List.length (nested_cells model_names rules)
  = List.length model_names * List.length rules.
Proof.
  unfold nested_cells. induction model_names as [|m0 ms IH]; [reflexivity|].
  simpl. now rewrite length_app, length_map, IH.
Qed.

Lemma insert_sorted_perm (x : string) (l : list string) :
  Permutation (insert_sorted x l) (x :: l).
Proof.
  induction l as [|y l IH]; simpl; [reflexivity|].
  destruct (String.leb x y); [reflexivity|].
  rewrite IH. apply perm_swap.
Qed.

Lemma sorted_set_perm (names : list string) :
  Permutation (sorted_set names) (nodup string_dec names).
Proof.
  unfold sorted_set. induction (nodup string_dec names) as [|x l IH];
    simpl; [reflexivity|].
  rewrite insert_sorted_perm. now apply perm_skip.
Qed.

(** The model names that [get_available_models] returns are pairwise
    distinct: the matrix audited from them has every model once. *)
Lemma get_available_models_NoDup `{Services} (w w' : World)
    (model_names : list string) :
  get_available_models w = (Ok model_names, w') -> NoDup model_names.
Proof.
  unfold get_available_models, bind, ret.
  destruct (vectorstore_get w) as [[[metadatas|]|e] w1]; intros Heq;
    inversion Heq; subst; [|constructor].
  apply (Permutation_NoDup (Permutation_sym (sorted_set_perm _))).
  apply NoDup_nodup.
Qed.

Section FullAuditFacts.
Context `{PyLib} `{Services}.

(** One turn of the inner loop and of the outer loop. *)
Lemma audit_rules_cons (m : string) (rule : Rule) (rest : list Rule)
    (acc : list AuditItem) (w : World) :
  audit_rules m (rule :: rest) acc w
  = match audit_model_against_rule m rule 3 w with
    | (Ok ev, w1) => audit_rules m rest (acc ++ [item_of m rule ev]) w1
    | (Raise e, w1) => (Raise e, w1)
    end.
Proof.
  cbn [audit_rules]. unfold bind, lift.
  destruct (audit_model_against_rule m rule 3 w) as [[ev|e] w1];
    reflexivity.
Qed.

Lemma audit_models_cons (m : string) (ms : list string) (rules : list Rule)
    (acc : list AuditItem) (w : World) :
  audit_models (m :: ms) rules acc w
  = match audit_rules m rules acc w with
    | (Ok row, w1) => audit_models ms rules row w1
    | (Raise e, w1) => (Raise e, w1)
    end.
Proof.
  cbn [audit_models]. unfold bind.
  destruct (audit_rules m rules acc w) as [[row|e] w1]; reflexivity.
Qed.

(** The inner loop either returns the row of the model, or stops at a cell
    that raises, with the exception and the world of that cell. *)
Lemma audit_rules_run (m : string) (rules : list Rule) :
  forall acc w,
  (exists items w',
     audit_rules m rules acc w = (Ok (acc ++ items), w')
     /\ map cell_of items = map (fun rule => (m, id rule)) rules)
  \/ (exists rule w0 e w',
        In rule rules
        /\ audit_model_against_rule m rule 3 w0 = (Raise e, w')
        /\ audit_rules m rules acc w = (Raise e, w')).
Proof.
  induction rules as [|rule rules IH]; intros acc w.
  - left. exists [], w. simpl. now rewrite app_nil_r.
  - rewrite audit_rules_cons.
    destruct (audit_model_against_rule m rule 3 w) as [[ev|e] w1] eqn:Hev.
    + destruct (IH (acc ++ [item_of m rule ev]) w1)
        as [(items & w' & Hrun & Hcells)
           |(rule' & w0 & e & w' & Hin & Hcell & Hrun)].
      * left. exists (item_of m rule ev :: items), w'. split.
        -- rewrite Hrun. now rewrite <- app_assoc.
        -- simpl. now rewrite Hcells.
      * right. exists rule', w0, e, w'.
        split; [now right|]. now split.
    + right. exists rule, w, e, w1. split; [now left|]. now split.
Qed.

Lemma audit_models_run (model_names : list string) (rules : list Rule) :
  forall acc w,
  (exists items w',
     audit_models model_names rules acc w = (Ok (acc ++ items), w')
     /\ map cell_of items = nested_cells model_names rules)
  \/ (exists m rule w0 e w',
        In m model_names /\ In rule rules
        /\ audit_model_against_rule m rule 3 w0 = (Raise e, w')
        /\ audit_models model_names rules acc w = (Raise e, w')).
Proof.
  induction model_names as [|m ms IH]; intros acc w.
  - left. exists [], w. simpl. now rewrite app_nil_r.
  - rewrite audit_models_cons.
    destruct (audit_rules_run m rules acc w)
      as [(row & w1 & Hrow & Hrowcells)
         |(rule & w0 & e & w' & Hin & Hcell & Hrow)]; rewrite Hrow.
    + destruct (IH (acc ++ row) w1)
        as [(items & w' & Hrun & Hcells)
           |(m' & rule & w0 & e & w' & Hm & Hr & Hcell & Hrun)].
      * left. exists (row ++ items), w'. split.
        -- rewrite Hrun. now rewrite <- app_assoc.
        -- unfold nested_cells in *. simpl.
           now rewrite map_app, Hrowcells, Hcells.
      * right. exists m', rule, w0, e, w'.
        split; [now right|]. now repeat split.
    + right. exists m, rule, w0, e, w'.
      split; [now left|]. now repeat split.
Qed.

(** C4, amended: from every state of the services, [run_full_audit]
    either returns or raises, and it raises only when a cell raises: the
    exception and the world are then those of that cell, and no result is
    returned.  When it returns, the result has [len(models) * len(rules)]
    items, in the order of the nested enumeration (models in input order
    outermost, rules in input order innermost).  A pair
    (model_name, rule_id) appears as many times as the model name occurs in
    the models times the rule id occurs among the rules: exactly once when
    the model names are pairwise distinct and the rule ids are pairwise
    distinct. *)
Theorem run_full_audit_matrix (model_names : list string)
    (rules : list Rule) (w : World) :
  (exists items w',
     run_full_audit model_names rules w = (Ok items, w')
     /\ List.length items = List.length model_names * List.length rules
     /\ map cell_of items = nested_cells model_names rules
     /\ (forall m i,
           count_cell (m, i) items
           = count_str m model_names * count_str i (map id rules))
     /\ (NoDup model_names -> NoDup (map id rules) ->
         forall m rule, In m model_names -> In rule rules ->
           count_cell (m, id rule) items = 1))
  \/ (exists m rule w0 e w',
        In m model_names /\ In rule rules
        /\ audit_model_against_rule m rule 3 w0 = (Raise e, w')
        /\ run_full_audit model_names rules w = (Raise e, w')).
Proof.
  destruct (audit_models_run model_names rules [] w)
    as [(items & w' & Hrun & Hcellsof)|Hraise]; [left|now right].
  exists items, w'.
  assert (Hcount : forall m i,
    count_cell (m, i) items
    = count_str m model_names * count_str i (map id rules)).
  { intros m i. now rewrite count_cell_map, Hcellsof, count_nested_cells. }
  repeat split.
  - exact Hrun.
  - rewrite <- (length_map cell_of), Hcellsof. apply length_nested_cells.
  - exact Hcellsof.
  - exact Hcount.
  - intros Hm Hr m rule Hinm Hinr. rewrite Hcount.
    rewrite (count_str_NoDup m model_names Hm Hinm).
    rewrite (count_str_NoDup (id rule) (map id rules) Hr
               (in_map id rules rule Hinr)).
    reflexivity.
Qed.

End FullAuditFacts.

(** ** app/main.py: the streaming audit *)

Lemma cell_event_names_app (n m : nat) :
  cell_event_names (n + m) = cell_event_names n ++ cell_event_names m.
Proof.
  induction n as [|n IH]; [reflexivity|]. simpl. now rewrite IH.
Qed.

Lemma events_named_cons (name : string) (e : Event) (evs : list Event) :
  events_named name (e :: evs)
  = if String.eqb (event e) name then e :: events_named name evs
    else events_named name evs.
Proof. reflexivity. Qed.

Section StreamFacts.
Context `{PyLib} `{Services}.

Lemma progress_of_result_event (model : string) (rule : Rule)
    (ev : Evidence) (completed total_audits : nat) :
  progress_of (result_event model rule ev completed total_audits)
  = expected_progress total_audits completed.
Proof. reflexivity. Qed.

(** One turn of the inner loop. *)
Lemma stream_rules_cons (model : string) (model_idx n_models n_rules : nat)
    (total_audits : nat) (rule : Rule) (rest : list Rule) (rule_idx : nat)
    (st : list StreamItem * nat) (evs : list Event) (w : World) :
  stream_rules model model_idx n_models n_rules total_audits (rule :: rest)
               rule_idx st (evs, w)
  = match audit_model_against_rule model rule 3 w with
    | (Ok ev, w1) =>
        stream_rules model model_idx n_models n_rules total_audits rest
          (S rule_idx)
          (fst st ++ [mkStreamItem model rule ev], S (snd st))
          ((evs ++ [checking_event model model_idx n_models
                                   rule rule_idx n_rules])
             ++ [result_event model rule ev (S (snd st)) total_audits], w1)
    | (Raise e, w1) =>
        (Raise e,
         (evs ++ [checking_event model model_idx n_models
                                 rule rule_idx n_rules], w1))
    end.
Proof.
  cbn [stream_rules]. unfold bind, yield, run. cbn [fst snd].
  destruct (audit_model_against_rule model rule 3 w) as [[ev|e] w1];
    reflexivity.
Qed.

(** The inner loop of the generator goes through the worlds of the inner
    loop of [run_full_audit]: when that loop returns from a world, so does
    the generator, in the same final world. *)
Lemma stream_rules_ok (model : string) (model_idx n_models n_rules : nat)
    (total_audits : nat) (rules : list Rule) :
  forall acc res rule_idx st evs w w',
  audit_rules model rules acc w = (Ok res, w') ->
  exists new evs',
    stream_rules model model_idx n_models n_rules total_audits rules
                 rule_idx st (evs, w)
    = (Ok (fst st ++ new, snd st + List.length rules), (evs ++ evs', w'))
    /\ List.length new = List.length rules
    /\ map event evs' = cell_event_names (List.length rules)
    /\ map progress_of (events_named "result" evs')
       = map (expected_progress total_audits)
             (seq (S (snd st)) (List.length rules)).
Proof.
  induction rules as [|rule rest IH];
    intros acc res rule_idx st evs w w' Hcells.
  - simpl in Hcells. inversion Hcells; subst.
    exists [], []. cbn [stream_rules]. unfold ret.
    rewrite !app_nil_r, Nat.add_0_r. destruct st. repeat split.
  - rewrite audit_rules_cons in Hcells.
    destruct (audit_model_against_rule model rule 3 w) as [[ev|e] w1]
      eqn:Hev; [|discriminate].
    rewrite stream_rules_cons, Hev.
    set (e1 := checking_event model model_idx n_models rule rule_idx n_rules).
    set (e2 := result_event model rule ev (S (snd st)) total_audits).
    destruct (IH _ _ (S rule_idx)
                 (fst st ++ [mkStreamItem model rule ev], S (snd st))
                 ((evs ++ [e1]) ++ [e2]) _ _ Hcells)
      as (new & evs' & Hrun & Hlen & Hnames & Hprog).
    exists (mkStreamItem model rule ev :: new), (e1 :: e2 :: evs').
    assert (He1 : event e1 = "progress") by reflexivity.
    assert (He2 : event e2 = "result") by reflexivity.
    cbn [fst snd] in Hrun, Hprog. rewrite Hrun. repeat split.
    + rewrite <- !app_assoc. cbn [app List.length].
      now rewrite Nat.add_succ_r.
    + simpl. now rewrite Hlen.
    + cbn [map List.length cell_event_names].
      now rewrite He1, He2, Hnames.
    + rewrite !events_named_cons, He1, He2.
      change (String.eqb "progress" "result") with false.
      change (String.eqb "result" "result") with true.
      cbn [map List.length seq]. rewrite Hprog. f_equal.
Qed.

Lemma stream_models_ok (rules : list Rule) (n_models total_audits : nat)
    (model_names : list string) :
  forall acc res model_idx st evs w w',
  audit_models model_names rules acc w = (Ok res, w') ->
  exists new evs',
    stream_models n_models rules total_audits model_names model_idx st
                  (evs, w)
    = (Ok (fst st ++ new,
           snd st + List.length model_names * List.length rules),
       (evs ++ evs', w'))
    /\ List.length new = List.length model_names * List.length rules
    /\ map event evs'
       = cell_event_names (List.length model_names * List.length rules)
    /\ map progress_of (events_named "result" evs')
       = map (expected_progress total_audits)
             (seq (S (snd st))
                  (List.length model_names * List.length rules)).
Proof.
  induction model_names as [|model rest IH];
    intros acc res model_idx st evs w w' Hcells.
  - simpl in Hcells. inversion Hcells; subst.
    exists [], []. cbn [stream_models]. unfold ret.
    rewrite !app_nil_r. simpl. rewrite Nat.add_0_r. destruct st.
    repeat split.
  - rewrite audit_models_cons in Hcells.
    destruct (audit_rules model rules acc w) as [[row0|e] w1] eqn:Hrow0;
      [|discriminate].
    cbn [stream_models]. unfold bind at 1.
    destruct (stream_rules_ok model model_idx n_models (List.length rules)
                total_audits rules _ _ 1 st evs _ _ Hrow0)
      as (row & evs1 & Hrow & Hlen1 & Hnames1 & Hprog1).
    rewrite Hrow.
    destruct (IH _ _ (S model_idx)
                 (fst st ++ row, snd st + List.length rules)
                 (evs ++ evs1) _ _ Hcells)
      as (new & evs2 & Hrun & Hlen2 & Hnames2 & Hprog2).
    exists (row ++ new), (evs1 ++ evs2).
    cbn [fst snd] in Hrun, Hprog2. rewrite Hrun. repeat split.
    + rewrite <- !app_assoc. cbn [List.length].
      now rewrite <- Nat.add_assoc.
    + rewrite length_app, Hlen1, Hlen2. simpl. lia.
    + rewrite map_app, Hnames1, Hnames2. simpl.
      now rewrite cell_event_names_app.
    + unfold events_named in *. rewrite filter_app, map_app, Hprog1, Hprog2.
      simpl. rewrite seq_app, map_app. reflexivity.
Qed.

(** The list comprehension that validates the dicts of the generator
    raises as soon as there is one dict. *)
Lemma stream_items_do_not_validate (items : list StreamItem) :
  items <> [] ->
  map_result AuditItem_of_stream_item items
  = Raise (ValidationError "AuditItem").
Proof.
  destruct items as [|item items]; [congruence|]. reflexivity.
Qed.

(** With at least one model and one rule, in a run whose cells all return
    an Evidence (the worlds of the cells are those [run_full_audit] goes
    through from the world left by [get_available_models], and it returns),
    steps 3 to 6 of the generator yield the start event and the two events
    of every cell, then raise while validating the results: the database is
    not reached and no "complete" event is yielded. *)
Lemma stream_audit_raises (filename : string) (rules : list Rule)
    (model_names : list string) (evs : list Event) (w w0 w1 : World)
    (items : list AuditItem) :
  get_available_models w = (Ok model_names, w0) ->
  model_names <> [] -> rules <> [] ->
  run_full_audit model_names rules w0 = (Ok items, w1) ->
  exists evs',
    stream_audit filename rules (evs, w)
    = (Raise (ValidationError "AuditItem"), (evs ++ evs', w1))
    /\ map event evs'
       = "progress"
         :: cell_event_names (List.length model_names * List.length rules)
    /\ map progress_of (events_named "result" evs')
       = map (expected_progress
                (List.length model_names * List.length rules))
             (seq 1 (List.length model_names * List.length rules)).
Proof.
  intros Hmodels Hm Hr Hcells. unfold stream_audit.
  unfold bind at 1, run at 1. cbn [fst snd]. rewrite Hmodels.
  unfold bind at 1, yield at 1. cbn [fst snd].
  set (start := progress_event _).
  unfold bind at 1.
  destruct (stream_models_ok rules (List.length model_names)
              (List.length model_names * List.length rules) model_names
              _ _ 1 ([], 0) (evs ++ [start]) _ _ Hcells)
    as (new & evs' & Hrun & Hlen & Hnames & Hprog).
  cbn [fst snd] in Hrun, Hprog. rewrite Hrun. cbn [fst].
  exists (start :: evs'). repeat split.
  - unfold bind at 1, lift at 1. simpl app at 1.
    rewrite stream_items_do_not_validate.
    + f_equal. f_equal. now rewrite <- app_assoc.
    + intros ->. simpl in Hlen.
      destruct model_names; [congruence|]. destruct rules; [congruence|].
      discriminate.
  - simpl. now rewrite Hnames.
  - simpl. exact Hprog.
Qed.

End StreamFacts.

(** ** The stable sort by decreasing key *)

Lemma fle_trans (a b c : pyfloat) :
  fle a b = true -> fle b c = true -> fle a c = true.
Proof.
  destruct a as [x| | |], b as [y| | |], c as [z| | |]; simpl;
    try discriminate; try reflexivity.
  intros Hxy Hyz. apply Qle_bool_iff in Hxy, Hyz. apply Qle_bool_iff.
  now apply Qle_trans with (y := y).
Qed.

Lemma flt_fle (a b : pyfloat) : flt a b = true -> fle a b = true.
Proof.
  destruct a as [x| | |], b as [y| | |]; simpl; try discriminate;
    try reflexivity.
  apply Qltb_le.
Qed.

Lemma not_flt_fle (a b : pyfloat) :
  is_number a = true -> is_number b = true ->
  flt a b = false -> fle b a = true.
Proof.
  destruct a as [x| | |], b as [y| | |]; simpl; try discriminate;
    try reflexivity.
  intros _ _. apply Qltb_false_le.
Qed.

Lemma not_flt_fle_false (a b : pyfloat) :
  fle a b = true -> flt b a = false.
Proof.
  destruct a as [x| | |], b as [y| | |]; simpl; try discriminate;
    try reflexivity.
  intros Hle. unfold Qltb. now rewrite Hle.
Qed.

Lemma feqb_not_flt (a b k : pyfloat) :
  feqb a k = true -> feqb b k = true -> flt a b = false.
Proof.
  destruct a as [x| | |], b as [y| | |], k as [z| | |]; simpl;
    try discriminate; try reflexivity.
  intros Hx Hy. apply Qeq_bool_iff in Hx, Hy.
  unfold Qltb. apply negb_false_iff. apply Qle_bool_iff.
  rewrite Hx, Hy. apply Qle_refl.
Qed.

Section SortFacts.
Context {A : Type} (key : A -> pyfloat).

Lemma insert_desc_perm (x : A) (l : list A) :
  Permutation (insert_desc key x l) (x :: l).
Proof.
  induction l as [|y l IH]; simpl; [reflexivity|].
  destruct (flt (key x) (key y)); [|reflexivity].
  rewrite IH. apply perm_swap.
Qed.

Lemma sort_desc_perm (l : list A) : Permutation (sort_desc key l) l.
Proof.
  induction l as [|x l IH]; simpl; [reflexivity|].
  rewrite insert_desc_perm. now apply perm_skip.
Qed.

Lemma insert_desc_sorted (x : A) (l : list A) :
  is_number (key x) = true ->
  Forall (fun y => is_number (key y) = true) l ->
  StronglySorted (desc key) l ->
  StronglySorted (desc key) (insert_desc key x l).
Proof.
  intros Hx Hfin Hsorted.
  induction Hsorted as [|y l Hsorted IH Hall]; simpl.
  - constructor; constructor.
  - inversion Hfin as [|? ? Hy Hfin']; subst.
    destruct (flt (key x) (key y)) eqn:Hlt.
    + constructor; [now apply IH|].
      apply (Permutation_Forall (x := x :: l)).
      * symmetry. apply insert_desc_perm.
      * constructor; [|exact Hall]. unfold desc. now apply flt_fle.
    + assert (Hyx : desc key x y).
      { unfold desc. now apply not_flt_fle. }
      constructor; [now constructor|].
      constructor; [exact Hyx|].
      eapply Forall_impl; [|exact Hall].
      intros z Hz. unfold desc in *. now apply fle_trans with (b := key y).
Qed.

(** The result is sorted by decreasing key when no key is nan. *)
Lemma sort_desc_sorted (l : list A) :
  Forall (fun y => is_number (key y) = true) l ->
  StronglySorted (desc key) (sort_desc key l).
Proof.
  induction l as [|x l IH]; intros Hfin; simpl; [constructor|].
  inversion Hfin as [|? ? Hx Hfin']; subst.
  apply insert_desc_sorted; [exact Hx| |now apply IH].
  apply (Permutation_Forall (x := l)); [|exact Hfin'].
  symmetry. apply sort_desc_perm.
Qed.

Lemma insert_desc_stable (k : pyfloat) (x : A) (l : list A) :
  filter (fun e => feqb (key e) k) (insert_desc key x l)
  = filter (fun e => feqb (key e) k) (x :: l).
Proof.
  induction l as [|y l IH]; [reflexivity|].
  cbn [insert_desc]. destruct (flt (key x) (key y)) eqn:Hlt; [|reflexivity].
  cbn [filter] in *. rewrite IH.
  destruct (feqb (key x) k) eqn:Hx, (feqb (key y) k) eqn:Hy; try reflexivity.
  rewrite (feqb_not_flt _ _ _ Hx Hy) in Hlt. discriminate.
Qed.

(** The sort is stable: the elements with a given key keep their order. *)
Lemma sort_desc_stable (k : pyfloat) (l : list A) :
  filter (fun e => feqb (key e) k) (sort_desc key l)
  = filter (fun e => feqb (key e) k) l.
Proof.
  induction l as [|x l IH]; [reflexivity|].
  cbn [sort_desc]. rewrite insert_desc_stable. cbn [filter].
  now rewrite IH.
Qed.

End SortFacts.

(** ** app/services/dashboard.py: the statistics of a model *)

Lemma mem_In (x : string) (l : list string) : mem x l = true <-> In x l.
Proof.
  unfold mem. rewrite existsb_exists. split.
  - intros (y & Hin & Heq). apply String.eqb_eq in Heq. now subst.
  - intros Hin. exists x. split; [exact Hin|apply String.eqb_refl].
Qed.

Lemma mem_false (x : string) (l : list string) :
  mem x l = false -> forall y, In y l -> String.eqb y x = false.
Proof.
  intros Hmem y Hin. destruct (String.eqb y x) eqn:E; [|reflexivity].
  apply String.eqb_eq in E. subst y. apply mem_In in Hin. congruence.
Qed.

Lemma filter_map_comm {A B : Type} (f : A -> B) (p : B -> bool) (l : list A) :
  filter p (map f l) = map f (filter (fun x => p (f x)) l).
Proof.
  induction l as [|x l IH]; [reflexivity|]. simpl.
  destruct (p (f x)); simpl; now rewrite IH.
Qed.

Lemma first_appearances_In (x : string) (l : list string) :
  In x (first_appearances l) <-> In x l.
Proof.
  induction l as [|y l IH]; [reflexivity|]. simpl.
  rewrite filter_In, IH, negb_true_iff. split.
  - intros [->|[Hin _]]; auto.
  - intros [->|Hin]; [now left|].
    destruct (String.eqb y x) eqn:E.
    + apply String.eqb_eq in E. now left.
    + right. now split.
Qed.

Lemma first_appearances_NoDup (l : list string) : NoDup (first_appearances l).
Proof.
  induction l as [|y l IH]; simpl; constructor.
  - rewrite filter_In, negb_true_iff, String.eqb_refl. now intros [_ ?].
  - now apply NoDup_filter.
Qed.

Lemma first_appearances_snoc (l : list string) (x : string) :
  first_appearances (l ++ [x])
  = if mem x l then first_appearances l else first_appearances l ++ [x].
Proof.
  induction l as [|y l IH]; [reflexivity|].
  cbn [app first_appearances]. rewrite IH. unfold mem. cbn [existsb].
  fold (mem x l). destruct (mem x l).
  - now rewrite orb_true_r.
  - rewrite orb_false_r, filter_app. cbn [filter].
    destruct (String.eqb y x); cbn [negb]; [now rewrite app_nil_r|reflexivity].
Qed.

Lemma mem_first_appearances (x : string) (l : list string) :
  mem x (first_appearances l) = mem x l.
Proof.
  destruct (mem x l) eqn:E.
  - apply mem_In. apply first_appearances_In. now apply mem_In.
  - destruct (mem x (first_appearances l)) eqn:E'; [|reflexivity].
    apply (proj1 (mem_In _ _)) in E'.
    apply (proj1 (first_appearances_In _ _)) in E'.
    apply (proj2 (mem_In _ _)) in E'. congruence.
Qed.

(** An update of a [defaultdict] whose values are a function of the keys. *)
Lemma dd_update_map {V : Type} (default : V) (n : string) (f : V -> V)
    (g : string -> V) (keys : list string) :
  NoDup keys ->
  dd_update default n f (map (fun m => (m, g m)) keys)
  = if mem n keys
    then map (fun m => (m, if String.eqb m n then f (g m) else g m)) keys
    else map (fun m => (m, g m)) keys ++ [(n, f default)].
Proof.
  intros Hnd. induction keys as [|k keys IH]; [reflexivity|].
  inversion Hnd as [|? ? Hnotin Hnd']; subst.
  unfold mem. cbn [map dd_update existsb]. fold (mem n keys).
  destruct (String.eqb k n) eqn:E.
  - cbn [orb]. f_equal. apply map_ext_in. intros m Hin.
    apply String.eqb_eq in E. subst k.
    destruct (String.eqb m n) eqn:E'; [|reflexivity].
    apply String.eqb_eq in E'. now subst m.
  - cbn [orb]. rewrite (IH Hnd'). now destruct (mem n keys).
Qed.

Lemma model_stats_of_snoc (l : list AuditItem) (x : AuditItem) :
  model_stats_of (l ++ [x]) = model_stats_step (model_stats_of l) x.
Proof.
  unfold model_stats_of. now rewrite fold_left_app.
Qed.

Lemma stats_for_snoc (m : string) (l : list AuditItem) (x : AuditItem) :
  stats_for m (l ++ [x])
  = if String.eqb (model_name x) m
    then bump_model (status (evidence x)) (confidence (evidence x))
                    (stats_for m l)
    else stats_for m l.
Proof.
  unfold stats_for. now rewrite fold_left_app.
Qed.

Lemma stats_for_absent (m : string) (l : list AuditItem) :
  mem m (map model_name l) = false ->
  stats_for m l = mkModelStats 0 0 0 (Fin 0).
Proof.
  induction l as [|x l IH] using rev_ind; [reflexivity|].
  rewrite map_app. unfold mem. rewrite existsb_app. cbn [map existsb].
  rewrite orb_false_r. intros Hmem. apply orb_false_iff in Hmem.
  destruct Hmem as [Hl Hx]. rewrite stats_for_snoc, Hx. now apply IH.
Qed.

(** The first loop groups the items by model, in order of first
    appearance. *)
Lemma model_stats_of_spec (items : list AuditItem) :
  model_stats_of items
  = map (fun m => (m, stats_for m items))
        (first_appearances (map model_name items)).
Proof.
  induction items as [|x l IH] using rev_ind; [reflexivity|].
  rewrite model_stats_of_snoc, IH. unfold model_stats_step.
  rewrite dd_update_map by apply first_appearances_NoDup.
  replace (map model_name (l ++ [x]))
    with (map model_name l ++ [model_name x]) by now rewrite map_app.
  rewrite first_appearances_snoc, mem_first_appearances.
  destruct (mem (model_name x) (map model_name l)) eqn:Hmem.
  - apply map_ext. intros m. rewrite stats_for_snoc.
    now rewrite (String.eqb_sym m).
  - rewrite map_app. cbn [map]. f_equal.
    + apply map_ext_in. intros m Hin. rewrite stats_for_snoc.
      apply (proj1 (first_appearances_In _ _)) in Hin.
      now rewrite (String.eqb_sym _ m), (mem_false _ _ Hmem m Hin).
    + rewrite stats_for_snoc, String.eqb_refl.
      now rewrite (stats_for_absent _ _ Hmem).
Qed.

Lemma count_model_status_snoc (m : string) (st : Status)
    (l : list AuditItem) (x : AuditItem) :
  count_model_status m st (l ++ [x])
  = count_model_status m st l
    + (if String.eqb (model_name x) m && status_eqb (status (evidence x)) st
       then 1 else 0).
Proof.
  unfold count_model_status. rewrite filter_app, length_app. cbn [filter].
  now destruct (String.eqb (model_name x) m
                && status_eqb (status (evidence x)) st).
Qed.

(** The counters of a model count its PASS items and its FAIL items, and
    [total] is their sum. *)
Lemma stats_for_counts (m : string) (items : list AuditItem) :
  stat_PASS (stats_for m items) = count_model_status m PASS items
  /\ stat_FAIL (stats_for m items) = count_model_status m FAIL items
  /\ stat_total (stats_for m items)
     = count_model_status m PASS items + count_model_status m FAIL items.
Proof.
  induction items as [|x l IH] using rev_ind; [repeat split|].
  destruct IH as (Hp & Hf & Ht).
  rewrite stats_for_snoc, !count_model_status_snoc.
  destruct (String.eqb (model_name x) m); cbn [andb].
  - destruct (status (evidence x)); cbn [bump_model stat_PASS stat_FAIL
      stat_total status_eqb]; rewrite ?Hp, ?Hf, ?Ht; repeat split; lia.
  - rewrite !Nat.add_0_r. now repeat split.
Qed.

Lemma stats_for_total_pos (m : string) (items : list AuditItem) :
  In m (map model_name items) -> 0 < stat_total (stats_for m items).
Proof.
  induction items as [|x l IH] using rev_ind; [easy|].
  rewrite map_app, in_app_iff, stats_for_snoc. cbn [map In].
  destruct (String.eqb (model_name x) m) eqn:E.
  - intros _. cbn [bump_model stat_total]. lia.
  - intros [Hin|[Heq|[]]]; [now apply IH|].
    subst m. now rewrite String.eqb_refl in E.
Qed.

(** [b64] gives a number or an infinity, and so do the quotient of two
    [int]s and a percentage. *)
Lemma b64_is_number (q : Q) : is_number (b64 q) = true.
Proof.
  unfold b64. destruct (Qnum q); [reflexivity| |]; cbv zeta;
    repeat match goal with
           | |- context [if ?c then _ else _] => destruct c
           end; reflexivity.
Qed.

Lemma percent_is_number (p t : nat) : is_number (percent p t) = true.
Proof.
  unfold percent, true_div.
  pose proof (b64_is_number
                (inject_Z (Z.of_nat p) / inject_Z (Z.of_nat t))) as Hq.
  destruct (b64 _) as [x| | |]; try discriminate; try reflexivity.
  apply b64_is_number.
Qed.

(** The score of a model before rounding is [(pass / (pass + fail)) * 100],
    as the floats compute it. *)
Lemma full_score_formula (m : string) (items : list AuditItem) :
  In m (map model_name items) ->
  full_score m items
  = percent (count_model_status m PASS items)
            (count_model_status m PASS items
             + count_model_status m FAIL items).
Proof.
  intros Hin. unfold full_score, compliance_score_of.
  pose proof (stats_for_total_pos m items Hin) as Hpos.
  destruct (stats_for_counts m items) as (Hp & _ & Ht).
  apply Nat.ltb_lt in Hpos. rewrite Hpos. now rewrite Hp, Ht.
Qed.

(** ** app/services/dashboard.py: the model rankings *)

Section DashboardFacts.
Context `{PyLib}.

Lemma unsorted_rankings_spec (items : list AuditItem) :
  unsorted_rankings items
  = map (entry_of items) (first_appearances (map model_name items)).
Proof.
  unfold unsorted_rankings. now rewrite model_stats_of_spec, map_map.
Qed.

Lemma model_rankings_unfold (items : list AuditItem) (rules : list Rule) :
  model_rankings (calculate_dashboard_stats items rules)
  = sort_desc rk_compliance_score (unsorted_rankings items).
Proof. reflexivity. Qed.

Lemma model_rankings_In (items : list AuditItem) (rules : list Rule)
    (e : ModelRanking) :
  In e (model_rankings (calculate_dashboard_stats items rules)) <->
  exists m, In m (map model_name items) /\ e = entry_of items m.
Proof.
  rewrite model_rankings_unfold, unsorted_rankings_spec. split.
  - intros Hin.
    apply (Permutation_in _ (sort_desc_perm rk_compliance_score _)) in Hin.
    apply in_map_iff in Hin. destruct Hin as (m & <- & Hm).
    exists m. split; [|reflexivity]. now apply first_appearances_In.
  - intros (m & Hm & ->).
    apply (Permutation_in _
             (Permutation_sym (sort_desc_perm rk_compliance_score _))).
    apply in_map. now apply first_appearances_In.
Qed.

Lemma entry_score_number (items : list AuditItem) (m : string) :
  is_number (rk_compliance_score (entry_of items m)) = true.
Proof.
  unfold entry_of, ranking_entry. cbn [rk_compliance_score].
  unfold compliance_score_of.
  destruct (Nat.ltb 0 (stat_total (stats_for m items))); [|reflexivity].
  pose proof (percent_is_number (stat_PASS (stats_for m items))
                                (stat_total (stats_for m items))) as Hn.
  now destruct (percent _ _).
Qed.

(** C1, amended: the compliance_score reported for a model is
    [round((pass_count / (pass_count + fail_count)) * 100, 1)] as Python
    evaluates it on floats.  The quotient of the two counts is rounded to
    the nearest float, so is its product with 100, and [round] gives the
    float nearest to that product rounded to one decimal: the result is
    neither the exact percentage nor, in general, its rounding.  The status
    of an item is PASS or FAIL, so that [pass_count + fail_count] is the
    number of items of the model; it is positive for every model of the
    rankings. *)
Theorem compliance_score_formula (items : list AuditItem)
    (rules : list Rule) (e : ModelRanking) :
  (forall q, round1 q = python_round1 q) ->
  In e (model_rankings (calculate_dashboard_stats items rules)) ->
  In (rk_model_name e) (map model_name items)
  /\ rk_pass_count e = count_model_status (rk_model_name e) PASS items
  /\ rk_fail_count e = count_model_status (rk_model_name e) FAIL items
  /\ rk_total_rules e = rk_pass_count e + rk_fail_count e
  /\ 0 < rk_pass_count e + rk_fail_count e
  /\ full_score (rk_model_name e) items
     = percent (rk_pass_count e) (rk_pass_count e + rk_fail_count e)
  /\ rk_compliance_score e
     = round_tenths
         (percent (rk_pass_count e) (rk_pass_count e + rk_fail_count e)).
Proof.
  intros Hround Hin. apply model_rankings_In in Hin.
  destruct Hin as (m & Hm & ->).
  destruct (stats_for_counts m items) as (Hp & Hf & Ht).
  pose proof (stats_for_total_pos m items Hm) as Hpos.
  pose proof (full_score_formula m items Hm) as Hfull.
  unfold entry_of, ranking_entry.
  cbn [rk_model_name rk_pass_count rk_fail_count rk_total_rules
       rk_compliance_score].
  rewrite Hp, Hf. repeat split; try assumption; try lia.
  unfold full_score in Hfull. rewrite Hfull.
  unfold py_round1, round_tenths.
  destruct (percent _ _) as [q| | |]; try reflexivity.
  now rewrite Hround.
Qed.

(** C5, amended: the rankings hold one entry for each model of the
    results and are sorted by decreasing compliance_score as rounded to one
    decimal place, which is the key of the sort.  Models with equal rounded
    scores are in the order of their first appearance in the results. *)
Theorem model_rankings_order (items : list AuditItem) (rules : list Rule) :
  Permutation
    (map rk_model_name
         (model_rankings (calculate_dashboard_stats items rules)))
    (first_appearances (map model_name items))
  /\ (forall e,
        In e (model_rankings (calculate_dashboard_stats items rules)) ->
        rk_compliance_score e
        = py_round1 (full_score (rk_model_name e) items))
  /\ StronglySorted (desc rk_compliance_score)
       (model_rankings (calculate_dashboard_stats items rules))
  /\ (forall k,
        map rk_model_name
            (filter (fun e => feqb (rk_compliance_score e) k)
               (model_rankings (calculate_dashboard_stats items rules)))
        = filter (fun m => feqb (py_round1 (full_score m items)) k)
                 (first_appearances (map model_name items))).
Proof.
  rewrite model_rankings_unfold, unsorted_rankings_spec.
  assert (Hnames : forall l, map rk_model_name (map (entry_of items) l) = l).
  { intros l. rewrite map_map. now rewrite map_id. }
  repeat split.
  - rewrite (Permutation_map rk_model_name
               (sort_desc_perm rk_compliance_score _)).
    now rewrite Hnames.
  - intros e Hin.
    apply (Permutation_in _ (sort_desc_perm rk_compliance_score _)) in Hin.
    apply in_map_iff in Hin. now destruct Hin as (m & <- & _).
  - apply sort_desc_sorted. apply Forall_forall. intros e Hin.
    apply in_map_iff in Hin. destruct Hin as (m & <- & _).
    apply entry_score_number.
  - intros k. rewrite sort_desc_stable, filter_map_comm. apply Hnames.
Qed.

End DashboardFacts.

(** ** Concrete runs *)

(** C1: a model with one PASS and two FAIL items is reported with the
    score 33.3 (the float nearest to it), which is not 1 / (1 + 2) * 100.
    A model with 23 PASS and 57 FAIL items is reported with 28.7: its exact
    percentage is 28.75, which rounds to 28.8, but the float computed for
    it is below 28.75. *)
Lemma compliance_score_not_exact :
  In (entry_of (items_for "A" 1 3) "A")
     (model_rankings (calculate_dashboard_stats (items_for "A" 1 3) []))
  /\ rk_pass_count (entry_of (items_for "A" 1 3) "A") = 1
  /\ rk_fail_count (entry_of (items_for "A" 1 3) "A") = 2
  /\ rk_compliance_score (entry_of (items_for "A" 1 3) "A")
     = b64 (333 # 10)
  /\ ~ feq (rk_compliance_score (entry_of (items_for "A" 1 3) "A"))
           (Fin (pass_rate_exact 1 2))
  /\ rk_pass_count (entry_of (items_for "A" 23 80) "A") = 23
  /\ rk_fail_count (entry_of (items_for "A" 23 80) "A") = 57
  /\ rk_compliance_score (entry_of (items_for "A" 23 80) "A")
     = b64 (287 # 10)
  /\ Qeq_bool (pass_rate_exact 23 57) (2875 # 100) = true
  /\ round_half_even (pass_rate_exact 23 57 * 10) = 288%Z
  /\ flt (full_score "A" (items_for "A" 23 80)) (Fin (2875 # 100)) = true.
Proof.
  repeat split; try (vm_compute; reflexivity).
  - vm_compute. left. reflexivity.
  - vm_compute. discriminate.
Qed.

Lemma compliance_score_formula_witness :
  In (entry_of (items_for "A" 23 80) "A")
     (model_rankings (calculate_dashboard_stats (items_for "A" 23 80) []))
  /\ full_score "A" (items_for "A" 23 80)
     = percent (rk_pass_count (entry_of (items_for "A" 23 80) "A"))
               (rk_pass_count (entry_of (items_for "A" 23 80) "A")
                + rk_fail_count (entry_of (items_for "A" 23 80) "A"))
  /\ rk_compliance_score (entry_of (items_for "A" 23 80) "A")
     = round_tenths
         (percent (rk_pass_count (entry_of (items_for "A" 23 80) "A"))
                  (rk_pass_count (entry_of (items_for "A" 23 80) "A")
                   + rk_fail_count (entry_of (items_for "A" 23 80) "A"))).
Proof.
  assert (Hin : In (entry_of (items_for "A" 23 80) "A")
                   (model_rankings
                      (calculate_dashboard_stats (items_for "A" 23 80) []))).
  { vm_compute. left. reflexivity. }
  destruct (@compliance_score_formula scripted_pylib
              (items_for "A" 23 80) []
              (entry_of (items_for "A" 23 80) "A")
              (fun q => eq_refl) Hin)
    as (_ & _ & _ & _ & _ & Hfull & Hscore).
  split; [exact Hin|]. split; [exact Hfull|exact Hscore].
Defined.

(** C2: with a vector store that cannot be reached, and with a judgment
    model that cannot be called, [audit_model_against_rule] raises. *)
Theorem audit_raises_on_service_failure :
  audit_model_against_rule "ModelA" rule1 3 (store_down ["ModelA"])
  = (Raise (ValidationError "Evidence"), store_down ["ModelA"])
  /\ audit_model_against_rule "ModelA" rule1 3 (no_key ["ModelA"])
     = (Raise (ValidationError "Evidence"), no_key ["ModelA"]).
Proof. split; reflexivity. Qed.

(** C3: one model, the five fallback rules and an empty vector store.  Every
    cell completes; the stream yields the two events of each cell and ends
    with an "error" event.  No "complete" event is yielded and nothing is
    stored. *)
Theorem stream_ends_with_error :
  map event (fst (event_generator "p.pdf" short_pdf (empty_store ["ModelA"])))
  = ["progress"; "progress"; "progress"; "progress"; "progress"; "progress"]
      ++ cell_event_names 5 ++ ["error"]
  /\ events_named "complete"
       (fst (event_generator "p.pdf" short_pdf (empty_store ["ModelA"])))
     = []
  /\ map progress_of
       (events_named "result"
          (fst (event_generator "p.pdf" short_pdf (empty_store ["ModelA"]))))
     = map (expected_progress 5) [1; 2; 3; 4; 5]
  /\ script_stored
       (snd (event_generator "p.pdf" short_pdf (empty_store ["ModelA"])))
     = [].
Proof. repeat split; vm_compute; reflexivity. Qed.

(** C4: a model name given twice has each of its cells twice. *)
Lemma duplicate_model_repeats_cells :
  run_full_audit ["A"; "A"] [rule1] (empty_store ["A"])
  = (Ok [item_of "A" rule1 no_documentation;
         item_of "A" rule1 no_documentation], empty_store ["A"])
  /\ count_cell ("A", "1")
       [item_of "A" rule1 no_documentation;
        item_of "A" rule1 no_documentation] = 2
  /\ count_cell ("A", "1")
       [item_of "A" rule1 no_documentation;
        item_of "A" rule1 no_documentation] <> 1.
Proof.
  repeat split. vm_compute. discriminate.
Qed.

(** C4: two models with one chunk of documentation each, audited against
    the five fallback rules by a judgment model that answers. *)
Lemma run_full_audit_matrix_witness :
  exists items w',
    run_full_audit ["A"; "B"] fallback_rules
                   (answering (verdict_text "250") ["A"; "B"])
    = (Ok items, w')
    /\ List.length items = 2 * 5
    /\ map cell_of items = nested_cells ["A"; "B"] fallback_rules
    /\ count_cell ("B", "3") items = 1.
Proof.
  destruct (@run_full_audit_matrix scripted_pylib scripted_services
              ["A"; "B"] fallback_rules
              (answering (verdict_text "250") ["A"; "B"]))
    as [(items & w' & Hrun & Hlen & Hcells & Hcount & _)
       |(m & rule & w0 & e & w' & _ & _ & _ & Hraise)].
  - exists items, w'. repeat split; try assumption.
    rewrite Hcount. reflexivity.
  - vm_compute in Hraise. discriminate.
Defined.

(** C5: model B (1 PASS of 51) is ranked before model A (1 PASS of 50), both
    being reported at 2.0, though the score of B before rounding is below
    that of A. *)
Lemma rankings_not_sorted_by_full_score :
  map rk_model_name (model_rankings (calculate_dashboard_stats tie_items []))
  = ["B"; "A"]
  /\ map rk_compliance_score
         (model_rankings (calculate_dashboard_stats tie_items []))
     = [Fin 2; Fin 2]
  /\ flt (full_score "B" tie_items) (full_score "A" tie_items) = true
  /\ ~ StronglySorted
         (fun a b => fle (full_score (rk_model_name b) tie_items)
                         (full_score (rk_model_name a) tie_items) = true)
         (model_rankings (calculate_dashboard_stats tie_items [])).
Proof.
  assert (Hl : model_rankings (calculate_dashboard_stats tie_items [])
               = [entry_of tie_items "B"; entry_of tie_items "A"])
    by (vm_compute; reflexivity).
  assert (Hlt : flt (full_score "B" tie_items) (full_score "A" tie_items)
                = true) by (vm_compute; reflexivity).
  rewrite Hl. split; [reflexivity|]. split; [vm_compute; reflexivity|].
  split; [exact Hlt|].
  intros Hsorted. inversion Hsorted as [|a l _ Hall]; subst.
  inversion Hall as [|b l' Hfle _]; subst.
  cbn [rk_model_name entry_of ranking_entry] in Hfle.
  apply not_flt_fle_false in Hfle. congruence.
Qed.

Lemma audit_confidence_in_range_witness :
  audit_model_against_rule "ModelA" rule1 3
    (answering (verdict_text "250") ["ModelA"])
  = (Ok (mkEvidence PASS (Fin 100) "q" "r"),
     answering (verdict_text "250") ["ModelA"])
  /\ in_0_100 (Fin 100).
Proof.
  assert (Hrun : audit_model_against_rule "ModelA" rule1 3
                   (answering (verdict_text "250") ["ModelA"])
                 = (Ok (mkEvidence PASS (Fin 100) "q" "r"),
                    answering (verdict_text "250") ["ModelA"]))
    by reflexivity.
  split; [exact Hrun|].
  exact (proj1 (@audit_confidence_in_range scripted_pylib scripted_services
                  _ _ _ _ _ _ Hrun)).
Defined.

Lemma audit_no_documentation_witness :
  exists ev,
    audit_model_against_rule "ModelB" rule1 3 (empty_store ["ModelB"])
    = (Ok ev, empty_store ["ModelB"])
    /\ status ev = FAIL
    /\ confidence ev = Fin 20
    /\ quote ev = "No documentation available".
Proof.
  apply (@audit_no_documentation scripted_pylib scripted_services
           "ModelB" rule1 3 (empty_store ["ModelB"])).
  reflexivity.
Defined.

(** C9: the response parses to a list of one rule, and the extraction
    returns one rule. *)
Lemma extract_success_with_one_rule :
  call_groq (rules_prompt (substring 0 max_chars "policy"))
            (answering one_rule_text [])
  = (Ok one_rule_text, answering one_rule_text [])
  /\ json_loads (clean_response one_rule_text) = Ok one_rule_value
  /\ extract_policy_rules "policy" (answering one_rule_text [])
     = (Ok [mkRule "1" "Safety" "Q"], answering one_rule_text [])
  /\ List.length [mkRule "1" "Safety" "Q"] <> 5.
Proof. repeat split. discriminate. Qed.

Lemma extract_returns_parsed_rules_witness :
  extract_policy_rules "policy" (answering one_rule_text [])
  = (Ok [mkRule "1" "Safety" "Q"], answering one_rule_text [])
  /\ List.length [mkRule "1" "Safety" "Q"] = 1.
Proof.
  apply (@extract_returns_parsed_rules scripted_pylib scripted_services
           "policy" (answering one_rule_text [])
           (answering one_rule_text []) one_rule_text
           [JDict [("id", JStr "1"); ("category", JStr "Safety");
                   ("question", JStr "Q")]]);
    reflexivity.
Defined.

Lemma extract_depends_on_prefix_witness :
  long_text "x" <> long_text "yz"
  /\ extract_policy_rules (long_text "x") (answering one_rule_text [])
     = extract_policy_rules (long_text "yz") (answering one_rule_text []).
Proof.
  split.
  - intros Heq. apply (f_equal String.length) in Heq.
    vm_compute in Heq. discriminate.
  - apply (@extract_depends_on_prefix scripted_pylib scripted_services).
    vm_compute. reflexivity.
Defined.

(** Model A (23 PASS of 80) is reported at 28.7 and ranked after model D
    (36 PASS of 125), reported at 28.8. *)
Example rankings_of_close_scores :
  map (fun e => (rk_model_name e, rk_compliance_score e))
      (model_rankings (calculate_dashboard_stats close_items []))
  = [("D", b64 (288 # 10)); ("A", b64 (287 # 10))]
  /\ best_model (calculate_dashboard_stats close_items []) = Some "D"
  /\ worst_model (calculate_dashboard_stats close_items []) = Some "A".
Proof.
  split; [|split]; vm_compute; reflexivity.
Qed.

(** A response that does not parse gives the fallback rules. *)
Example extract_falls_back_on_garbage :
  extract_policy_rules "policy" (answering "no json here" [])
  = (Ok fallback_rules, answering "no json here" []).
Proof. reflexivity. Qed.

(** With no model in the vector store the stream ends with the "complete"
    event, which holds the identifier given by the store. *)
Example stream_without_models_completes :
  map event (fst (event_generator "p.pdf" short_pdf (empty_store [])))
  = ["progress"; "progress"; "progress"; "progress"; "progress"; "progress";
     "complete"]
  /\ map (event_field "audit_id")
         (events_named "complete"
            (fst (event_generator "p.pdf" short_pdf (empty_store []))))
     = [Some (JStr "audit-0")].
Proof. split; vm_compute; reflexivity. Qed.

(** * Further properties *)

(** ** app/services/audit.py: validation, the cell and the full audit *)

Section MoreAuditFacts.
Context `{PyLib} `{Services}.

Lemma validate_policy_document_unfold (policy_text : string) (w : World) :
  validate_policy_document policy_text w =
  match call_groq (validation_prompt (substring 0 5000 policy_text)) w with
  | (Ok text, w1) =>
      match json_loads (clean_response text) with
      | Ok v => (Ok v, w1)
      | Raise _ => (Ok validation_unavailable, w1)
      end
  | (Raise _, w1) => (Ok validation_unavailable, w1)
  end.
Proof.
  unfold validate_policy_document, try_except, bind, lift.
  destruct (call_groq _ w) as [[text|e] w1]; [|reflexivity].
  destruct (json_loads (clean_response text)); reflexivity.
Qed.

(** X1: [validate_policy_document] never raises and fails open.  When the
    judgment model cannot be called or its response does not parse, the
    result says that the document is a policy; when the response parses, the
    result is the parsed value, whatever it is. *)
Theorem validate_fails_open (policy_text : string) (w : World) :
  (exists v w', validate_policy_document policy_text w = (Ok v, w'))
  /\ (forall e w1,
        call_groq (validation_prompt (substring 0 5000 policy_text)) w
        = (Raise e, w1) ->
        validate_policy_document policy_text w
        = (Ok validation_unavailable, w1))
  /\ (forall text w1 e,
        call_groq (validation_prompt (substring 0 5000 policy_text)) w
        = (Ok text, w1) ->
        json_loads (clean_response text) = Raise e ->
        validate_policy_document policy_text w
        = (Ok validation_unavailable, w1))
  /\ (forall text w1 v,
        call_groq (validation_prompt (substring 0 5000 policy_text)) w
        = (Ok text, w1) ->
        json_loads (clean_response text) = Ok v ->
        validate_policy_document policy_text w = (Ok v, w1))
  /\ py_getitem validation_unavailable "is_policy" = Ok (JBool true).
Proof.
  rewrite validate_policy_document_unfold. repeat split.
  - destruct (call_groq _ w) as [[text|e] w1]; [|eauto].
    destruct (json_loads (clean_response text)); eauto.
  - intros e w1 Hc. now rewrite Hc.
  - intros text w1 e Hc Hj. now rewrite Hc, Hj.
  - intros text w1 v Hc Hj. now rewrite Hc, Hj.
Qed.

(** X2: when chunks are retrieved and the response of the judgment model is
    not valid JSON, the cell is the Evidence with status FAIL, confidence
    10.0, the quote "Error occurred during analysis" and the reason
    "Error parsing LLM response.". *)
Theorem audit_parse_failure (m : string) (rule : Rule) (k : nat)
    (w w1 w2 : World) (results : list string) (text msg : string) :
  similarity_search (question rule) k m w = (Ok results, w1) ->
  results <> [] ->
  call_groq
    (audit_prompt (question rule)
       (substring 0 4000
          (String.concat (newline ++ newline ++ "---" ++ newline ++ newline)
                         results))) w1 = (Ok text, w2) ->
  json_loads (clean_response text) = Raise (JSONDecodeError msg) ->
  audit_model_against_rule m rule k w
  = (Ok (mkEvidence FAIL (Fin 10) "Error occurred during analysis"
                    "Error parsing LLM response."), w2).
Proof.
  intros Hs Hne Hc Hj. rewrite audit_model_against_rule_unfold.
  unfold audit_attempt, bind, lift. rewrite Hs.
  destruct results as [|doc docs]; [congruence|].
  now rewrite Hc, Hj.
Qed.

(** X3: the only exception that leaves [audit_model_against_rule] is the
    [ValidationError] of pydantic for [Evidence]. *)
Theorem audit_only_exception (m : string) (rule : Rule) (k : nat)
    (w w' : World) (e : exn) :
  audit_model_against_rule m rule k w = (Raise e, w') ->
  e = ValidationError "Evidence".
Proof.
  rewrite audit_model_against_rule_unfold.
  destruct (audit_attempt m rule k w) as [[ev|e0] w1]; [discriminate|].
  destruct (is_json_decode_error e0); [discriminate|].
  intros Heq. now inversion Heq.
Qed.

Lemma status_field_inv (v : option json) (st : Status) :
  status_field v = Some st ->
  v = Some (JStr (match st with PASS => "PASS" | FAIL => "FAIL" end)).
Proof.
  destruct v as [[| | | |s| |]|]; try discriminate. simpl.
  destruct (String.eqb s "PASS") eqn:Ep.
  - apply String.eqb_eq in Ep. intros Heq. inversion Heq. now subst.
  - destruct (String.eqb s "FAIL") eqn:Ef; [|discriminate].
    apply String.eqb_eq in Ef. intros Heq. inversion Heq. now subst.
Qed.

Lemma str_field_inv (v : option json) (s : string) :
  str_field v = Some s -> v = Some (JStr s).
Proof.
  destruct v as [[| | | |s'| |]|]; try discriminate.
  simpl. intros Heq. now inversion Heq.
Qed.

(** X4: on the path where the response parses to a dict, the Evidence
    returned holds the status, the quote and the reason of that dict; the
    other keys of the dict are ignored. *)
Theorem audit_copies_verdict (m : string) (rule : Rule) (k : nat)
    (w w1 w2 w' : World) (results : list string) (text : string)
    (d : list (string * json)) (ev : Evidence) :
  similarity_search (question rule) k m w = (Ok results, w1) ->
  results <> [] ->
  call_groq
    (audit_prompt (question rule)
       (substring 0 4000
          (String.concat (newline ++ newline ++ "---" ++ newline ++ newline)
                         results))) w1 = (Ok text, w2) ->
  json_loads (clean_response text) = Ok (JDict d) ->
  audit_model_against_rule m rule k w = (Ok ev, w') ->
  w' = w2
  /\ dict_get d "status"
     = Some (JStr (match status ev with PASS => "PASS" | FAIL => "FAIL" end))
  /\ dict_get d "quote" = Some (JStr (quote ev))
  /\ dict_get d "reason" = Some (JStr (reason ev)).
Proof.
  intros Hs Hne Hc Hj Hrun.
  rewrite audit_model_against_rule_unfold in Hrun.
  rewrite (audit_attempt_parsed _ _ _ _ _ _ _ _ _ Hs Hne Hc Hj) in Hrun.
  destruct (checked_confidence (JDict d)) as [c|e] eqn:Hk.
  - destruct (Evidence_of_data (JDict d) c) as [ev'|e] eqn:He.
    + inversion Hrun; subst. split; [reflexivity|].
      cbn [Evidence_of_data] in He.
      rewrite !dict_get_set_other in He by reflexivity.
      unfold Evidence_init in He.
      destruct (status_field (dict_get d "status")) as [st|] eqn:Hst;
        [|discriminate].
      destruct (str_field (dict_get d "quote")) as [q|] eqn:Hq;
        [|discriminate].
      destruct (str_field (dict_get d "reason")) as [r|] eqn:Hr;
        [|discriminate].
      inversion He; subst. cbn [status quote reason].
      apply status_field_inv in Hst. apply str_field_inv in Hq, Hr.
      now repeat split.
    + apply Evidence_of_data_not_decode_error in He. rewrite He in Hrun.
      discriminate.
  - apply checked_confidence_not_decode_error in Hk. rewrite Hk in Hrun.
    discriminate.
Qed.

(** X5: when the response parses to a dict whose status is not the string
    PASS or FAIL (N/A, a lower-case word, a missing key), the cell is not an
    Evidence: [audit_model_against_rule] raises. *)
Theorem audit_rejects_other_status (m : string) (rule : Rule) (k : nat)
    (w w1 w2 : World) (results : list string) (text : string)
    (d : list (string * json)) :
  similarity_search (question rule) k m w = (Ok results, w1) ->
  results <> [] ->
  call_groq
    (audit_prompt (question rule)
       (substring 0 4000
          (String.concat (newline ++ newline ++ "---" ++ newline ++ newline)
                         results))) w1 = (Ok text, w2) ->
  json_loads (clean_response text) = Ok (JDict d) ->
  status_field (dict_get d "status") = None ->
  audit_model_against_rule m rule k w
  = (Raise (ValidationError "Evidence"), w2).
Proof.
  intros Hs Hne Hc Hj Hst.
  rewrite audit_model_against_rule_unfold.
  rewrite (audit_attempt_parsed _ _ _ _ _ _ _ _ _ Hs Hne Hc Hj).
  destruct (checked_confidence (JDict d)) as [c|e] eqn:Hk.
  - cbn [Evidence_of_data].
    rewrite !dict_get_set_other by reflexivity.
    unfold Evidence_init. now rewrite Hst.
  - apply checked_confidence_not_decode_error in Hk. now rewrite Hk.
Qed.

Lemma audit_rules_inv (m : string) (rules : list Rule) :
  forall acc w res w',
  audit_rules m rules acc w = (Ok res, w') ->
  exists items,
    res = acc ++ items
    /\ map header_of items
       = map (fun rule => (m, id rule, question rule, category rule)) rules.
Proof.
  induction rules as [|rule rules IH]; intros acc w res w' Hrun.
  - simpl in Hrun. inversion Hrun; subst. exists []. now rewrite app_nil_r.
  - cbn [audit_rules] in Hrun. unfold bind at 1 in Hrun.
    destruct (audit_model_against_rule m rule 3 w) as [[ev|e] w1];
      [|discriminate].
    unfold bind at 1, lift in Hrun. simpl AuditItem_init in Hrun.
    apply IH in Hrun. destruct Hrun as (items & -> & Hheaders).
    exists (mkAuditItem m (id rule) (question rule) (category rule) ev
            :: items).
    split; [now rewrite <- app_assoc|]. simpl. now rewrite Hheaders.
Qed.

Lemma audit_models_inv (model_names : list string) (rules : list Rule) :
  forall acc w res w',
  audit_models model_names rules acc w = (Ok res, w') ->
  exists items,
    res = acc ++ items
    /\ map header_of items = nested_headers model_names rules.
Proof.
  induction model_names as [|m ms IH]; intros acc w res w' Hrun.
  - simpl in Hrun. inversion Hrun; subst. exists []. now rewrite app_nil_r.
  - cbn [audit_models] in Hrun. unfold bind in Hrun.
    destruct (audit_rules m rules acc w) as [[row|e] w1] eqn:Hrow;
      [|discriminate].
    apply audit_rules_inv in Hrow. destruct Hrow as (items1 & -> & Hh1).
    apply IH in Hrun. destruct Hrun as (items2 & -> & Hh2).
    exists (items1 ++ items2). split; [now rewrite <- app_assoc|].
    unfold nested_headers in *. simpl. now rewrite map_app, Hh1, Hh2.
Qed.

(** X6: whenever [run_full_audit] returns, its result is the whole matrix:
    one item for each model and each rule in the order of the nested loops,
    each with the model name and with copies of the id, the question and the
    category of its rule.  No partial result is ever returned. *)
Theorem run_full_audit_headers (model_names : list string)
    (rules : list Rule) (w w' : World) (items : list AuditItem) :
  run_full_audit model_names rules w = (Ok items, w') ->
  map header_of items = nested_headers model_names rules
  /\ List.length items = List.length model_names * List.length rules.
Proof.
  intros Hrun. apply audit_models_inv in Hrun.
  destruct Hrun as (items' & -> & Hheaders). simpl. split; [exact Hheaders|].
  rewrite <- (length_map header_of), Hheaders. unfold nested_headers.
  clear. induction model_names as [|m ms IH]; [reflexivity|].
  simpl. now rewrite length_app, length_map, IH.
Qed.

Lemma audit_rules_exception (m : string) (rules : list Rule) :
  forall acc w e w',
  audit_rules m rules acc w = (Raise e, w') ->
  exists rule w0,
    In rule rules
    /\ audit_model_against_rule m rule 3 w0 = (Raise e, w').
Proof.
  induction rules as [|rule rules IH]; intros acc w e w' Hrun;
    [discriminate|].
  cbn [audit_rules] in Hrun. unfold bind at 1 in Hrun.
  destruct (audit_model_against_rule m rule 3 w) as [[ev|e0] w1] eqn:Hcell.
  - unfold bind at 1, lift in Hrun. simpl AuditItem_init in Hrun.
    apply IH in Hrun. destruct Hrun as (rule' & w0 & Hin & Hraise).
    exists rule', w0. split; [now right|exact Hraise].
  - inversion Hrun; subst. exists rule, w. split; [now left|exact Hcell].
Qed.

(** X7: [run_full_audit] does not isolate its cells.  When it raises, the
    exception and the world are those of one cell that raised, so that no
    cell after it is evaluated; and the exception is the [ValidationError]
    of pydantic for [Evidence]. *)
Theorem run_full_audit_only_exception (model_names : list string)
    (rules : list Rule) (w w' : World) (e : exn) :
  run_full_audit model_names rules w = (Raise e, w') ->
  (exists m rule w0,
     In m model_names /\ In rule rules
     /\ audit_model_against_rule m rule 3 w0 = (Raise e, w'))
  /\ e = ValidationError "Evidence".
Proof.
  intros Hrun.
  assert (Hcell : exists m rule w0,
            In m model_names /\ In rule rules
            /\ audit_model_against_rule m rule 3 w0 = (Raise e, w')).
  { revert Hrun. unfold run_full_audit. generalize (@nil AuditItem) as acc.
    revert w.
    induction model_names as [|m ms IH]; intros w acc Hrun; [discriminate|].
    cbn [audit_models] in Hrun. unfold bind in Hrun.
    destruct (audit_rules m rules acc w) as [[row|e0] w1] eqn:Hrow.
    - apply IH in Hrun. destruct Hrun as (m' & rule & w0 & Hm & Hr & Hraise).
      exists m', rule, w0. split; [now right|]. now split.
    - inversion Hrun; subst. apply audit_rules_exception in Hrow.
      destruct Hrow as (rule & w0 & Hr & Hraise).
      exists m, rule, w0. split; [now left|]. now split. }
  split; [exact Hcell|].
  destruct Hcell as (m & rule & w0 & _ & _ & Hraise).
  rewrite audit_model_against_rule_unfold in Hraise.
  destruct (audit_attempt m rule 3 w0) as [[ev|e1] w2]; [discriminate|].
  destruct (is_json_decode_error e1); [discriminate|].
  now inversion Hraise.
Qed.

(** X8: without a usable GROQ_API_KEY (unset or empty) no request is made
    to the judgment model: rule extraction returns the five fallback rules
    and validation accepts the document, and the world is unchanged. *)
Theorem no_key_degrades (policy_text : string) (w : World) :
  groq_api_key w = None \/ groq_api_key w = Some EmptyString ->
  extract_policy_rules policy_text w = (Ok fallback_rules, w)
  /\ validate_policy_document policy_text w = (Ok validation_unavailable, w).
Proof.
  intros Hkey.
  assert (Hcall : forall prompt, call_groq prompt w = (Raise ValueError, w)).
  { intros prompt. unfold call_groq. now destruct Hkey as [-> | ->]. }
  split.
  - rewrite extract_policy_rules_unfold. unfold extract_attempt, bind.
    now rewrite Hcall.
  - rewrite validate_policy_document_unfold. now rewrite Hcall.
Qed.

End MoreAuditFacts.

(** ** app/services/dashboard.py: categories, totals and extremes *)

(** A grouping loop over a [defaultdict] groups the elements by key, in
    order of first appearance of the keys. *)
Lemma grouping_spec {A V : Type} (key : A -> string) (f : A -> V -> V)
    (default : V) (items : list A) :
  fold_left (fun acc x => dd_update default (key x) (f x) acc) items []
  = map (fun k => (k, group_for key f default k items))
        (first_appearances (map key items)).
Proof.
  assert (Hsnoc : forall k l x,
    group_for key f default k (l ++ [x])
    = if String.eqb (key x) k then f x (group_for key f default k l)
      else group_for key f default k l).
  { intros k l x. unfold group_for. now rewrite fold_left_app. }
  assert (Habsent : forall k l,
    mem k (map key l) = false -> group_for key f default k l = default).
  { intros k l. induction l as [|x l IH] using rev_ind; [reflexivity|].
    rewrite map_app. unfold mem. rewrite existsb_app. cbn [map existsb].
    rewrite orb_false_r. intros Hmem. apply orb_false_iff in Hmem.
    destruct Hmem as [Hl Hx]. rewrite Hsnoc, Hx. now apply IH. }
  induction items as [|x l IH] using rev_ind; [reflexivity|].
  rewrite fold_left_app. cbn [fold_left]. rewrite IH.
  rewrite dd_update_map by apply first_appearances_NoDup.
  replace (map key (l ++ [x])) with (map key l ++ [key x])
    by now rewrite map_app.
  rewrite first_appearances_snoc, mem_first_appearances.
  destruct (mem (key x) (map key l)) eqn:Hmem.
  - apply map_ext. intros k. rewrite Hsnoc. now rewrite (String.eqb_sym k).
  - rewrite map_app. cbn [map]. f_equal.
    + apply map_ext_in. intros k Hin. rewrite Hsnoc.
      apply (proj1 (first_appearances_In _ _)) in Hin.
      now rewrite (String.eqb_sym _ k), (mem_false _ _ Hmem k Hin).
    + now rewrite Hsnoc, String.eqb_refl, (Habsent _ _ Hmem).
Qed.

Lemma category_counts (c : string) (items : list AuditItem) :
  let stats :=
    group_for rule_category
      (fun item => bump_category (status (evidence item)))
      (mkCategoryStats 0 0) c items in
  cat_PASS stats = count_category_status c PASS items
  /\ cat_FAIL stats = count_category_status c FAIL items.
Proof.
  cbv zeta. unfold group_for, count_category_status.
  induction items as [|x l IH] using rev_ind; [split; reflexivity|].
  destruct IH as (Hp & Hf).
  rewrite fold_left_app, !filter_app, !length_app. cbn [fold_left filter].
  destruct (String.eqb (rule_category x) c); cbn [andb].
  - destruct (status (evidence x)); cbn [bump_category cat_PASS cat_FAIL
      status_eqb List.length]; rewrite ?Hp, ?Hf; split; lia.
  - cbn [List.length]. rewrite !Nat.add_0_r. now split.
Qed.

Lemma category_count_pos (c : string) (items : list AuditItem) :
  In c (map rule_category items) ->
  0 < count_category_status c PASS items + count_category_status c FAIL items.
Proof.
  unfold count_category_status.
  induction items as [|x l IH]; [easy|]. cbn [map In filter].
  destruct (String.eqb (rule_category x) c) eqn:E; cbn [andb].
  - intros _. destruct (status (evidence x)); cbn [status_eqb List.length];
      lia.
  - intros [Heq|Hin]; [subst c; now rewrite String.eqb_refl in E|].
    now apply IH.
Qed.

Lemma list_sum_perm (l1 l2 : list nat) :
  Permutation l1 l2 -> list_sum l1 = list_sum l2.
Proof.
  induction 1; simpl; lia.
Qed.

Lemma list_sum_map_add {A : Type} (a b : A -> nat) (l : list A) :
  list_sum (map (fun k => a k + b k) l)
  = list_sum (map a l) + list_sum (map b l).
Proof.
  induction l as [|k l IH]; simpl; lia.
Qed.

Lemma list_sum_cons (a : nat) (l : list nat) :
  list_sum (a :: l) = a + list_sum l.
Proof. reflexivity. Qed.

Lemma list_sum_indicator_absent (x : string) (ks : list string) :
  ~ In x ks ->
  list_sum (map (fun k => if String.eqb x k then 1 else 0) ks) = 0.
Proof.
  induction ks as [|k ks IH]; intros Hnotin; [reflexivity|].
  cbn [map]. rewrite list_sum_cons. destruct (String.eqb x k) eqn:E.
  - apply String.eqb_eq in E. subst k. exfalso. apply Hnotin. now left.
  - rewrite IH; [reflexivity|]. intros Hin. apply Hnotin. now right.
Qed.

Lemma list_sum_indicator (x : string) (ks : list string) :
  NoDup ks -> In x ks ->
  list_sum (map (fun k => if String.eqb x k then 1 else 0) ks) = 1.
Proof.
  induction ks as [|k ks IH]; intros Hnd Hin; [easy|].
  inversion Hnd as [|? ? Hnotin Hnd']; subst.
  cbn [map]. rewrite list_sum_cons. destruct (String.eqb x k) eqn:E.
  - apply String.eqb_eq in E. subst k.
    now rewrite list_sum_indicator_absent.
  - destruct Hin as [->|Hin]; [now rewrite String.eqb_refl in E|].
    now rewrite IH.
Qed.

Lemma list_sum_zero {A : Type} (l : list A) :
  list_sum (map (fun _ => 0) l) = 0.
Proof.
  induction l; simpl; lia.
Qed.

(** The counts of the groups add up to the count of the whole list. *)
Lemma sum_counts_by_key {A : Type} (key : A -> string) (p : A -> bool)
    (ks : list string) (items : list A) :
  NoDup ks ->
  (forall x, In x items -> In (key x) ks) ->
  list_sum
    (map (fun k =>
            List.length (filter (fun x => String.eqb (key x) k && p x) items))
         ks)
  = List.length (filter p items).
Proof.
  intros Hnd. induction items as [|x l IH]; intros Hkeys.
  - cbn [filter List.length]. apply list_sum_zero.
  - rewrite (map_ext
      (fun k => List.length
                  (filter (fun y => String.eqb (key y) k && p y) (x :: l)))
      (fun k => (if String.eqb (key x) k then (if p x then 1 else 0) else 0)
                + List.length
                    (filter (fun y => String.eqb (key y) k && p y) l))).
    + rewrite list_sum_map_add, IH by (intros y Hy; apply Hkeys; now right).
      cbn [filter]. destruct (p x); cbn [List.length].
      * rewrite list_sum_indicator; [reflexivity|exact Hnd|].
        apply Hkeys. now left.
      * rewrite (map_ext _ (fun _ => 0)), list_sum_zero; [reflexivity|].
        intros k. now destruct (String.eqb (key x) k).
    + intros k. cbn [filter].
      destruct (String.eqb (key x) k), (p x); reflexivity.
Qed.

Lemma count_status_split (items : list AuditItem) :
  List.length (filter (fun item => status_eqb (status (evidence item)) PASS)
                      items)
  + List.length (filter (fun item => status_eqb (status (evidence item)) FAIL)
                        items)
  = List.length items.
Proof.
  induction items as [|x l IH]; [reflexivity|]. cbn [filter].
  destruct (status (evidence x)); cbn [status_eqb List.length]; lia.
Qed.

Lemma stats_for_confidence (m : string) (items : list AuditItem) :
  stat_avg_confidence (stats_for m items)
  = confidence_sum (items_of_model m items)
  /\ stat_total (stats_for m items)
     = List.length (items_of_model m items).
Proof.
  unfold confidence_sum, items_of_model.
  induction items as [|x l IH] using rev_ind; [split; reflexivity|].
  destruct IH as (Hsum & Htotal).
  rewrite stats_for_snoc, filter_app. cbn [filter].
  destruct (String.eqb (model_name x) m).
  - rewrite fold_left_app, length_app.
    cbn [bump_model stat_avg_confidence stat_total fold_left List.length].
    rewrite Hsum, Htotal. split; [reflexivity|lia].
  - rewrite app_nil_r. now split.
Qed.

Lemma fle_refl_number (a : pyfloat) : is_number a = true -> fle a a = true.
Proof.
  destruct a as [q| | |]; try discriminate; try reflexivity.
  intros _. simpl. apply Qle_bool_iff. apply Qle_refl.
Qed.

Lemma sorted_last_least {A : Type} (key : A -> pyfloat) (l : list A) (d : A) :
  StronglySorted (desc key) l ->
  Forall (fun e => is_number (key e) = true) l ->
  forall e, In e l -> fle (key (last l d)) (key e) = true.
Proof.
  induction 1 as [|x l Hsorted IH Hall]; intros Hfin e Hin; [easy|].
  inversion Hfin as [|? ? Hx Hfin']; subst.
  destruct l as [|y l'].
  - destruct Hin as [->|[]]. cbn [last]. now apply fle_refl_number.
  - change (last (x :: y :: l') d) with (last (y :: l') d).
    destruct Hin as [->|Hin]; [|now apply IH].
    assert (Hlast : In (last (y :: l') d) (y :: l')).
    { clear. revert y. induction l' as [|z l' IH]; intros y; [now left|].
      right. apply IH. }
    rewrite Forall_forall in Hall. apply (Hall _ Hlast).
Qed.

Section MoreDashboardFacts.
Context `{PyLib}.

Lemma category_breakdown_spec (items : list AuditItem) (rules : list Rule) :
  category_breakdown (calculate_dashboard_stats items rules)
  = map (fun c =>
           breakdown_entry
             (c, group_for rule_category
                   (fun item => bump_category (status (evidence item)))
                   (mkCategoryStats 0 0) c items))
        (first_appearances (map rule_category items)).
Proof.
  cbn [calculate_dashboard_stats category_breakdown].
  unfold category_stats_of.
  change (fold_left category_stats_step items [])
    with (fold_left
            (fun acc x =>
               dd_update (mkCategoryStats 0 0) (rule_category x)
                         (bump_category (status (evidence x))) acc)
            items []).
  now rewrite grouping_spec, map_map.
Qed.

(** X9: the category breakdown has one entry for each category of the
    results, in order of first appearance.  Its counts are the numbers of
    PASS and of FAIL items of the category, at least one of which is positive,
    and its pass_rate is [round((pass / (pass + fail)) * 100, 1)] as Python
    evaluates it on floats: the quotient and the product are rounded to the
    nearest float before the rounding to one decimal. *)
Theorem category_breakdown_formula (items : list AuditItem)
    (rules : list Rule) :
  (forall q, round1 q = python_round1 q) ->
  map cb_category (category_breakdown (calculate_dashboard_stats items rules))
  = first_appearances (map rule_category items)
  /\ (forall e,
        In e (category_breakdown (calculate_dashboard_stats items rules)) ->
        cb_pass_count e = count_category_status (cb_category e) PASS items
        /\ cb_fail_count e = count_category_status (cb_category e) FAIL items
        /\ 0 < cb_pass_count e + cb_fail_count e
        /\ cb_pass_rate e
           = round_tenths
               (percent (cb_pass_count e)
                        (cb_pass_count e + cb_fail_count e))).
Proof.
  intros Hround. rewrite category_breakdown_spec. split.
  - rewrite map_map. apply map_id.
  - intros e Hin. apply in_map_iff in Hin. destruct Hin as (c & <- & Hc).
    apply (proj1 (first_appearances_In _ _)) in Hc.
    destruct (category_counts c items) as (Hp & Hf). cbv zeta in Hp, Hf.
    pose proof (category_count_pos c items Hc) as Hpos.
    unfold breakdown_entry.
    cbn [cb_category cb_pass_count cb_fail_count cb_pass_rate].
    rewrite Hp, Hf. repeat split; try assumption.
    apply Nat.ltb_lt in Hpos. rewrite Hpos.
    unfold py_round1, round_tenths.
    destruct (percent _ _) as [q| | |]; try reflexivity.
    now rewrite Hround.
Qed.

(** X10: the totals of the dashboard are consistent.  total_pass and
    total_fail add up to total_checks, the number of results; the
    pass_count, fail_count and total_rules of the model rankings, and the
    counts of the category breakdown, add up to the same totals. *)
Theorem dashboard_totals (items : list AuditItem) (rules : list Rule) :
  total_checks (calculate_dashboard_stats items rules) = List.length items
  /\ total_pass (calculate_dashboard_stats items rules)
     + total_fail (calculate_dashboard_stats items rules)
     = List.length items
  /\ list_sum (map rk_pass_count
                 (model_rankings (calculate_dashboard_stats items rules)))
     = total_pass (calculate_dashboard_stats items rules)
  /\ list_sum (map rk_fail_count
                 (model_rankings (calculate_dashboard_stats items rules)))
     = total_fail (calculate_dashboard_stats items rules)
  /\ list_sum (map rk_total_rules
                 (model_rankings (calculate_dashboard_stats items rules)))
     = List.length items
  /\ list_sum (map cb_pass_count
                 (category_breakdown (calculate_dashboard_stats items rules)))
     = total_pass (calculate_dashboard_stats items rules)
  /\ list_sum (map cb_fail_count
                 (category_breakdown (calculate_dashboard_stats items rules)))
     = total_fail (calculate_dashboard_stats items rules).
Proof.
  assert (Hmodels : forall st,
    list_sum (map (fun m => count_model_status m st items)
                  (first_appearances (map model_name items)))
    = count_status st items).
  { intros st. unfold count_model_status, count_status.
    apply (sum_counts_by_key model_name
             (fun item => status_eqb (status (evidence item)) st)).
    - apply first_appearances_NoDup.
    - intros x Hx. apply first_appearances_In. now apply in_map. }
  assert (Hcats : forall st,
    list_sum (map (fun c => count_category_status c st items)
                  (first_appearances (map rule_category items)))
    = count_status st items).
  { intros st. unfold count_category_status, count_status.
    apply (sum_counts_by_key rule_category
             (fun item => status_eqb (status (evidence item)) st)).
    - apply first_appearances_NoDup.
    - intros x Hx. apply first_appearances_In. now apply in_map. }
  assert (Hsplit : count_status PASS items + count_status FAIL items
                   = List.length items) by apply count_status_split.
  assert (Hrank : forall g : ModelRanking -> nat,
    list_sum (map g (model_rankings (calculate_dashboard_stats items rules)))
    = list_sum (map (fun m => g (entry_of items m))
                    (first_appearances (map model_name items)))).
  { intros g. rewrite model_rankings_unfold, unsorted_rankings_spec.
    rewrite (list_sum_perm _ _
               (Permutation_map g (sort_desc_perm rk_compliance_score _))).
    now rewrite map_map. }
  rewrite !Hrank, category_breakdown_spec, !map_map.
  cbn [calculate_dashboard_stats total_checks total_pass total_fail].
  repeat split; try assumption.
  - rewrite <- (Hmodels PASS). f_equal. apply map_ext. intros m.
    apply (stats_for_counts m items).
  - rewrite <- (Hmodels FAIL). f_equal. apply map_ext. intros m.
    apply (stats_for_counts m items).
  - rewrite <- Hsplit, <- (Hmodels PASS), <- (Hmodels FAIL).
    rewrite <- list_sum_map_add. f_equal. apply map_ext. intros m.
    apply (stats_for_counts m items).
  - rewrite <- (Hcats PASS). f_equal. apply map_ext. intros c.
    apply (category_counts c items).
  - rewrite <- (Hcats FAIL). f_equal. apply map_ext. intros c.
    apply (category_counts c items).
Qed.

(** X11: best_model and worst_model are absent exactly when there is no
    result.  Otherwise they name the first and the last entry of the
    rankings: no model has a reported compliance_score above that of
    best_model or below that of worst_model. *)
Theorem best_and_worst_model (items : list AuditItem) (rules : list Rule) :
  (items = [] ->
   best_model (calculate_dashboard_stats items rules) = None
   /\ worst_model (calculate_dashboard_stats items rules) = None)
  /\ (items <> [] ->
      exists b wst,
        In b (model_rankings (calculate_dashboard_stats items rules))
        /\ In wst (model_rankings (calculate_dashboard_stats items rules))
        /\ best_model (calculate_dashboard_stats items rules)
           = Some (rk_model_name b)
        /\ worst_model (calculate_dashboard_stats items rules)
           = Some (rk_model_name wst)
        /\ forall e,
             In e (model_rankings (calculate_dashboard_stats items rules)) ->
             fle (rk_compliance_score e) (rk_compliance_score b) = true
             /\ fle (rk_compliance_score wst) (rk_compliance_score e) = true).
Proof.
  split; [intros ->; split; reflexivity|]. intros Hne.
  set (dflt := mkModelRanking EmptyString (Fin 0) (Fin 0) 0 0 0).
  assert (Hbest : best_model (calculate_dashboard_stats items rules)
    = match model_rankings (calculate_dashboard_stats items rules) with
      | [] => None
      | first :: _ => Some (rk_model_name first)
      end) by reflexivity.
  assert (Hworst : worst_model (calculate_dashboard_stats items rules)
    = match model_rankings (calculate_dashboard_stats items rules) with
      | [] => None
      | _ => Some (rk_model_name
                     (last (model_rankings
                              (calculate_dashboard_stats items rules)) dflt))
      end) by reflexivity.
  rewrite Hbest, Hworst. clear Hbest Hworst.
  assert (Hfin0 : Forall (fun e => is_number (rk_compliance_score e) = true)
                    (unsorted_rankings items)).
  { rewrite unsorted_rankings_spec. apply Forall_forall. intros e He.
    apply in_map_iff in He. destruct He as (m & <- & _).
    apply entry_score_number. }
  pose proof (sort_desc_sorted rk_compliance_score _ Hfin0) as Hsorted.
  pose proof (sort_desc_perm rk_compliance_score (unsorted_rankings items))
    as Hperm.
  pose proof (Permutation_Forall (Permutation_sym Hperm) Hfin0) as Hfin.
  rewrite <- (model_rankings_unfold items rules) in Hsorted, Hperm, Hfin.
  destruct (model_rankings (calculate_dashboard_stats items rules))
    as [|b rest].
  - exfalso. apply Permutation_nil in Hperm.
    rewrite unsorted_rankings_spec in Hperm.
    destruct items as [|x l]; [congruence|].
    cbn [map first_appearances] in Hperm. discriminate.
  - exists b, (last (b :: rest) dflt).
    assert (Hlast : In (last (b :: rest) dflt) (b :: rest)).
    { clear. revert b. induction rest as [|z l IH]; intros b; [now left|].
      right. apply IH. }
    split; [now left|]. split; [exact Hlast|].
    split; [reflexivity|]. split; [reflexivity|].
    intros e He. split.
    + destruct He as [->|Hin].
      * inversion Hfin; subst. now apply fle_refl_number.
      * inversion Hsorted as [|? ? _ Hall]; subst.
        rewrite Forall_forall in Hall. apply (Hall _ Hin).
    + now apply sorted_last_least.
Qed.

(** X12: the avg_confidence reported for a model is the sum of the
    confidences of its items, accumulated in their order from 0.0, divided
    by the number of these items and rounded to one decimal. *)
Theorem avg_confidence_formula (items : list AuditItem) (rules : list Rule)
    (e : ModelRanking) :
  In e (model_rankings (calculate_dashboard_stats items rules)) ->
  rk_total_rules e = List.length (items_of_model (rk_model_name e) items)
  /\ 0 < rk_total_rules e
  /\ rk_avg_confidence e
     = py_round1
         (fdiv_nat (confidence_sum (items_of_model (rk_model_name e) items))
                   (List.length (items_of_model (rk_model_name e) items))).
Proof.
  intros Hin. apply model_rankings_In in Hin. destruct Hin as (m & Hm & ->).
  destruct (stats_for_confidence m items) as (Hsum & Htotal).
  pose proof (stats_for_total_pos m items Hm) as Hpos.
  unfold entry_of, ranking_entry.
  cbn [rk_model_name rk_total_rules rk_avg_confidence].
  repeat split; [exact Htotal|exact Hpos|].
  unfold avg_confidence_of. apply Nat.ltb_lt in Hpos. rewrite Hpos.
  now rewrite Hsum, Htotal.
Qed.

End MoreDashboardFacts.

(** ** app/services/ingestion.py: the available models *)

Lemma insert_sorted_In (x y : string) (l : list string) :
  In y (insert_sorted x l) <-> y = x \/ In y l.
Proof.
  split.
  - intros Hin.
    apply (Permutation_in _ (insert_sorted_perm x l)) in Hin.
    destruct Hin as [<-|Hin]; auto.
  - intros Hin.
    apply (Permutation_in _ (Permutation_sym (insert_sorted_perm x l))).
    destruct Hin as [->|Hin]; [now left|now right].
Qed.

Lemma insert_sorted_Sorted (x : string) (l : list string) :
  Sorted (fun a b => String.leb a b = true) l ->
  Sorted (fun a b => String.leb a b = true) (insert_sorted x l).
Proof.
  induction 1 as [|y l Hsorted IH Hhd]; simpl.
  - repeat constructor.
  - destruct (String.leb x y) eqn:Hle.
    + constructor; [now constructor|]. now constructor.
    + constructor; [exact IH|].
      assert (Hyx : String.leb y x = true).
      { destruct (String.leb_total x y) as [Hxy|Hyx]; congruence. }
      destruct l as [|z l']; simpl.
      * now constructor.
      * inversion Hhd; subst. destruct (String.leb x z); now constructor.
Qed.

Lemma sorted_set_Sorted (names : list string) :
  Sorted (fun a b => String.leb a b = true) (sorted_set names).
Proof.
  unfold sorted_set. induction (nodup string_dec names) as [|x l IH]; simpl.
  - constructor.
  - now apply insert_sorted_Sorted.
Qed.

(** X13: the list that [get_available_models] returns is in increasing
    order and without duplicates, and it holds exactly the model names found
    in the metadata of the stored chunks; it is empty when the store returns
    nothing. *)
Theorem get_available_models_sorted `{Services} (w w' : World)
    (model_names : list string) :
  get_available_models w = (Ok model_names, w') ->
  NoDup model_names
  /\ Sorted (fun a b => String.leb a b = true) model_names
  /\ (forall metadatas,
        vectorstore_get w = (Ok (Some metadatas), w') ->
        forall name, In name model_names <-> In (Some name) metadatas)
  /\ (vectorstore_get w = (Ok None, w') -> model_names = []).
Proof.
  intros Hrun. split; [now apply get_available_models_NoDup in Hrun|].
  unfold get_available_models, bind, ret in Hrun.
  destruct (vectorstore_get w) as [[[metadatas|]|e] w1];
    inversion Hrun; subst; clear Hrun.
  - split; [apply sorted_set_Sorted|]. split; [|discriminate].
    intros mds Heq name. inversion Heq; subst. clear Heq.
    split.
    + intros Hin. apply (Permutation_in _ (sorted_set_perm _)) in Hin.
      apply nodup_In, in_flat_map in Hin.
      destruct Hin as ([n|] & Hin & Hname); [|easy].
      destruct Hname as [->|[]]. exact Hin.
    + intros Hin.
      apply (Permutation_in _ (Permutation_sym (sorted_set_perm _))).
      apply nodup_In, in_flat_map. exists (Some name).
      split; [exact Hin|now left].
  - split; [constructor|]. split; [discriminate|reflexivity].
Qed.

(** ** app/main.py: the protocol of the stream *)

Section StreamProtocol.
Context `{PyLib} `{Services}.

Lemma stream_rules_events (model : string) (model_idx n_models n_rules : nat)
    (total_audits : nat) (rules : list Rule) :
  forall rule_idx st evs w r s',
  stream_rules model model_idx n_models n_rules total_audits rules rule_idx
               st (evs, w) = (r, s') ->
  exists new, fst s' = evs ++ new /\ forallb nonterminal new = true.
Proof.
  induction rules as [|rule rest IH]; intros rule_idx st evs w r s' Hrun.
  - cbn [stream_rules] in Hrun. unfold ret in Hrun. inversion Hrun; subst.
    exists []. now rewrite app_nil_r.
  - rewrite stream_rules_cons in Hrun.
    destruct (audit_model_against_rule model rule 3 w) as [[ev|e] w1].
    + apply IH in Hrun. destruct Hrun as (new & -> & Hnew).
      exists (checking_event model model_idx n_models rule rule_idx n_rules
              :: result_event model rule ev (S (snd st)) total_audits
              :: new).
      split; [now rewrite <- !app_assoc|]. cbn [forallb]. now rewrite Hnew.
    + inversion Hrun; subst.
      exists [checking_event model model_idx n_models rule rule_idx n_rules].
      split; reflexivity.
Qed.

Lemma stream_models_events (n_models : nat) (rules : list Rule)
    (total_audits : nat) (model_names : list string) :
  forall model_idx st evs w r s',
  stream_models n_models rules total_audits model_names model_idx st (evs, w)
  = (r, s') ->
  exists new, fst s' = evs ++ new /\ forallb nonterminal new = true.
Proof.
  induction model_names as [|model rest IH];
    intros model_idx st evs w r s' Hrun.
  - cbn [stream_models] in Hrun. unfold ret in Hrun. inversion Hrun; subst.
    exists []. now rewrite app_nil_r.
  - cbn [stream_models] in Hrun. unfold bind at 1 in Hrun.
    destruct (stream_rules model model_idx n_models (List.length rules)
                total_audits rules 1 st (evs, w)) as [[st'|e] [evs1 w1]] eqn:Hrow;
      apply stream_rules_events in Hrow;
      destruct Hrow as (new1 & Heq1 & Hnew1); cbn [fst] in Heq1; subst evs1.
    + apply IH in Hrun. destruct Hrun as (new2 & -> & Hnew2).
      exists (new1 ++ new2). split; [now rewrite app_assoc|].
      now rewrite forallb_app, Hnew1, Hnew2.
    + inversion Hrun; subst. exists new1. now split.
Qed.

Lemma stream_audit_events (filename : string) (rules : list Rule)
    (evs : list Event) (w : World) (r : result unit)
    (s' : list Event * World) :
  stream_audit filename rules (evs, w) = (r, s') ->
  ends_properly r evs (fst s').
Proof.
  unfold stream_audit. unfold bind at 1, run at 1. cbn [fst snd].
  destruct (get_available_models w) as [[model_names|e] w0].
  - unfold bind at 1, yield at 1. cbn [fst snd].
    set (start := progress_event _).
    unfold bind at 1.
    destruct (stream_models (List.length model_names) rules
                (List.length model_names * List.length rules) model_names 1
                ([], 0) (evs ++ [start], w0)) as [[st|e] [evs1 w1]] eqn:Hloop;
      apply stream_models_events in Hloop;
      destruct Hloop as (new & Heq & Hnew); cbn [fst] in Heq; subst evs1.
    + unfold bind at 1, lift at 1.
      destruct (map_result AuditItem_of_stream_item (fst st)) as [items|e].
      * unfold bind at 1, run at 1. cbn [fst snd].
        destruct (store_audit_result _ w1) as [[stored_id|e] w2].
        -- unfold yield. cbn [fst snd]. intros Hrun. inversion Hrun; subst.
           exists (start :: new). split; [exact Hnew|].
           eexists. split; [|cbn [fst]; now rewrite <- !app_assoc].
           reflexivity.
        -- intros Hrun. inversion Hrun; subst. exists (start :: new).
           split; [exact Hnew|]. cbn [fst]. now rewrite <- app_assoc.
      * intros Hrun. inversion Hrun; subst. exists (start :: new).
        split; [exact Hnew|]. cbn [fst]. now rewrite <- app_assoc.
    + intros Hrun. inversion Hrun; subst. exists (start :: new).
      split; [exact Hnew|]. cbn [fst]. now rewrite <- app_assoc.
  - intros Hrun. inversion Hrun; subst. exists []. split; [reflexivity|].
    cbn [fst]. now rewrite app_nil_r.
Qed.

Lemma ends_properly_after {A : Type} (r : result A) (evs after : list Event)
    (e : Event) :
  nonterminal e = true ->
  ends_properly r (evs ++ [e]) after ->
  ends_properly r evs after.
Proof.
  intros He (pre & Hpre & Hr). exists (e :: pre). split.
  - cbn [forallb]. now rewrite He, Hpre.
  - destruct r as [a|x].
    + destruct Hr as (t & Ht & ->). exists t. split; [exact Ht|].
      now rewrite <- app_assoc.
    + rewrite Hr. now rewrite <- app_assoc.
Qed.

Lemma ends_properly_ok {A : Type} (a : A) (evs : list Event) (t : Event) :
  terminal t = true -> ends_properly (Ok a) evs (evs ++ [t]).
Proof.
  intros Ht. exists []. split; [reflexivity|]. exists t. now split.
Qed.

Lemma ends_properly_raise {A : Type} (e : exn) (evs : list Event) :
  ends_properly (@Raise A e) evs evs.
Proof.
  exists []. split; [reflexivity|]. now rewrite app_nil_r.
Qed.

(** Closes a branch in which progress events were yielded and then a
    terminal event, or an exception was raised. *)
Ltac close_branch :=
  let Hrun := fresh "Hrun" in
  intros Hrun; inversion Hrun; subst; cbn [fst];
  rewrite <- ?app_assoc; cbn [app];
  match goal with
  | |- ends_properly (Raise _) ?evs ?evs => apply ends_properly_raise
  | |- ends_properly (Raise _) ?evs (?evs ++ ?l) =>
      exists l; split; reflexivity
  | |- ends_properly (Ok _) ?evs (?evs ++ [?t]) =>
      exists []; split; [reflexivity|exists t; split; reflexivity]
  | |- ends_properly (Ok _) ?evs (?evs ++ [?a; ?t]) =>
      exists [a]; split; [reflexivity|exists t; split; reflexivity]
  | |- ends_properly (Ok _) ?evs (?evs ++ [?a; ?b; ?t]) =>
      exists [a; b]; split; [reflexivity|exists t; split; reflexivity]
  end.

(** Removes the progress events yielded before a part of the generator. *)
Ltac peel_events Hrun :=
  repeat match type of Hrun with
         | ends_properly _ (?l ++ [?e]) _ =>
             apply (ends_properly_after _ l _ e eq_refl) in Hrun
         end;
  exact Hrun.

Lemma stream_rules_step_events (filename policy_text : string)
    (evs : list Event) (w : World) (r : result unit)
    (s' : list Event * World) :
  stream_rules_step filename policy_text (evs, w) = (r, s') ->
  ends_properly r evs (fst s').
Proof.
  unfold stream_rules_step. unfold bind at 1, yield at 1. cbn [fst snd].
  set (e1 := progress_event _).
  unfold bind at 1, run at 1. cbn [fst snd].
  destruct (extract_policy_rules policy_text w) as [[rules|e] w1];
    [|close_branch].
  destruct rules as [|rule rules].
  - unfold yield. cbn [fst snd]. close_branch.
  - unfold bind at 1, yield at 1. cbn [fst snd].
    set (e2 := progress_event _). intros Hrun.
    apply stream_audit_events in Hrun. peel_events Hrun.
Qed.

Lemma event_generator_body_events (filename : string)
    (pdf_bytes : list Byte.byte) (evs : list Event) (w : World)
    (r : result unit) (s' : list Event * World) :
  event_generator_body filename pdf_bytes (evs, w) = (r, s') ->
  ends_properly r evs (fst s').
Proof.
  unfold event_generator_body. unfold bind at 1, yield at 1. cbn [fst snd].
  set (e1 := progress_event _).
  unfold bind at 1, lift at 1.
  destruct (extract_text_from_pdf pdf_bytes) as [policy_text|e];
    [|close_branch].
  destruct (Nat.ltb (String.length policy_text) 100).
  { unfold yield. cbn [fst snd]. close_branch. }
  unfold bind at 1, yield at 1. cbn [fst snd].
  set (e2 := progress_event _).
  unfold bind at 1, run at 1. cbn [fst snd].
  destruct (validate_policy_document policy_text w)
    as [[validation_result|e] w1]; [|close_branch].
  unfold bind at 1, lift at 1.
  destruct (py_getitem validation_result "is_policy") as [is_policy|e];
    [|close_branch].
  destruct (negb (truthy is_policy)).
  - unfold bind at 1, lift at 1.
    destruct (py_getitem validation_result "reasoning") as [reasoning|e];
      [|close_branch].
    unfold yield. cbn [fst snd]. close_branch.
  - unfold bind at 1, lift at 1.
    destruct (py_getitem validation_result "reasoning") as [reasoning|e];
      [|close_branch].
    unfold bind at 1, yield at 1. cbn [fst snd].
    set (e3 := progress_event _). intros Hrun.
    apply stream_rules_step_events in Hrun. peel_events Hrun.
Qed.

(** X14: every run of the generator yields exactly one terminal event
    ("complete" or "error"), and yields it last; all the events before it are
    "progress" and "result" events.  This holds whatever the services
    answer or raise. *)
Theorem stream_has_one_terminal_event (filename : string)
    (pdf_bytes : list Byte.byte) (w : World) :
  exists pre t,
    fst (event_generator filename pdf_bytes w) = pre ++ [t]
    /\ forallb nonterminal pre = true
    /\ terminal t = true.
Proof.
  unfold event_generator.
  destruct (event_generator_body filename pdf_bytes ([], w))
    as [[u|e] [events w']] eqn:Hbody;
    apply event_generator_body_events in Hbody;
    destruct Hbody as (pre & Hpre & Hr); cbn [fst] in *.
  - destruct Hr as (t & Ht & ->). exists pre, t. now repeat split.
  - subst events. exists pre, (error_event (str_of_exn e)).
    now repeat split.
Qed.

(** X15: with no model in the vector store the generator audits nothing,
    stores an audit with no result and ends with the "complete" event, which
    carries the identifier that the database returned. *)
Theorem stream_without_models (filename : string) (rules : list Rule)
    (evs : list Event) (w w0 w1 : World) (stored_id : string) :
  get_available_models w = (Ok [], w0) ->
  insert_audit (mkAuditResponse filename (List.length rules) 0 rules []) w0
  = (Ok stored_id, w1) ->
  exists start done,
    stream_audit filename rules (evs, w)
    = (Ok tt, (evs ++ [start; done], w1))
    /\ event start = "progress"
    /\ event_field "total_audits" start = Some (JNat 0)
    /\ event done = "complete"
    /\ event_field "audit_id" done = Some (JStr stored_id)
    /\ event_field "total_audits" done = Some (JNat 0).
Proof.
  intros Hmodels Hstore. unfold stream_audit.
  unfold bind at 1, run at 1. cbn [fst snd]. rewrite Hmodels.
  unfold bind at 1, yield at 1. cbn [fst snd].
  cbn [stream_models List.length Nat.mul]. unfold bind at 1, ret at 1.
  cbn [fst snd map_result]. unfold bind at 1, lift at 1.
  unfold bind at 1, run at 1, store_audit_result. cbn [fst snd].
  rewrite Hstore. unfold yield. cbn [fst snd].
  eexists. eexists. split.
  - rewrite <- app_assoc. reflexivity.
  - repeat split.
Qed.

(** X16: when the text extracted from the PDF has fewer than 100
    characters, the stream is one progress event followed by the error
    "PDF appears to be empty or unreadable"; no service is called. *)
Theorem stream_rejects_short_text (filename : string)
    (pdf_bytes : list Byte.byte) (w : World) (policy_text : string) :
  extract_text_from_pdf pdf_bytes = Ok policy_text ->
  String.length policy_text < 100 ->
  exists first,
    event_generator filename pdf_bytes w
    = ([first; error_event "PDF appears to be empty or unreadable"], w)
    /\ event first = "progress".
Proof.
  intros Htext Hshort. unfold event_generator, event_generator_body.
  unfold bind at 1, yield at 1. cbn [fst snd app].
  unfold bind at 1, lift at 1. rewrite Htext.
  apply Nat.ltb_lt in Hshort. rewrite Hshort.
  unfold yield. cbn [fst snd app]. eexists. split; reflexivity.
Qed.

(** X17: when the validator answers that the document is not a policy, the
    stream ends with an error event that quotes its reasoning, after two
    progress events.  The rules are not extracted and nothing is audited:
    the world is the one that the validation left. *)
Theorem stream_rejects_non_policy (filename : string)
    (pdf_bytes : list Byte.byte) (w w1 : World) (policy_text : string)
    (validation_result is_policy reasoning : json) :
  extract_text_from_pdf pdf_bytes = Ok policy_text ->
  100 <= String.length policy_text ->
  validate_policy_document policy_text w = (Ok validation_result, w1) ->
  py_getitem validation_result "is_policy" = Ok is_policy ->
  truthy is_policy = false ->
  py_getitem validation_result "reasoning" = Ok reasoning ->
  exists e1 e2,
    event_generator filename pdf_bytes w
    = ([e1; e2;
        error_event ("Document does not appear to be a policy. "
                     ++ str_of_value reasoning)], w1)
    /\ event e1 = "progress" /\ event e2 = "progress".
Proof.
  intros Htext Hlong Hvalid Hpolicy Hfalse Hreason.
  unfold event_generator, event_generator_body.
  unfold bind at 1, yield at 1. cbn [fst snd app].
  unfold bind at 1, lift at 1. rewrite Htext.
  apply Nat.ltb_ge in Hlong. rewrite Hlong.
  unfold bind at 1, yield at 1. cbn [fst snd app].
  unfold bind at 1, run at 1. cbn [fst snd]. rewrite Hvalid.
  unfold bind at 1, lift at 1. rewrite Hpolicy, Hfalse. cbn [negb].
  unfold bind at 1, lift at 1. rewrite Hreason.
  unfold yield. cbn [fst snd app]. eexists. eexists.
  split; [reflexivity|]. split; reflexivity.
Qed.

End StreamProtocol.

(** ** app/main.py: the endpoint [analyze_policy] *)

Lemma length_nested_headers (model_names : list string) (rules : list Rule) :
  List.length (nested_headers model_names rules)
  = List.length model_names * List.length rules.
Proof.
  unfold nested_headers. induction model_names as [|m l IH]; [reflexivity|].
  cbn [flat_map List.length]. rewrite length_app, length_map, IH.
  reflexivity.
Qed.

Section AnalyzeFacts.
Context `{PyLib} `{Services}.

(** The handler once every step before the storage has succeeded. *)
Lemma analyze_policy_success (filename : string) (pdf_bytes : list Byte.byte)
    (w w1 w2 w3 w4 : World) (policy_text : string)
    (validation_result is_policy reasoning : json) (rules : list Rule)
    (model_names : list string) (items : list AuditItem) :
  ends_with ".pdf" filename = true ->
  extract_text_from_pdf pdf_bytes = Ok policy_text ->
  100 <= String.length policy_text ->
  validate_policy_document policy_text w = (Ok validation_result, w1) ->
  py_getitem validation_result "is_policy" = Ok is_policy ->
  truthy is_policy = true ->
  py_getitem validation_result "reasoning" = Ok reasoning ->
  extract_policy_rules policy_text w1 = (Ok rules, w2) ->
  rules <> [] ->
  get_available_models w2 = (Ok model_names, w3) ->
  model_names <> [] ->
  run_full_audit model_names rules w3 = (Ok items, w4) ->
  analyze_policy true filename pdf_bytes w
  = (Response (mkAuditResponse filename (List.length rules)
                               (List.length model_names) rules items),
     snd (store_audit_result
            (mkAuditResponse filename (List.length rules)
                             (List.length model_names) rules items) w4)).
Proof.
  intros Hpdf Htext Hlong Hvalid Hpolicy Htrue Hreason Hrules Hr Hmodels Hm
         Hrun.
  unfold analyze_policy. cbn [negb]. rewrite Hpdf. cbn [negb].
  unfold hbind at 1, guarded at 1, lift at 1. rewrite Htext.
  apply Nat.ltb_ge in Hlong. rewrite Hlong.
  unfold hbind at 1, guarded at 1. rewrite Hvalid.
  unfold hbind at 1, guarded at 1, lift at 1. rewrite Hpolicy.
  unfold hbind at 1, guarded at 1, lift at 1. rewrite Hreason, Htrue.
  cbn [negb]. unfold hbind at 1, guarded at 1. rewrite Hrules.
  destruct rules as [|rule rules']; [congruence|].
  unfold hbind at 1, guarded at 1. rewrite Hmodels.
  destruct model_names as [|model models']; [congruence|].
  unfold hbind at 1, guarded at 1. rewrite Hrun.
  unfold hbind, store_quietly.
  now destruct (store_audit_result _ w4).
Qed.

(** X18: [analyze_policy] returns its response whether or not the audit
    could be stored: once the text is read, the document validated, the rules
    extracted, the models listed and the audit run, the response is the full
    audit, and an exception of [store_audit_result] is dropped. *)
Theorem analyze_ignores_store_failure (filename : string)
    (pdf_bytes : list Byte.byte) (w w1 w2 w3 w4 w5 : World)
    (policy_text : string) (validation_result is_policy reasoning : json)
    (rules : list Rule) (model_names : list string)
    (items : list AuditItem) (e : exn) :
  ends_with ".pdf" filename = true ->
  extract_text_from_pdf pdf_bytes = Ok policy_text ->
  100 <= String.length policy_text ->
  validate_policy_document policy_text w = (Ok validation_result, w1) ->
  py_getitem validation_result "is_policy" = Ok is_policy ->
  truthy is_policy = true ->
  py_getitem validation_result "reasoning" = Ok reasoning ->
  extract_policy_rules policy_text w1 = (Ok rules, w2) ->
  rules <> [] ->
  get_available_models w2 = (Ok model_names, w3) ->
  model_names <> [] ->
  run_full_audit model_names rules w3 = (Ok items, w4) ->
  store_audit_result
    (mkAuditResponse filename (List.length rules) (List.length model_names)
                     rules items) w4 = (Raise e, w5) ->
  analyze_policy true filename pdf_bytes w
  = (Response (mkAuditResponse filename (List.length rules)
                               (List.length model_names) rules items), w5).
Proof.
  intros Hpdf Htext Hlong Hvalid Hpolicy Htrue Hreason Hrules Hr Hmodels Hm
         Hrun Hstore.
  rewrite (analyze_policy_success _ _ _ _ _ _ _ _ _ _ _ _ _ _
             Hpdf Htext Hlong Hvalid Hpolicy Htrue Hreason Hrules Hr
             Hmodels Hm Hrun).
  now rewrite Hstore.
Qed.

(** X19: a response of [analyze_policy] is a complete audit.  It bears the
    name of the file, which ends in ".pdf"; it has at least one rule and one
    model; total_rules is the number of its rules; and its results are
    total_models * total_rules items, one for each model and each rule in the
    order of the nested loops, the model names being pairwise distinct. *)
Theorem analyze_response_is_complete (vectorstore_ready : bool)
    (filename : string) (pdf_bytes : list Byte.byte) (w w' : World)
    (r : AuditResponse) :
  analyze_policy vectorstore_ready filename pdf_bytes w = (Response r, w') ->
  policy_name r = filename
  /\ ends_with ".pdf" filename = true
  /\ rules r <> []
  /\ total_rules r = List.length (rules r)
  /\ 0 < total_models r
  /\ List.length (audit_results r) = total_models r * total_rules r
  /\ exists model_names,
       NoDup model_names
       /\ List.length model_names = total_models r
       /\ map header_of (audit_results r)
          = nested_headers model_names (rules r).
Proof.
  unfold analyze_policy.
  destruct vectorstore_ready; cbn [negb]; [|discriminate].
  destruct (ends_with ".pdf" filename) eqn:Hpdf; cbn [negb]; [|discriminate].
  unfold hbind at 1, guarded at 1, lift at 1.
  destruct (extract_text_from_pdf pdf_bytes) as [policy_text|e];
    [|discriminate].
  destruct (Nat.ltb (String.length policy_text) 100); [discriminate|].
  unfold hbind at 1, guarded at 1.
  destruct (validate_policy_document policy_text w) as [[v|e] w1];
    [|discriminate].
  unfold hbind at 1, guarded at 1, lift at 1.
  destruct (py_getitem v "is_policy") as [is_policy|e]; [|discriminate].
  unfold hbind at 1, guarded at 1, lift at 1.
  destruct (py_getitem v "reasoning") as [reasoning|e]; [|discriminate].
  destruct (negb (truthy is_policy)); [discriminate|].
  unfold hbind at 1, guarded at 1.
  destruct (extract_policy_rules policy_text w1) as [[rs|e] w2];
    [|discriminate].
  destruct rs as [|rule rs']; [discriminate|].
  unfold hbind at 1, guarded at 1.
  destruct (get_available_models w2) as [[ms|e] w3] eqn:Hmodels;
    [|discriminate].
  destruct ms as [|model ms']; [discriminate|].
  unfold hbind at 1, guarded at 1.
  destruct (run_full_audit (model :: ms') (rule :: rs') w3)
    as [[items|e] w4] eqn:Hrun; [|discriminate].
  unfold hbind, store_quietly.
  destruct (store_audit_result _ w4) as [stored w5].
  intros Heq. inversion Heq; subst. clear Heq.
  cbn [policy_name rules total_rules total_models audit_results].
  apply get_available_models_NoDup in Hmodels.
  unfold run_full_audit in Hrun. apply audit_models_inv in Hrun.
  destruct Hrun as (items' & Heq & Hheaders). cbn [app] in Heq. subst items'.
  split; [reflexivity|]. split; [reflexivity|]. split; [discriminate|].
  split; [reflexivity|]. split; [cbn [List.length]; lia|]. split.
  - rewrite <- (length_map header_of), Hheaders.
    apply length_nested_headers.
  - exists (model :: ms'). now repeat split.
Qed.

(** X20: with no model in the vector store [analyze_policy] answers with
    the status 500 and the detail "No models found in vector store", where
    the streaming endpoint completes. *)
Theorem analyze_rejects_no_models (filename : string)
    (pdf_bytes : list Byte.byte) (w w1 w2 w3 : World) (policy_text : string)
    (validation_result is_policy reasoning : json) (rules : list Rule) :
  ends_with ".pdf" filename = true ->
  extract_text_from_pdf pdf_bytes = Ok policy_text ->
  100 <= String.length policy_text ->
  validate_policy_document policy_text w = (Ok validation_result, w1) ->
  py_getitem validation_result "is_policy" = Ok is_policy ->
  truthy is_policy = true ->
  py_getitem validation_result "reasoning" = Ok reasoning ->
  extract_policy_rules policy_text w1 = (Ok rules, w2) ->
  rules <> [] ->
  get_available_models w2 = (Ok [], w3) ->
  analyze_policy true filename pdf_bytes w
  = (HTTPException 500 "No models found in vector store", w3).
Proof.
  intros Hpdf Htext Hlong Hvalid Hpolicy Htrue Hreason Hrules Hr Hmodels.
  unfold analyze_policy. cbn [negb]. rewrite Hpdf. cbn [negb].
  unfold hbind at 1, guarded at 1, lift at 1. rewrite Htext.
  apply Nat.ltb_ge in Hlong. rewrite Hlong.
  unfold hbind at 1, guarded at 1. rewrite Hvalid.
  unfold hbind at 1, guarded at 1, lift at 1. rewrite Hpolicy.
  unfold hbind at 1, guarded at 1, lift at 1. rewrite Hreason, Htrue.
  cbn [negb]. unfold hbind at 1, guarded at 1. rewrite Hrules.
  destruct rules as [|rule rules']; [congruence|].
  unfold hbind at 1, guarded at 1. now rewrite Hmodels.
Qed.

End AnalyzeFacts.

(** ** app/main.py: the comparison of models *)

Lemma compare_counts (m : string) (items : list AuditItem) :
  let c := group_for model_name compare_step_value
                     (mkCompareStats 0 0 0 []) m items in
  cmp_pass c = count_model_status m PASS items
  /\ cmp_fail c = count_model_status m FAIL items
  /\ cmp_na c = 0
  /\ map row_rule_id (cmp_results c) = map rule_id (items_of_model m items).
Proof.
  cbv zeta. unfold group_for, items_of_model.
  induction items as [|x l IH] using rev_ind; [repeat split|].
  destruct IH as (Hp & Hf & Hn & Hrows).
  rewrite fold_left_app, !count_model_status_snoc, filter_app.
  cbn [fold_left filter].
  destruct (String.eqb (model_name x) m); cbn [andb].
  - set (c0 := fold_left _ l _) in *. unfold compare_step_value.
    destruct (status (evidence x));
      cbn [cmp_pass cmp_fail cmp_na cmp_results status_eqb];
      rewrite !map_app, Hrows, ?Hp, ?Hf, ?Hn; cbn [map row_rule_id];
      repeat split; lia.
  - rewrite !Nat.add_0_r, app_nil_r. now repeat split.
Qed.

Lemma count_model_status_filter (m : string) (st : Status)
    (names : list string) (items : list AuditItem) :
  mem m names = true ->
  count_model_status m st
    (filter (fun item => mem (model_name item) names) items)
  = count_model_status m st items.
Proof.
  intros Hmem. unfold count_model_status.
  induction items as [|x l IH]; [reflexivity|]. cbn [filter].
  destruct (String.eqb (model_name x) m) eqn:E.
  - assert (Hx : mem (model_name x) names = true).
    { apply String.eqb_eq in E. now rewrite E. }
    rewrite Hx. cbn [filter]. rewrite E. cbn [andb].
    destruct (status_eqb (status (evidence x)) st); cbn [List.length];
      now rewrite IH.
  - cbn [andb]. destruct (mem (model_name x) names); [|exact IH].
    cbn [filter]. rewrite E. cbn [andb]. exact IH.
Qed.

Lemma compare_filter_names (model_names : option (list string))
    (items : list AuditItem) (m : string) :
  In m (map model_name (compare_filter model_names items)) ->
  In m (map model_name items)
  /\ forall st,
       count_model_status m st (compare_filter model_names items)
       = count_model_status m st items.
Proof.
  destruct model_names as [[|n names]|]; cbn [compare_filter];
    try (intros Hin; now split).
  intros Hin. apply in_map_iff in Hin. destruct Hin as (x & <- & Hx).
  apply filter_In in Hx. destruct Hx as (Hx & Hmem). split.
  - now apply in_map.
  - intros st. now apply count_model_status_filter.
Qed.

Section CompareFacts.
Context `{PyLib}.

(** X21: [compare_models] agrees with the dashboard.  Each model kept by
    the filter has one entry, in order of first appearance; its counts are
    the numbers of PASS and FAIL results of the model in the whole audit, the
    count "na" stays 0, and its compliance_score is the one that the model
    rankings of the dashboard report for this model. *)
Theorem compare_matches_dashboard (model_names : option (list string))
    (audit_response : AuditResponse) (m : string) (c : CompareStats)
    (score : json) :
  In (m, (c, score)) (snd (compare_models_core model_names audit_response)) ->
  map fst (snd (compare_models_core model_names audit_response))
  = first_appearances
      (map model_name
           (compare_filter model_names (audit_results audit_response)))
  /\ cmp_pass c = count_model_status m PASS (audit_results audit_response)
  /\ cmp_fail c = count_model_status m FAIL (audit_results audit_response)
  /\ cmp_na c = 0
  /\ score
     = JFloat (rk_compliance_score
                 (entry_of (audit_results audit_response) m)).
Proof.
  unfold compare_models_core. cbn [snd].
  set (items := audit_results audit_response).
  set (filtered := compare_filter model_names items).
  change (fold_left compare_step filtered [])
    with (fold_left
            (fun acc x =>
               dd_update (mkCompareStats 0 0 0 []) (model_name x)
                         (compare_step_value x) acc)
            filtered []).
  rewrite grouping_spec, !map_map. cbn [fst snd].
  intros Hin. split; [apply map_id|].
  apply in_map_iff in Hin. destruct Hin as (m' & Heq & Hm').
  inversion Heq; subst. clear Heq.
  apply (proj1 (first_appearances_In _ _)) in Hm'.
  destruct (compare_filter_names model_names items m Hm') as (Hm & Hsame).
  destruct (compare_counts m filtered) as (Hp & Hf & Hn & _).
  cbv zeta in Hp, Hf, Hn. fold filtered in Hsame.
  rewrite Hsame in Hp, Hf.
  split; [exact Hp|]. split; [exact Hf|]. split; [exact Hn|].
  unfold compare_score. rewrite Hp, Hf.
  destruct (stats_for_counts m items) as (Hp' & Hf' & Ht').
  pose proof (stats_for_total_pos m items Hm) as Hpos.
  unfold entry_of, ranking_entry. cbn [rk_compliance_score].
  unfold compliance_score_of. rewrite Ht', Hp' in *.
  apply Nat.ltb_lt in Hpos. now rewrite Hpos.
Qed.

End CompareFacts.

(** ** Concrete runs of the further properties *)

Lemma audit_parse_failure_witness :
  audit_model_against_rule "ModelA" rule1 3
    (answering "no json here" ["ModelA"])
  = (Ok (mkEvidence FAIL (Fin 10) "Error occurred during analysis"
                    "Error parsing LLM response."),
     answering "no json here" ["ModelA"]).
Proof.
  apply (@audit_parse_failure scripted_pylib scripted_services
           "ModelA" rule1 3
           (answering "no json here" ["ModelA"])
           (answering "no json here" ["ModelA"])
           (answering "no json here" ["ModelA"])
           ["chunk"] "no json here" "Expecting value").
  - reflexivity.
  - discriminate.
  - reflexivity.
  - reflexivity.
Defined.

Lemma audit_only_exception_witness :
  exists e w',
    audit_model_against_rule "ModelA" rule1 3 (store_down ["ModelA"])
    = (Raise e, w')
    /\ e = ValidationError "Evidence".
Proof.
  assert (Hrun : audit_model_against_rule "ModelA" rule1 3
                   (store_down ["ModelA"])
                 = (Raise (ValidationError "Evidence"),
                    store_down ["ModelA"])) by reflexivity.
  exists (ValidationError "Evidence"), (store_down ["ModelA"]).
  split; [exact Hrun|].
  exact (@audit_only_exception scripted_pylib scripted_services
           _ _ _ _ _ _ Hrun).
Defined.

Lemma audit_copies_verdict_witness :
  answering (verdict_text "250") ["ModelA"]
  = answering (verdict_text "250") ["ModelA"]
  /\ dict_get [("status", JStr "PASS"); ("confidence", JInt 250);
               ("quote", JStr "q"); ("reason", JStr "r")] "status"
     = Some (JStr "PASS")
  /\ dict_get [("status", JStr "PASS"); ("confidence", JInt 250);
               ("quote", JStr "q"); ("reason", JStr "r")] "quote"
     = Some (JStr "q")
  /\ dict_get [("status", JStr "PASS"); ("confidence", JInt 250);
               ("quote", JStr "q"); ("reason", JStr "r")] "reason"
     = Some (JStr "r").
Proof.
  apply (@audit_copies_verdict scripted_pylib scripted_services
           "ModelA" rule1 3
           (answering (verdict_text "250") ["ModelA"])
           (answering (verdict_text "250") ["ModelA"])
           (answering (verdict_text "250") ["ModelA"])
           (answering (verdict_text "250") ["ModelA"])
           ["chunk"] (verdict_text "250")
           [("status", JStr "PASS"); ("confidence", JInt 250);
            ("quote", JStr "q"); ("reason", JStr "r")]
           (mkEvidence PASS (Fin 100) "q" "r")).
  - reflexivity.
  - discriminate.
  - reflexivity.
  - reflexivity.
  - reflexivity.
Defined.

Lemma audit_rejects_other_status_witness :
  @audit_model_against_rule verdicts_pylib scripted_services
    "ModelA" rule1 3 (answering na_verdict_text ["ModelA"])
  = (Raise (ValidationError "Evidence"), answering na_verdict_text ["ModelA"]).
Proof.
  apply (@audit_rejects_other_status verdicts_pylib scripted_services
           "ModelA" rule1 3
           (answering na_verdict_text ["ModelA"])
           (answering na_verdict_text ["ModelA"])
           (answering na_verdict_text ["ModelA"])
           ["chunk"] na_verdict_text na_verdict_value).
  - reflexivity.
  - discriminate.
  - reflexivity.
  - reflexivity.
  - reflexivity.
Defined.

Lemma run_full_audit_headers_witness :
  exists items,
    @run_full_audit scripted_pylib no_docs_services ["A"; "B"]
                    fallback_rules tt = (Ok items, tt)
    /\ map header_of items = nested_headers ["A"; "B"] fallback_rules
    /\ List.length items
       = List.length ["A"; "B"] * List.length fallback_rules.
Proof.
  eexists. split; [reflexivity|].
  apply (@run_full_audit_headers scripted_pylib no_docs_services
           ["A"; "B"] fallback_rules tt tt).
  reflexivity.
Defined.

Lemma run_full_audit_only_exception_witness :
  run_full_audit ["ModelA"] [rule1] (store_down ["ModelA"])
  = (Raise (ValidationError "Evidence"), store_down ["ModelA"])
  /\ exists m rule w0,
       In m ["ModelA"] /\ In rule [rule1]
       /\ audit_model_against_rule m rule 3 w0
          = (Raise (ValidationError "Evidence"), store_down ["ModelA"]).
Proof.
  assert (Hrun : run_full_audit ["ModelA"] [rule1] (store_down ["ModelA"])
                 = (Raise (ValidationError "Evidence"),
                    store_down ["ModelA"])) by reflexivity.
  split; [exact Hrun|].
  exact (proj1 (@run_full_audit_only_exception scripted_pylib
                  scripted_services _ _ _ _ _ Hrun)).
Defined.

Lemma no_key_degrades_witness :
  extract_policy_rules "policy" (empty_store [])
  = (Ok fallback_rules, empty_store [])
  /\ validate_policy_document "policy" (empty_store [])
     = (Ok validation_unavailable, empty_store []).
Proof.
  apply (@no_key_degrades scripted_pylib scripted_services
           "policy" (empty_store [])).
  left. reflexivity.
Defined.

Lemma category_breakdown_formula_witness :
  map cb_category
      (category_breakdown
         (calculate_dashboard_stats (items_for "A" 23 80) []))
  = first_appearances (map rule_category (items_for "A" 23 80))
  /\ (forall e,
        In e (category_breakdown
                (calculate_dashboard_stats (items_for "A" 23 80) [])) ->
        cb_pass_count e
        = count_category_status (cb_category e) PASS (items_for "A" 23 80)
        /\ cb_fail_count e
           = count_category_status (cb_category e) FAIL (items_for "A" 23 80)
        /\ 0 < cb_pass_count e + cb_fail_count e
        /\ cb_pass_rate e
           = round_tenths
               (percent (cb_pass_count e)
                        (cb_pass_count e + cb_fail_count e))).
Proof.
  apply (@category_breakdown_formula scripted_pylib
           (items_for "A" 23 80) []).
  intros q. reflexivity.
Defined.

(** The category of these 80 items, 23 of them PASS, is reported with the
    pass_rate 28.7. *)
Example category_pass_rate_23_of_80 :
  map (fun e => (cb_category e, cb_pass_count e, cb_fail_count e,
                 cb_pass_rate e))
      (category_breakdown
         (calculate_dashboard_stats (items_for "A" 23 80) []))
  = [("Safety", 23, 57, b64 (287 # 10))].
Proof. vm_compute. reflexivity. Qed.

Lemma avg_confidence_formula_witness :
  rk_total_rules (entry_of (items_for "A" 1 3) "A")
  = List.length
      (items_of_model (rk_model_name (entry_of (items_for "A" 1 3) "A"))
                      (items_for "A" 1 3))
  /\ 0 < rk_total_rules (entry_of (items_for "A" 1 3) "A")
  /\ rk_avg_confidence (entry_of (items_for "A" 1 3) "A")
     = py_round1
         (fdiv_nat
            (confidence_sum
               (items_of_model
                  (rk_model_name (entry_of (items_for "A" 1 3) "A"))
                  (items_for "A" 1 3)))
            (List.length
               (items_of_model
                  (rk_model_name (entry_of (items_for "A" 1 3) "A"))
                  (items_for "A" 1 3)))).
Proof.
  apply (@avg_confidence_formula scripted_pylib (items_for "A" 1 3) []
           (entry_of (items_for "A" 1 3) "A")).
  vm_compute. left. reflexivity.
Defined.

Lemma get_available_models_sorted_witness :
  get_available_models (empty_store ["B"; "A"; "B"])
  = (Ok ["A"; "B"], empty_store ["B"; "A"; "B"])
  /\ NoDup ["A"; "B"]
  /\ Sorted (fun a b => String.leb a b = true) ["A"; "B"]
  /\ forall name,
       In name ["A"; "B"] <-> In (Some name) [Some "B"; Some "A"; Some "B"].
Proof.
  assert (Hrun : get_available_models (empty_store ["B"; "A"; "B"])
                 = (Ok ["A"; "B"], empty_store ["B"; "A"; "B"]))
    by reflexivity.
  destruct (@get_available_models_sorted scripted_services _ _ _ Hrun)
    as (Hnodup & Hsorted & Hnames & _).
  split; [exact Hrun|]. split; [exact Hnodup|]. split; [exact Hsorted|].
  apply Hnames. reflexivity.
Defined.

Lemma stream_without_models_witness :
  exists start done,
    stream_audit "p.pdf" fallback_rules ([], empty_store [])
    = (Ok tt,
       ([] ++ [start; done],
        mkScript None (inl "unreachable") (fun _ => Ok []) []
          [mkAuditResponse "p.pdf" (List.length fallback_rules) 0
                           fallback_rules []]))
    /\ event start = "progress"
    /\ event_field "total_audits" start = Some (JNat 0)
    /\ event done = "complete"
    /\ event_field "audit_id" done = Some (JStr "audit-0")
    /\ event_field "total_audits" done = Some (JNat 0).
Proof.
  apply (@stream_without_models scripted_pylib scripted_services
           "p.pdf" fallback_rules [] (empty_store []) (empty_store [])).
  - reflexivity.
  - reflexivity.
Defined.

Lemma stream_rejects_short_text_witness :
  exists first,
    event_generator "p.pdf" (list_byte_of_string "tiny")
                    (empty_store ["ModelA"])
    = ([first; error_event "PDF appears to be empty or unreadable"],
       empty_store ["ModelA"])
    /\ event first = "progress".
Proof.
  apply (@stream_rejects_short_text scripted_pylib scripted_services
           "p.pdf" (list_byte_of_string "tiny") (empty_store ["ModelA"])
           "tiny").
  - reflexivity.
  - simpl. lia.
Defined.

Lemma stream_rejects_non_policy_witness :
  exists e1 e2,
    @event_generator verdicts_pylib scripted_services "p.pdf" short_pdf
      (answering not_policy_text ["ModelA"])
    = ([e1; e2;
        error_event ("Document does not appear to be a policy. "
                     ++ @str_of_value verdicts_pylib (JStr "A recipe."))],
       answering not_policy_text ["ModelA"])
    /\ event e1 = "progress" /\ event e2 = "progress".
Proof.
  apply (@stream_rejects_non_policy verdicts_pylib scripted_services
           "p.pdf" short_pdf (answering not_policy_text ["ModelA"])
           (answering not_policy_text ["ModelA"]) short_policy
           not_policy_value (JBool false) (JStr "A recipe.")).
  - vm_compute. reflexivity.
  - vm_compute. lia.
  - vm_compute. reflexivity.
  - reflexivity.
  - reflexivity.
  - reflexivity.
Defined.

Lemma analyze_ignores_store_failure_witness :
  @analyze_policy scripted_pylib failing_store_services true "p.pdf"
                  short_pdf tt
  = (Response undocumented_response, tt).
Proof.
  apply (@analyze_ignores_store_failure scripted_pylib failing_store_services
           "p.pdf" short_pdf tt tt tt tt tt tt short_policy
           validation_unavailable (JBool true)
           (JStr "Validation check could not be performed, proceeding with analysis")
           fallback_rules ["ModelA"] undocumented_items
           (ServiceError "database down")).
  - reflexivity.
  - vm_compute. reflexivity.
  - vm_compute. lia.
  - vm_compute. reflexivity.
  - reflexivity.
  - reflexivity.
  - reflexivity.
  - vm_compute. reflexivity.
  - discriminate.
  - reflexivity.
  - discriminate.
  - vm_compute. reflexivity.
  - reflexivity.
Defined.

Lemma analyze_response_is_complete_witness :
  @analyze_policy scripted_pylib one_model_services true "p.pdf" short_pdf tt
  = (Response undocumented_response, tt)
  /\ List.length (audit_results undocumented_response)
     = total_models undocumented_response
       * total_rules undocumented_response
  /\ exists model_names,
       NoDup model_names
       /\ List.length model_names = total_models undocumented_response
       /\ map header_of (audit_results undocumented_response)
          = nested_headers model_names (rules undocumented_response).
Proof.
  assert (Hrun : @analyze_policy scripted_pylib one_model_services true
                   "p.pdf" short_pdf tt
                 = (Response undocumented_response, tt))
    by (vm_compute; reflexivity).
  destruct (@analyze_response_is_complete scripted_pylib one_model_services
              _ _ _ _ _ _ Hrun)
    as (_ & _ & _ & _ & _ & Hlen & Hmatrix).
  split; [exact Hrun|]. split; [exact Hlen|exact Hmatrix].
Defined.

Lemma analyze_rejects_no_models_witness :
  @analyze_policy scripted_pylib no_docs_services true "p.pdf" short_pdf tt
  = (HTTPException 500 "No models found in vector store", tt).
Proof.
  apply (@analyze_rejects_no_models scripted_pylib no_docs_services
           "p.pdf" short_pdf tt tt tt tt short_policy
           validation_unavailable (JBool true)
           (JStr "Validation check could not be performed, proceeding with analysis")
           fallback_rules).
  - reflexivity.
  - vm_compute. reflexivity.
  - vm_compute. lia.
  - vm_compute. reflexivity.
  - reflexivity.
  - reflexivity.
  - reflexivity.
  - vm_compute. reflexivity.
  - discriminate.
  - reflexivity.
Defined.

Lemma compare_matches_dashboard_witness :
  map fst (snd (compare_models_core (Some ["B"])
                  (mkAuditResponse "p.pdf" 1 2 [] two_model_items)))
  = first_appearances
      (map model_name (compare_filter (Some ["B"]) two_model_items))
  /\ 2 = count_model_status "B" PASS two_model_items
  /\ 0 = count_model_status "B" FAIL two_model_items
  /\ 0 = 0
  /\ JFloat (Fin 100)
     = JFloat (rk_compliance_score (entry_of two_model_items "B")).
Proof.
  apply (@compare_matches_dashboard scripted_pylib (Some ["B"])
           (mkAuditResponse "p.pdf" 1 2 [] two_model_items) "B"
           (mkCompareStats 2 0 0
              [mkCompareRow "1" "q" "Safety" PASS "q" "r";
               mkCompareRow "1" "q" "Safety" PASS "q" "r"])
           (JFloat (Fin 100))).
  vm_compute. left. reflexivity.
Defined.
